(** * CLIP: the conversation session and continuation engine of [index.js]

    A shallow embedding of the session state, the record store, the history
    index and the continuation resolver of the command-line chat client, and
    the properties of them that the specification states.

    Conventions of the embedding.
    - The module-level [let] variables of [index.js] are the fields of the
      record [state]; every function that assigns them is a function
      [state -> state] (with a result in front where the source returns or
      prints one).
    - The files under [~/.clipai] are the field [fs] of the state.  A JSON
      file is modelled by what [JSON.parse] makes of it: [Corrupt] when it
      throws, [Parsed v] when it returns the value [v] of the shape the
      program writes.  A directory is the list of its [<id>.json] entries in
      the order [readdirSync] enumerates them, keyed by [<id>]; files without
      the [.json] suffix are skipped by the source and are not represented.
      The directories exist ([ensureSecureDirectories] runs before
      [startCLI]) and writes succeed.
    - [Date.now()] is an argument [now : Z] of each function that reads the
      clock, one argument per call.
    - A JavaScript string is a [string]; [string | null] is [option string];
      truthiness of a string is non-emptiness.
    - A number that [parseInt] returns is a [jsnum]: a double with an
      integer value, an infinity or [NaN]; reading a numeral and subtracting
      round to the nearest double.
    - The first part embeds the session, the store and the resolver; of
      [handlePrompt] it keeps what the function does to the session once
      the answer of the service is known.  The second part embeds the rest:
      the prompt, the recalled command lines ([saveHistory]), the request,
      the retries and the reading of the stream.  What the terminal shows
      is not embedded. *)

From Stdlib Require Import ZArith Ascii Permutation Sorted.
From stdpp Require Import gmap strings list fin_maps pretty sorting.

Open Scope string_scope.
Open Scope list_scope.

(** ** Data *)

Inductive role := User | Assistant.

Record message := Message { msg_role : role; content : string }.

(** [historyEntry] of [saveResponseToHistory]. *)
Record historyEntry := HistoryEntry {
  he_prompt : string;
  he_response : string;
  he_fullResponse : string;
  he_id : string;
  he_timestamp : Z
}.

(** An element of [allResponseHistory]: [{...historyEntry, conversationId}]. *)
Record globalEntry := GlobalEntry {
  ge_entry : historyEntry;
  ge_conversationId : string
}.

(** The object written to [state.json]. *)
Record stateJson := StateJson {
  sj_lastResponseId : option string;
  sj_conversationContext : list message;
  sj_currentConversationId : option string;
  sj_pausedConversation : bool;
  sj_pausedConversationContext : list message;
  sj_pausedConversationId : option string
}.

(** The object written to [conversations/<id>.json]. *)
Record convData := ConvData {
  cd_id : string;
  cd_context : list message;
  cd_history : list string
}.

Inductive file (A : Type) : Type :=
| Corrupt : file A
| Parsed : A -> file A.
Arguments Corrupt {A}.
Arguments Parsed {A} _.

Record disk := Disk {
  STATE_FILE : option (file stateJson);
  CONVERSATIONS_DIR : list (string * file convData);
  RESPONSES_DIR : list (string * file (list historyEntry))
}.

Record state := State {
  lastResponseId : option string;
  conversationContext : list message;
  currentConversationId : option string;
  pausedConversation : bool;
  pausedConversationContext : list message;
  pausedConversationId : option string;
  commandHistory : list string;
  conversationHistories : gmap string (list string);
  responseHistory : gmap string (list historyEntry);
  allResponseHistory : list globalEntry;
  fs : disk
}.

#[global] Instance role_eq_dec : EqDecision role.
Proof. solve_decision. Defined.
#[global] Instance message_eq_dec : EqDecision message.
Proof. solve_decision. Defined.
#[global] Instance historyEntry_eq_dec : EqDecision historyEntry.
Proof. solve_decision. Defined.
#[global] Instance globalEntry_eq_dec : EqDecision globalEntry.
Proof. solve_decision. Defined.

Definition MAX_HISTORY : nat := 50.

(** ** Assignments to the module-level variables *)

Definition set_lastResponseId (v : option string) (st : state) : state :=
  State v (conversationContext st) (currentConversationId st)
    (pausedConversation st) (pausedConversationContext st)
    (pausedConversationId st) (commandHistory st) (conversationHistories st)
    (responseHistory st) (allResponseHistory st) (fs st).

Definition set_conversationContext (v : list message) (st : state) : state :=
  State (lastResponseId st) v (currentConversationId st)
    (pausedConversation st) (pausedConversationContext st)
    (pausedConversationId st) (commandHistory st) (conversationHistories st)
    (responseHistory st) (allResponseHistory st) (fs st).

Definition set_currentConversationId (v : option string) (st : state) : state :=
  State (lastResponseId st) (conversationContext st) v
    (pausedConversation st) (pausedConversationContext st)
    (pausedConversationId st) (commandHistory st) (conversationHistories st)
    (responseHistory st) (allResponseHistory st) (fs st).

Definition set_pausedConversation (v : bool) (st : state) : state :=
  State (lastResponseId st) (conversationContext st) (currentConversationId st)
    v (pausedConversationContext st)
    (pausedConversationId st) (commandHistory st) (conversationHistories st)
    (responseHistory st) (allResponseHistory st) (fs st).

Definition set_pausedConversationContext (v : list message) (st : state) : state :=
  State (lastResponseId st) (conversationContext st) (currentConversationId st)
    (pausedConversation st) v
    (pausedConversationId st) (commandHistory st) (conversationHistories st)
    (responseHistory st) (allResponseHistory st) (fs st).

Definition set_pausedConversationId (v : option string) (st : state) : state :=
  State (lastResponseId st) (conversationContext st) (currentConversationId st)
    (pausedConversation st) (pausedConversationContext st)
    v (commandHistory st) (conversationHistories st)
    (responseHistory st) (allResponseHistory st) (fs st).

Definition set_commandHistory (v : list string) (st : state) : state :=
  State (lastResponseId st) (conversationContext st) (currentConversationId st)
    (pausedConversation st) (pausedConversationContext st)
    (pausedConversationId st) v (conversationHistories st)
    (responseHistory st) (allResponseHistory st) (fs st).

Definition set_conversationHistories (v : gmap string (list string)) (st : state) : state :=
  State (lastResponseId st) (conversationContext st) (currentConversationId st)
    (pausedConversation st) (pausedConversationContext st)
    (pausedConversationId st) (commandHistory st) v
    (responseHistory st) (allResponseHistory st) (fs st).

Definition set_responseHistory (v : gmap string (list historyEntry)) (st : state) : state :=
  State (lastResponseId st) (conversationContext st) (currentConversationId st)
    (pausedConversation st) (pausedConversationContext st)
    (pausedConversationId st) (commandHistory st) (conversationHistories st)
    v (allResponseHistory st) (fs st).

Definition set_allResponseHistory (v : list globalEntry) (st : state) : state :=
  State (lastResponseId st) (conversationContext st) (currentConversationId st)
    (pausedConversation st) (pausedConversationContext st)
    (pausedConversationId st) (commandHistory st) (conversationHistories st)
    (responseHistory st) v (fs st).

Definition set_fs (v : disk) (st : state) : state :=
  State (lastResponseId st) (conversationContext st) (currentConversationId st)
    (pausedConversation st) (pausedConversationContext st)
    (pausedConversationId st) (commandHistory st) (conversationHistories st)
    (responseHistory st) (allResponseHistory st) v.

(** ** JavaScript primitives *)

(** Truthiness of a string: every string but the empty one. *)
Definition truthy (s : string) : bool := negb (String.eqb s "").

(** Truthiness of a [string | null]. *)
Definition truthy_opt (o : option string) : bool :=
  match o with
  | Some s => truthy s
  | None => false
  end.

(** The template literal [`conv_${Date.now()}`]. *)
Definition mintConversationId (now : Z) : string := "conv_" +:+ pretty now.

(** [fs.writeFileSync] into a directory: an existing entry is overwritten in
    place, a new one is added. *)
Fixpoint writeFile {A : Type} (name : string) (v : A) (dir : list (string * A))
  : list (string * A) :=
  match dir with
  | [] => [(name, v)]
  | (n, x) :: rest =>
      if String.eqb n name then (n, v) :: rest
      else (n, x) :: writeFile name v rest
  end.

Fixpoint readFile {A : Type} (name : string) (dir : list (string * A)) : option A :=
  match dir with
  | [] => None
  | (n, x) :: rest => if String.eqb n name then Some x else readFile name rest
  end.

(** ** Record store: [saveState] *)

Definition currentStateJson (st : state) : stateJson :=
  StateJson (lastResponseId st) (conversationContext st)
    (currentConversationId st) (pausedConversation st)
    (pausedConversationContext st) (pausedConversationId st).

Definition saveState (st : state) : state :=
  let d := fs st in
  let d1 := Disk (Some (Parsed (currentStateJson st)))
                 (CONVERSATIONS_DIR d) (RESPONSES_DIR d) in
  match currentConversationId st with
  | Some cid =>
      if truthy cid then
        let convData :=
          ConvData cid (conversationContext st)
            (default [] (conversationHistories st !! cid)) in
        set_fs (Disk (STATE_FILE d1)
                     (writeFile cid (Parsed convData) (CONVERSATIONS_DIR d1))
                     (RESPONSES_DIR d1)) st
      else set_fs d1 st
  | None => set_fs d1 st
  end.

(** ** History index: [saveResponseToHistory] *)

(** [aiResponse.substring(0, 100) + (aiResponse.length > 100 ? '...' : '')] *)
Definition truncateForDisplay (aiResponse : string) : string :=
  String.substring 0 100 aiResponse
  +:+ (if (100 <? String.length aiResponse)%nat then "..." else "").

(** [l.length > n ? l.slice(0, n) : l] *)
Definition capAt {A : Type} (n : nat) (l : list A) : list A :=
  if (n <? length l)%nat then take n l else l.

Definition saveResponseToHistory (userPrompt aiResponse : string)
    (responseId : option string) (now : Z) (st : state) : state :=
  match responseId, currentConversationId st with
  | Some rid, Some cid =>
      if truthy rid && truthy aiResponse && truthy cid then
        let historyEntry :=
          HistoryEntry userPrompt (truncateForDisplay aiResponse) aiResponse
            rid now in
        let existing := default [] (responseHistory st !! cid) in
        let mine := capAt MAX_HISTORY (historyEntry :: existing) in
        let all :=
          capAt (MAX_HISTORY * 5)
            (GlobalEntry historyEntry cid :: allResponseHistory st) in
        let d := fs st in
        set_fs (Disk (STATE_FILE d) (CONVERSATIONS_DIR d)
                     (writeFile cid (Parsed mine) (RESPONSES_DIR d)))
          (set_allResponseHistory all
            (set_responseHistory (<[cid := mine]> (responseHistory st)) st))
      else st
  | _, _ => st
  end.

(** ** Completions: the [try]/[catch] of [loadState]

    A computation either completes normally with a value and a state, or
    throws, leaving the state as it was at the throw. *)

Inductive completion (A : Type) : Type :=
| Normal : A -> state -> completion A
| Throw : state -> completion A.
Arguments Normal {A} _ _.
Arguments Throw {A} _.

Definition js (A : Type) : Type := state -> completion A.

Definition ret {A : Type} (a : A) : js A := fun st => Normal a st.

Definition bind {A B : Type} (m : js A) (k : A -> js B) : js B :=
  fun st =>
    match m st with
    | Normal a st' => k a st'
    | Throw st' => Throw st'
    end.

Definition throw {A : Type} : js A := fun st => Throw st.
Definition get : js state := fun st => Normal st st.
Definition modify (f : state -> state) : js unit := fun st => Normal tt (f st).

#[global] Instance js_ret : MRet js := @ret.
#[global] Instance js_bind : MBind js := fun A B k m => bind m k.

(** [l.forEach(f)] *)
Fixpoint forEach {A : Type} (f : A -> js unit) (l : list A) : js unit :=
  match l with
  | [] => ret tt
  | x :: rest => f x ;; forEach f rest
  end.

(** [JSON.parse(fs.readFileSync(...))] *)
Definition parse {A : Type} (f : file A) : js A :=
  match f with
  | Corrupt => throw
  | Parsed v => ret v
  end.

(** ** Record store: [resetState] and [loadState] *)

(** The values the module-level variables are declared with. *)
Definition initialState (d : disk) : state :=
  State None [] None false [] None [] ∅ ∅ [] d.

Definition resetState (st : state) : state := initialState (fs st).

Definition defaultState : stateJson := StateJson None [] None false [] None.

Definition assignStateJson (s : stateJson) (st : state) : state :=
  set_pausedConversationId (sj_pausedConversationId s)
    (set_pausedConversationContext (sj_pausedConversationContext s)
      (set_pausedConversation (sj_pausedConversation s)
        (set_currentConversationId (sj_currentConversationId s)
          (set_conversationContext (sj_conversationContext s)
            (set_lastResponseId (sj_lastResponseId s) st))))).

(** [allResponseHistory.sort((a, b) => b.timestamp - a.timestamp)]: a stable
    sort, descending by timestamp.  [insertByTimestamp x l] puts [x], which
    stood before every element of [l], in front of the first element that is
    not strictly more recent. *)
Fixpoint insertByTimestamp (x : globalEntry) (l : list globalEntry)
  : list globalEntry :=
  match l with
  | [] => [x]
  | y :: rest =>
      if (he_timestamp (ge_entry x) <? he_timestamp (ge_entry y))%Z
      then y :: insertByTimestamp x rest
      else x :: y :: rest
  end.

Fixpoint sortByTimestamp (l : list globalEntry) : list globalEntry :=
  match l with
  | [] => []
  | x :: rest => insertByTimestamp x (sortByTimestamp rest)
  end.

(** [respData.map(r => ({...r, conversationId: convId}))] *)
Definition tagWith (convId : string) (respData : list historyEntry)
  : list globalEntry :=
  map (fun r => GlobalEntry r convId) respData.

Definition loadStateFile : js unit :=
  st ← get;
  match STATE_FILE (fs st) with
  | None =>
      modify (set_fs (Disk (Some (Parsed defaultState))
                           (CONVERSATIONS_DIR (fs st)) (RESPONSES_DIR (fs st))))
  | Some f =>
      s ← parse f;
      modify (assignStateJson s)
  end.

Definition loadConversationFile (entry : string * file convData) : js unit :=
  let convId := fst entry in
  convData ← parse (snd entry);
  modify (fun st =>
    set_conversationHistories
      (<[convId := cd_history convData]> (conversationHistories st)) st).

Definition loadResponsesFile (entry : string * file (list historyEntry))
  : js unit :=
  let convId := fst entry in
  respData ← parse (snd entry);
  modify (fun st =>
    set_allResponseHistory (allResponseHistory st ++ tagWith convId respData)
      (set_responseHistory (<[convId := respData]> (responseHistory st)) st)).

(** The body of the [try] block. *)
Definition loadState_try : js unit :=
  loadStateFile ;;
  st ← get;
  forEach loadConversationFile (CONVERSATIONS_DIR (fs st)) ;;
  st ← get;
  forEach loadResponsesFile (RESPONSES_DIR (fs st)) ;;
  modify (fun st =>
    set_allResponseHistory (sortByTimestamp (allResponseHistory st)) st).

(** What [loadState] writes with [console.error]. *)
Inductive loadLog := LoadedQuietly | ErrorLoadingState.

Definition loadState (st : state) : loadLog * state :=
  match loadState_try st with
  | Normal _ st' => (LoadedQuietly, st')
  | Throw st' => (ErrorLoadingState, resetState st')
  end.

(** ** Session state transitions *)

Definition startNewConversation (now : Z) (st : state) : string * state :=
  let cid := mintConversationId now in
  let st1 := set_lastResponseId None st in
  let st2 := set_conversationContext [] st1 in
  let st3 := set_currentConversationId (Some cid) st2 in
  let st4 := set_commandHistory [] st3 in
  let st5 :=
    set_conversationHistories
      (<[cid := commandHistory st4]> (conversationHistories st4)) st4 in
  (cid, saveState st5).

(** [startCLI], up to the first [promptUser]. *)
Definition startCLI (st : state) : state :=
  let st0 := snd (loadState st) in
  let st1 := set_lastResponseId None st0 in
  let st2 := set_conversationContext [] st1 in
  let st3 := set_currentConversationId None st2 in
  let st4 := set_pausedConversation false st3 in
  let st5 := set_pausedConversationContext [] st4 in
  let st6 := set_pausedConversationId None st5 in
  let st7 := set_commandHistory [] st6 in
  saveState st7.

(** The [new] command. *)
Definition newCommand (now : Z) (st : state) : state :=
  let st1 := set_pausedConversation false st in
  let st2 := set_pausedConversationContext [] st1 in
  let st3 := set_pausedConversationId None st2 in
  snd (startNewConversation now st3).

(** [promptUser], for a line that is not a command: what happens before the
    line is handed to [saveHistory] and [handlePrompt]. *)
Definition promptUser_regular (now : Z) (st : state) : state :=
  let st1 :=
    if pausedConversation st && (length (conversationContext st) =? 0)%nat
    then set_conversationContext [] (set_currentConversationId None st)
    else st in
  if negb (truthy_opt (currentConversationId st1)) then
    let cid := mintConversationId now in
    let st2 := set_currentConversationId (Some cid) st1 in
    let st3 :=
      set_conversationHistories (<[cid := []]> (conversationHistories st2)) st2 in
    let st4 := set_commandHistory [] st3 in
    saveState st4
  else st1.

(** [lastMessage.role === "user" && lastMessage.content === prompt] *)
Definition isUserTurn (prompt : string) (lastMessage : message) : bool :=
  bool_decide (msg_role lastMessage = User)
  && String.eqb (content lastMessage) prompt.

(** The two pushes of [handlePrompt] that add the exchange to
    [conversationContext]. *)
Definition pushExchange (prompt fullResponse : string)
    (conversationContext : list message) : list message :=
  let newUserMessage := Message User prompt in
  let newAssistantMessage := Message Assistant fullResponse in
  let withUser :=
    if (length conversationContext =? 0)%nat then [newUserMessage]
    else
      match last conversationContext with
      | Some lastMessage =>
          if negb (isUserTurn prompt lastMessage)
          then conversationContext ++ [newUserMessage]
          else conversationContext
      | None => [newUserMessage]
      end in
  withUser ++ [newAssistantMessage].

(** [if (!currentConversationId) currentConversationId = `conv_${Date.now()}`] *)
Definition ensureConversationId (now : Z) (st : state) : state :=
  if negb (truthy_opt (currentConversationId st))
  then set_currentConversationId (Some (mintConversationId now)) st
  else st.

(** [handlePrompt], when the service answers with a complete response object
    (its [id] is truthy): [fullResponse] is the concatenated output text. *)
Definition handlePrompt_complete (prompt fullResponse responseId : string)
    (nowRecord nowMint : Z) (st : state) : state :=
  let st1 := set_lastResponseId (Some responseId) st in
  let st2 :=
    saveResponseToHistory prompt fullResponse (Some responseId) nowRecord st1 in
  if truthy fullResponse then
    let st3 := ensureConversationId nowMint st2 in
    let st4 :=
      set_conversationContext
        (pushExchange prompt fullResponse (conversationContext st3)) st3 in
    let st5 := set_pausedConversationContext (conversationContext st4) st4 in
    let st6 := set_pausedConversationId (currentConversationId st5) st5 in
    let st7 := set_pausedConversation true st6 in
    let st8 := set_conversationContext [] st7 in
    saveState st8
  else st2.

(** [handlePrompt], when the service answers with a stream: the state once
    the stream is drained, with the text and the response id collected from
    its events. *)
Definition handlePrompt_stream (prompt fullResponse : string)
    (responseId : option string) (nowMint nowRecord : Z) (st : state) : state :=
  if truthy fullResponse then
    let st1 := ensureConversationId nowMint st in
    let st2 :=
      set_conversationContext
        (pushExchange prompt fullResponse (conversationContext st1)) st1 in
    let st3 := set_pausedConversationContext (conversationContext st2) st2 in
    let st4 := set_pausedConversationId (currentConversationId st3) st3 in
    let st5 := set_pausedConversation true st4 in
    let st6 :=
      if truthy_opt responseId then
        saveResponseToHistory prompt fullResponse responseId nowRecord
          (set_lastResponseId responseId st5)
      else set_lastResponseId None st5 in
    let st7 := set_conversationContext [] st6 in
    saveState st7
  else st.

(** ** The [continue] command *)

(** A JavaScript number as [parseInt] and the subtraction produce it: not a
    number, an infinity with its sign, or the integer [z].  The zero of
    [Int 0] stands for both zeros, which the program cannot tell apart. *)
Inductive jsnum := NaN | Infinity (negative : bool) | Int (z : Z).

#[global] Instance jsnum_eq_dec : EqDecision jsnum.
Proof. solve_decision. Defined.

(** The double nearest to the integer [z], ties to the even significand: an
    integer below [2^53] in size is a double; a larger one keeps its 53
    leading bits, rounded; from [2^1024] on the result is an infinity. *)
Definition toDouble (z : Z) : jsnum :=
  let a := Z.abs z in
  if (a <? 2 ^ 53)%Z then Int z
  else
    let e := (Z.log2 a - 52)%Z in
    let q := (a / 2 ^ e)%Z in
    let r := (a mod 2 ^ e)%Z in
    let half := (2 ^ (e - 1))%Z in
    let q' := if (half <? r)%Z || ((r =? half)%Z && Z.odd q)
              then (q + 1)%Z else q in
    let v := (q' * 2 ^ e)%Z in
    if (2 ^ 1024 <=? v)%Z then Infinity (z <? 0)%Z else Int (Z.sgn z * v).

Definition digitValue (c : ascii) : option Z :=
  let n := Z.of_N (N_of_ascii c) in
  if ((48 <=? n) && (n <=? 57))%Z then Some (n - 48)%Z else None.

(** The longest prefix of decimal digits, read as a number; [acc] is [None]
    until a digit has been read. *)
Fixpoint parseDigits (s : string) (acc : option Z) : option Z :=
  match s with
  | EmptyString => acc
  | String c rest =>
      match digitValue c with
      | Some d => parseDigits rest (Some (10 * default 0%Z acc + d)%Z)
      | None => acc
      end
  end.

(** [parseInt(s, 10)] on a token of [split(/\s+/)], which holds no white
    space: an optional sign, then the longest prefix of digits, read as the
    nearest double, which is how Node reads a decimal numeral of any
    length. *)
Definition parseInt (s : string) : jsnum :=
  match s with
  | String "-"%char rest =>
      match parseDigits rest None with
      | Some z => toDouble (- z)
      | None => NaN
      end
  | String "+"%char rest =>
      match parseDigits rest None with
      | Some z => toDouble z
      | None => NaN
      end
  | _ =>
      match parseDigits s None with
      | Some z => toDouble z
      | None => NaN
      end
  end.

(** [x - 1], the subtraction of doubles: the exact difference, rounded. *)
Definition minusOne (x : jsnum) : jsnum :=
  match x with
  | NaN => NaN
  | Infinity negative => Infinity negative
  | Int z => toDouble (z - 1)
  end.

(** Which [return] of [continueConversation] was taken, with what it printed
    and returned. *)
Inductive outcome :=
| ResumedPaused
| ContinuedFromResponse (historyIndex : Z)
| ContinuedMostRecent
| ContinuedFromGlobal
| NothingToContinue.

Definition printed (o : outcome) : string :=
  match o with
  | ResumedPaused => "Resuming paused conversation..."
  | ContinuedFromResponse i => "Continuing from response #" +:+ pretty (i + 1)%Z
  | ContinuedMostRecent => "Continuing from most recent response"
  | ContinuedFromGlobal => "Continuing from most recent response"
  | NothingToContinue => "No response history available to continue from."
  end.

Definition returned (o : outcome) : bool :=
  match o with
  | NothingToContinue => false
  | _ => true
  end.

(** [[{role: "user", content: r.prompt}, {role: "assistant", content: r.fullResponse}]] *)
Definition contextOf (r : historyEntry) : list message :=
  [Message User (he_prompt r); Message Assistant (he_fullResponse r)].

(** [pausedConversationContext.filter(msg => msg.role === "assistant").pop()] *)
Definition lastAssistantMessage (context : list message) : option message :=
  last (filter (fun msg => msg_role msg = Assistant) context).

(** [resp => resp.fullResponse === lastAssistantMessage?.content] *)
Definition matchesResponse (lastAssistant : option message)
    (resp : historyEntry) : bool :=
  match lastAssistant with
  | Some msg => String.eqb (he_fullResponse resp) (content msg)
  | None => false
  end.

(** The first branch of [continueConversation]. *)
Definition resumePaused (st : state) : state :=
  let paused := pausedConversationContext st in
  let st1 := set_conversationContext paused st in
  let st2 := set_currentConversationId (pausedConversationId st1) st1 in
  let st3 :=
    if (2 <=? length paused)%nat then
      match currentConversationId st2 with
      | Some cid =>
          if truthy cid then
            match responseHistory st2 !! cid with
            | Some responses =>
                match find (matchesResponse (lastAssistantMessage paused))
                           responses with
                | Some matchingResponse =>
                    set_lastResponseId (Some (he_id matchingResponse)) st2
                | None => st2
                end
            | None => st2
            end
          else st2
      | None => st2
      end
    else st2 in
  let st4 :=
    match currentConversationId st3 with
    | Some cid =>
        if truthy cid then
          match conversationHistories st3 !! cid with
          | Some history => set_commandHistory history st3
          | None => st3
          end
        else st3
    | None => st3
    end in
  let st5 := set_pausedConversation false st4 in
  let st6 := set_pausedConversationContext [] st5 in
  let st7 := set_pausedConversationId None st6 in
  saveState st7.

(** [currentConversationId && responseHistory[currentConversationId]
     ? responseHistory[currentConversationId] : []] *)
Definition currentResponses (st : state) : list historyEntry :=
  match currentConversationId st with
  | Some cid =>
      if truthy cid then default [] (responseHistory st !! cid) else []
  | None => []
  end.

(** The record [currentResponses[historyIndex]] when
    [historyIndex !== null && historyIndex >= 0
     && historyIndex < currentResponses.length]. *)
Definition selectedResponse (historyIndex : option jsnum) (st : state)
  : option (Z * historyEntry) :=
  match historyIndex with
  | Some (Int i) =>
      if ((0 <=? i) && (i <? Z.of_nat (length (currentResponses st))))%Z
      then r ← currentResponses st !! Z.to_nat i; Some (i, r)
      else None
  | _ => None
  end.

Definition continueConversation (historyIndex : option jsnum) (now : Z)
    (st : state) : outcome * state :=
  if bool_decide (historyIndex = None) && pausedConversation st then
    (ResumedPaused, resumePaused st)
  else
    match selectedResponse historyIndex st with
    | Some (i, selected) =>
        let st1 := set_lastResponseId (Some (he_id selected)) st in
        let st2 := ensureConversationId now st1 in
        let st3 := set_conversationContext (contextOf selected) st2 in
        (ContinuedFromResponse i, saveState st3)
    | None =>
        match currentResponses st with
        | lastResponse :: _ =>
            let st1 := set_lastResponseId (Some (he_id lastResponse)) st in
            let st2 := set_conversationContext (contextOf lastResponse) st1 in
            (ContinuedMostRecent, saveState st2)
        | [] =>
            match allResponseHistory st with
            | lastResponse :: _ =>
                let r := ge_entry lastResponse in
                let st1 := set_lastResponseId (Some (he_id r)) st in
                let st2 :=
                  set_currentConversationId (Some (mintConversationId now)) st1 in
                let st3 := set_conversationContext (contextOf r) st2 in
                (ContinuedFromGlobal, saveState st3)
            | [] => (NothingToContinue, st)
            end
        end
    end.

(** The [continue] case of [promptUser]: [commandParts] is the command line
    split at white space, [commandParts[0]] being [continue]. *)
Definition continueCommand (commandParts : list string) (now : Z) (st : state)
  : outcome * state :=
  let historyIndex :=
    match commandParts with
    | _ :: arg :: _ => Some (minusOne (parseInt arg))
    | _ => None
    end in
  continueConversation historyIndex now st.

(** * Vocabulary of the properties *)

(** ** Capturing an exchange *)

(** The last message of the context is already the user turn for [prompt]. *)
Definition duplicateSuppressed (prompt : string) (context : list message) : bool :=
  match last context with
  | Some lastMessage => isUserTurn prompt lastMessage
  | None => false
  end.

(** The state in which an exchange leaves the session, for either answer of
    the service. *)
Inductive exchanged (prompt fullResponse : string) (st : state) : state -> Prop :=
| exchanged_complete responseId nowRecord nowMint :
    exchanged prompt fullResponse st
      (handlePrompt_complete prompt fullResponse responseId nowRecord nowMint st)
| exchanged_stream responseId nowMint nowRecord :
    exchanged prompt fullResponse st
      (handlePrompt_stream prompt fullResponse responseId nowMint nowRecord st).

(** ** Selecting a response *)

(** [n] is a position of the current conversation's response list, counted
    from 1. *)
Definition validPosition (n : Z) (st : state) : Prop :=
  (1 <= n <= Z.of_nat (length (currentResponses st)))%Z.

(** The argument of [continue] does not select a response: it did not parse,
    it is beyond every double, or it is not a position of the current
    conversation's list. *)
Definition selectsNothing (historyIndex : jsnum) (st : state) : Prop :=
  match historyIndex with
  | NaN => True
  | Infinity _ => True
  | Int i => ~ validPosition (i + 1) st
  end.

(** ** Sequences of insertions into the history index *)

(** One call of [saveResponseToHistory], made while [rc_conversation] is the
    current conversation. *)
Record recordCall := RecordCall {
  rc_conversation : option string;
  rc_prompt : string;
  rc_response : string;
  rc_id : option string;
  rc_now : Z
}.

Definition runCall (st : state) (c : recordCall) : state :=
  saveResponseToHistory (rc_prompt c) (rc_response c) (rc_id c) (rc_now c)
    (set_currentConversationId (rc_conversation c) st).

Definition runCalls (calls : list recordCall) (st : state) : state :=
  foldl runCall st calls.

(** The conversation and the record of a call that passes the guard of
    [saveResponseToHistory]. *)
Definition recorded (c : recordCall) : option (string * historyEntry) :=
  match rc_id c, rc_conversation c with
  | Some rid, Some cid =>
      if truthy rid && truthy (rc_response c) && truthy cid then
        Some (cid, HistoryEntry (rc_prompt c)
                     (truncateForDisplay (rc_response c)) (rc_response c)
                     rid (rc_now c))
      else None
  | _, _ => None
  end.

(** The records inserted into conversation [cid], oldest first. *)
Definition insertedInto (cid : string) (calls : list recordCall)
  : list historyEntry :=
  map snd (filter (fun p => fst p = cid) (omap recorded calls)).

(** The records inserted into the global list, oldest first. *)
Definition insertedGlobally (calls : list recordCall) : list globalEntry :=
  map (fun p => GlobalEntry (snd p) (fst p)) (omap recorded calls).

(** The clock readings of the calls never decrease. *)
Definition monotoneClock (calls : list recordCall) : Prop :=
  StronglySorted (fun a b => (rc_now a <= rc_now b)%Z) calls.

(** Most recent first, by timestamp. *)
Definition newestFirst {A : Type} (time : A -> Z) (l : list A) : Prop :=
  StronglySorted (fun a b => (time b <= time a)%Z) l.

(** Both bounds of the history index hold: every conversation's response
    list has at most [MAX_HISTORY] entries, the global list at most
    [MAX_HISTORY * 5]. *)
Definition withinCapacity (st : state) : Prop :=
  (forall cid responses,
     responseHistory st !! cid = Some responses ->
     length responses <= MAX_HISTORY)
  /\ length (allResponseHistory st) <= MAX_HISTORY * 5.

(** ** The store *)

(** No file of the directory is unparseable. *)
Definition intact {A : Type} (dir : list (string * file A)) : Prop :=
  Forall (fun entry => snd entry <> Corrupt) dir.

(** The command histories [loadState] reads from an intact directory. *)
Definition loadedHistories (dir : list (string * file convData))
    (histories : gmap string (list string)) : gmap string (list string) :=
  foldl (fun m entry =>
           match snd entry with
           | Parsed convData => <[fst entry := cd_history convData]> m
           | Corrupt => m
           end) histories dir.

(** The response lists [loadState] reads from an intact directory. *)
Definition loadedResponses (dir : list (string * file (list historyEntry)))
    (responses : gmap string (list historyEntry))
  : gmap string (list historyEntry) :=
  foldl (fun m entry =>
           match snd entry with
           | Parsed respData => <[fst entry := respData]> m
           | Corrupt => m
           end) responses dir.

(** Every record of the responses directory, tagged with the conversation
    of its file, in the order of enumeration. *)
Definition persistedRecords (dir : list (string * file (list historyEntry)))
  : list globalEntry :=
  flat_map (fun entry =>
              match snd entry with
              | Parsed respData => tagWith (fst entry) respData
              | Corrupt => []
              end) dir.

(** The store after [loadState]: [state.json] is created when it was
    missing, nothing else is written. *)
Definition diskAfterLoad (d : disk) : disk :=
  match STATE_FILE d with
  | None => Disk (Some (Parsed defaultState)) (CONVERSATIONS_DIR d) (RESPONSES_DIR d)
  | Some _ => d
  end.

(** ** Reachable states *)

(** One interaction of the running program with the session.  [saveHistory]
    pushes the line onto [commandHistory], an array that entries of
    [conversationHistories] may share, and may call [saveState]; its step
    allows any new contents of these two variables, which covers every such
    sharing.  The commands that only print leave the state as it is. *)
Inductive step (st : state) : state -> Prop :=
| step_promptUser_regular now :
    step st (promptUser_regular now st)
| step_saveHistory commands histories :
    step st (set_conversationHistories histories (set_commandHistory commands st))
| step_saveHistory_saveState commands histories :
    step st (saveState (set_conversationHistories histories
                          (set_commandHistory commands st)))
| step_handlePrompt_complete prompt fullResponse responseId nowRecord nowMint :
    step st (handlePrompt_complete prompt fullResponse responseId
               nowRecord nowMint st)
| step_handlePrompt_stream prompt fullResponse responseId nowMint nowRecord :
    step st (handlePrompt_stream prompt fullResponse responseId
               nowMint nowRecord st)
| step_newCommand now :
    step st (newCommand now st)
| step_continueCommand commandParts now :
    step st (snd (continueCommand commandParts now st)).

(** The states of a process started on some store. *)
Inductive reachable : state -> Prop :=
| reachable_startCLI d : reachable (startCLI (initialState d))
| reachable_step st st' : reachable st -> step st st' -> reachable st'.

(** What holds of the paused snapshot whenever the session is paused. *)
Definition pausedSnapshotOk (st : state) : Prop :=
  pausedConversation st = true ->
  2 <= length (pausedConversationContext st)
  /\ (exists before answer,
        pausedConversationContext st = before ++ [Message Assistant answer])
  /\ truthy_opt (pausedConversationId st) = true.

(** ** Sample runs *)

Definition emptyDisk : disk := Disk None [] [].

(** A fresh process on an empty store, after the first regular prompt has
    opened the conversation [conv_1]. *)
Definition inConversation1 : state :=
  promptUser_regular 1 (startCLI (initialState emptyDisk)).

(** A response text of 101 characters. *)
Definition longResponse : string :=
  String.string_of_list_ascii (repeat "a"%char 101).

(** The state after one streamed exchange in [conv_1]: paused, one record. *)
Definition afterExchange1 : state :=
  handlePrompt_stream "hi" "hello!" (Some "resp_1") 2 3 inConversation1.

(** The state after one streamed exchange in [conv_1] whose answer has 101
    characters. *)
Definition afterLongExchange : state :=
  handlePrompt_stream "hi" longResponse (Some "resp_1") 2 3 inConversation1.

(** Two more exchanges in [conv_1], each after a bare [continue]: three
    records, [resp_3] the most recent. *)
Definition threeExchanges : state :=
  let resumed1 := snd (continueCommand ["continue"] 4 afterExchange1) in
  let exchange2 :=
    handlePrompt_stream "how are you?" "fine" (Some "resp_2") 5 6
      (promptUser_regular 5 resumed1) in
  let resumed2 := snd (continueCommand ["continue"] 7 exchange2) in
  handlePrompt_stream "bye" "goodbye" (Some "resp_3") 8 9
    (promptUser_regular 8 resumed2).

(** A new process on the store that [afterExchange1] left behind: no current
    conversation, one record of [conv_1] in the global history. *)
Definition restarted : state := startCLI (initialState (fs afterExchange1)).

(** The paused [conv_1] is abandoned by a new prompt, which opens [conv_5];
    its answer arrives without a response id, so that [conv_5] is paused and
    has no response record. *)
Definition pausedWithoutRecord : state :=
  handlePrompt_stream "b" "y" None 6 7 (promptUser_regular 5 afterExchange1).

(** The store after an exchange in [conv_1] and another in [conv_5]. *)
Definition twoConversations : state :=
  handlePrompt_stream "b" "y" (Some "resp_2") 6 7
    (promptUser_regular 5 afterExchange1).

(** The same store, with [responses/conv_1.json] unparseable. *)
Definition oneCorruptFile : disk :=
  Disk (STATE_FILE (fs twoConversations))
       (CONVERSATIONS_DIR (fs twoConversations))
       (writeFile "conv_1" Corrupt (RESPONSES_DIR (fs twoConversations))).

(** The exchanges [1 .. n] of one conversation, each with its own prompt,
    response id and clock reading. *)
Definition exchangesOf (cid : string) (n : nat) : list recordCall :=
  map (fun i : nat =>
         RecordCall (Some cid) ("prompt " +:+ pretty i) ("response " +:+ pretty i)
           (Some ("resp_" +:+ pretty i)) (Z.of_nat i))
    (seq 1 n).

(** The [i]th prompt of a session and its streamed answer, entered without
    a [continue] before it. *)
Definition exchangeNo (st : state) (i : nat) : state :=
  handlePrompt_stream ("prompt " +:+ pretty i) ("response " +:+ pretty i)
    (Some ("resp_" +:+ pretty i)) (2 * Z.of_nat i) (2 * Z.of_nat i + 1)
    (promptUser_regular (2 * Z.of_nat i) st).

(** A process on an empty store in which [n] prompts are entered and
    answered, none after a [continue]: each opens a conversation of its
    own. *)
Definition manyConversations (n : nat) : state :=
  foldl exchangeNo (startCLI (initialState emptyDisk)) (seq 1 n).

(** * The rest of [index.js]

    The characters of a [string] are the UTF-16 code units U+0000 to U+00FF;
    a line that holds a code unit beyond them is outside the embedding. *)

(** ** More JavaScript primitives *)

(** [s.startsWith(p)] *)
Definition startsWith (p s : string) : bool := String.prefix p s.

(** [s.includes(needle)] *)
Fixpoint includes (needle s : string) : bool :=
  String.prefix needle s
  || match s with
     | EmptyString => false
     | String _ rest => includes needle rest
     end.

(** [s.slice(1)], [s.substring(1)] *)
Definition dropFirst (s : string) : string :=
  match s with
  | EmptyString => EmptyString
  | String _ rest => rest
  end.

(** The lower case of a code unit: the letters A to Z and the capital
    letters of U+00C0 to U+00DE (the sign U+00D7 is no letter) are 32 below
    their small letters. *)
Definition lowerChar (c : ascii) : ascii :=
  let n := N_of_ascii c in
  if ((65 <=? n) && (n <=? 90)
      || (192 <=? n) && (n <=? 222) && negb (n =? 215))%N
  then ascii_of_N (n + 32)
  else c.

(** [s.toLowerCase()] *)
Fixpoint toLowerCase (s : string) : string :=
  match s with
  | EmptyString => EmptyString
  | String c rest => String (lowerChar c) (toLowerCase rest)
  end.

(** White space of [trim] and of [\s]: tab, line feed, vertical tab, form
    feed, carriage return, space and no-break space. *)
Definition isWhiteSpace (c : ascii) : bool :=
  let n := N_of_ascii c in
  ((9 <=? n) && (n <=? 13) || (n =? 32) || (n =? 160))%N.

Fixpoint trimStart (s : string) : string :=
  match s with
  | EmptyString => EmptyString
  | String c rest => if isWhiteSpace c then trimStart rest else s
  end.

Fixpoint trimEnd (s : string) : string :=
  match s with
  | EmptyString => EmptyString
  | String c rest =>
      let rest' := trimEnd rest in
      if isWhiteSpace c && String.eqb rest' "" then EmptyString
      else String c rest'
  end.

(** [s.trim()] *)
Definition trim (s : string) : string := trimEnd (trimStart s).

(** [s.split(/\s+/)], reading [s] from the left: [current] is the piece
    being read, [inGap] tells that the last character was white space. *)
Fixpoint splitFrom (s current : string) (inGap : bool) : list string :=
  match s with
  | EmptyString => [current]
  | String c rest =>
      if isWhiteSpace c then
        if inGap then splitFrom rest current true
        else current :: splitFrom rest EmptyString true
      else splitFrom rest (current +:+ String c EmptyString) false
  end.

Definition splitWhiteSpace (s : string) : list string :=
  splitFrom s EmptyString false.

(** ** Completion of commands: [commandCompleter] *)

(** [commands], in the order of its keys. *)
Definition commands : list (string * string) :=
  [("exit", "Exit the application");
   ("menu", "Return to mode selection menu");
   ("history", "Show response history for the current conversation");
   ("help", "Show help information");
   ("clear", "Clear the screen");
   ("continue", "Resume paused conversation or continue from a specific response");
   ("new", "Start a new conversation with fresh history");
   ("debug", "Show current conversation state (for troubleshooting)")].

Definition commandCompleter (line : string) : list string * string :=
  if startsWith "/" line then
    let partial := dropFirst line in
    let matches :=
      List.filter (fun cmd => startsWith (toLowerCase partial) cmd)
        (map fst commands) in
    (if (0 <? length matches)%nat
     then map (fun match_ => "/" +:+ match_) matches
     else [],
     line)
  else ([], line).

(** ** Debugging helpers *)

(** [isDebugMode()], as a truth value; [DEBUG] is [process.env.DEBUG]. *)
Definition isDebugMode (DEBUG : option string) : bool :=
  match DEBUG with
  | Some v =>
      truthy v
      && (includes "clipai" v || includes "*" v || String.eqb v "true")
  | None => false
  end.

Definition getDebugLevel (DEBUG : option string) : nat :=
  if negb (isDebugMode DEBUG) then 0
  else
    match DEBUG with
    | Some v =>
        if includes ":verbose" v then 2
        else if includes ":debug" v then 3
        else 1
    | None => 1
    end.

(** [debugLog(message, level)]: the line it prints, without the styling of
    [chalk.dim], or nothing. *)
Definition debugLog (DEBUG : option string) (message : string) (level : nat)
  : option string :=
  if (level <=? getDebugLevel DEBUG)%nat then
    let prefix :=
      if (level =? 1)%nat then "INFO"
      else if (level =? 2)%nat then "VERBOSE" else "DEBUG" in
    Some ("[CLIPAI:" +:+ prefix +:+ "] " +:+ message)
  else None.

(** ** Requests with retry: [makeApiRequestWithRetry] *)

(** What one call of [client.responses.create] comes to: a response, or an
    error with its [status] (absent for an error that has none). *)
Inductive attempt (R : Type) : Type :=
| Responds : R -> attempt R
| Rejects : option Z -> attempt R.
Arguments Responds {R} _.
Arguments Rejects {R} _.

(** How [makeApiRequestWithRetry] ends: it returns the response, throws the
    error of the client again, or throws [Maximum retries exceeded]. *)
Inductive retried (R : Type) : Type :=
| Returned : R -> retried R
| Rethrown : option Z -> retried R
| MaximumRetriesExceeded : retried R.
Arguments Returned {R} _.
Arguments Rethrown {R} _.
Arguments MaximumRetriesExceeded {R}.

(** [error.status === 429], or else [error.status >= 500] *)
Definition retryable (status : option Z) : bool :=
  match status with
  | Some s => (s =? 429)%Z || (500 <=? s)%Z
  | None => false
  end.

(** [Math.pow(2, retries) * 1000] *)
Definition backoffTime (retries : nat) : Z := (2 ^ Z.of_nat retries * 1000)%Z.

(** The [while] loop, entered with [retries] and with [remaining] for
    [maxRetries - retries]: the waits it makes, in milliseconds, and its end.
    [create k] is what the call made after [k] failures comes to. *)
Fixpoint retryLoop {R : Type} (create : nat -> attempt R)
    (retries remaining : nat) : list Z * retried R :=
  match remaining with
  | 0 => ([], MaximumRetriesExceeded)
  | S remaining' =>
      match create retries with
      | Responds response => ([], Returned response)
      | Rejects status =>
          if retryable status then
            let later := retryLoop create (S retries) remaining' in
            (backoffTime retries :: fst later, snd later)
          else ([], Rethrown status)
      end
  end.

Definition makeApiRequestWithRetry {R : Type} (create : nat -> attempt R)
    (maxRetries : nat) : list Z * retried R :=
  retryLoop create 0 maxRetries.

(** ** The recalled command lines: [saveHistory]

    [commandHistory.push] changes an array in place, and entries of
    [conversationHistories] may be that very array.  [shares k] tells that
    [conversationHistories[k]] is the array [commandHistory] when
    [saveHistory] is called; it is given with the call, as the clock is. *)

(** [l.slice(-n)] *)
Definition lastN {A : Type} (n : nat) (l : list A) : list A :=
  drop (length l - n) l.

Definition saveHistory (shares : string -> bool) (command : string)
    (st : state) : state :=
  if truthy command && negb (String.eqb (trim command) "")
     && negb (startsWith "/" command) then
    if (length (commandHistory st) =? 0)%nat
       || negb (bool_decide (last (commandHistory st) = Some command)) then
      let pushed := commandHistory st ++ [command] in
      let seen :=
        map_imap (fun k history => Some (if shares k then pushed else history))
          (conversationHistories st) in
      let kept :=
        if (MAX_HISTORY <? length pushed)%nat then lastN MAX_HISTORY pushed
        else pushed in
      let st1 := set_conversationHistories seen (set_commandHistory kept st) in
      match currentConversationId st1 with
      | Some cid =>
          if truthy cid then
            saveState
              (set_conversationHistories
                 (<[cid := commandHistory st1]> (conversationHistories st1)) st1)
          else st1
      | None => st1
      end
    else st
  else st.

(** ** The request of [handlePrompt] *)

(** [apiRequest].  [rq_temperature] is the number literal as it is written;
    [rq_tools] holds the [type] of each tool. *)
Record apiRequest := ApiRequest {
  rq_model : string;
  rq_input : list message;
  rq_stream : bool;
  rq_temperature : string;
  rq_previous_response_id : option string;
  rq_tools : option (list string)
}.

Definition buildRequest (webSearchEnabled : bool) (prompt : string)
    (st : state) : apiRequest :=
  let tools := if webSearchEnabled then Some ["web_search"] else None in
  if truthy_opt (lastResponseId st) then
    ApiRequest "gpt-4o" [Message User prompt] true "0.7" (lastResponseId st) tools
  else
    let input :=
      if (0 <? length (conversationContext st))%nat
      then conversationContext st else [] in
    ApiRequest "gpt-4o" (input ++ [Message User prompt]) true "0.7" None tools.

(** ** The answer of the service *)

(** An element of [message.content]. *)
Record contentPart := ContentPart {
  cp_type : option string;
  cp_text : option string
}.

(** An element of [output], with its [content] when that is an array. *)
Record outputItem := OutputItem {
  oi_content : option (list contentPart)
}.

(** The text of [output[0]]: its [output_text] parts with a truthy [text],
    in order. *)
Definition outputTexts (output : list (option outputItem)) : list string :=
  match output with
  | Some message :: _ =>
      match oi_content message with
      | Some content =>
          omap (fun part =>
                  if bool_decide (cp_type part = Some "output_text")
                     && truthy_opt (cp_text part)
                  then cp_text part else None)
            content
      | None => []
      end
  | _ => []
  end.

(** [event.item] of a tool event: its [type], and [metadata.snippets] (the
    [url] of each) when both are there. *)
Record toolItem := ToolItem {
  ti_type : option string;
  ti_snippets : option (list (option string))
}.

(** An event of the stream, by the fields [handlePrompt] reads:
    [ev_created_id] is [event.response.id] (absent when [event.response]
    is), [ev_output] is [event.output] when it is an array. *)
Record streamEvent := StreamEvent {
  ev_id : option string;
  ev_type : option string;
  ev_created_id : option string;
  ev_object : option string;
  ev_response_id : option string;
  ev_output : option (list (option outputItem));
  ev_delta : option string;
  ev_item : option toolItem
}.

(** The variables [handlePrompt] fills while it reads the stream. *)
Record drained := Drained {
  d_responseId : option string;
  d_fullResponse : string;
  d_chunkCount : nat;
  d_webSearchUsed : bool;
  d_searchResults : list (option string)
}.

(** [event.output && Array.isArray(event.output) && event.output.length > 0] *)
Definition hasOutput (event : streamEvent) : bool :=
  match ev_output event with
  | Some output => (0 <? length output)%nat
  | None => false
  end.

Definition typeIs (name : string) (event : streamEvent) : bool :=
  bool_decide (ev_type event = Some name).

(** The part of the loop body that looks for the response id. *)
Definition eventResponseId (event : streamEvent) (responseId : option string)
  : option string :=
  let responseId :=
    if truthy_opt (ev_id event) && negb (truthy_opt responseId)
    then ev_id event else responseId in
  if typeIs "response.created" event && truthy_opt (ev_created_id event) then
    ev_created_id event
  else if bool_decide (ev_object event = Some "response")
          && truthy_opt (ev_id event) then
    ev_id event
  else if typeIs "response" event && truthy_opt (ev_id event) then
    ev_id event
  else if truthy_opt (ev_response_id event) then
    ev_response_id event
  else if hasOutput event then
    if negb (truthy_opt responseId) && truthy_opt (ev_id event)
    then ev_id event else responseId
  else responseId.

(** The chunks of text an event adds to [fullResponse]. *)
Definition eventTexts (event : streamEvent) : list string :=
  if typeIs "output_text.delta" event && truthy_opt (ev_delta event) then
    [default "" (ev_delta event)]
  else if typeIs "response.output_text.delta" event
          && truthy_opt (ev_delta event) then
    [default "" (ev_delta event)]
  else if hasOutput event then
    outputTexts (default [] (ev_output event))
  else [].

(** The event is read by one of the three branches for text, whether or not
    it adds any. *)
Definition readAsText (event : streamEvent) : bool :=
  typeIs "output_text.delta" event && truthy_opt (ev_delta event)
  || typeIs "response.output_text.delta" event && truthy_opt (ev_delta event)
  || hasOutput event.

(** [event.item.metadata.snippets] of an event that ends a web search. *)
Definition searchSnippets (event : streamEvent) : option (list (option string)) :=
  if typeIs "tool_use.done" event || typeIs "response.tool_use.done" event then
    match ev_item event with
    | Some item =>
        if bool_decide (ti_type item = Some "web_search")
        then ti_snippets item else None
    | None => None
    end
  else None.

(** The body of the [for await] loop. *)
Definition onEvent (d : drained) (event : streamEvent) : drained :=
  let responseId := eventResponseId event (d_responseId d) in
  let texts := eventTexts event in
  let fullResponse := foldl String.append (d_fullResponse d) texts in
  let chunkCount := d_chunkCount d + length texts in
  if readAsText event then
    Drained responseId fullResponse chunkCount
      (d_webSearchUsed d) (d_searchResults d)
  else if typeIs "tool_use.in_progress" event
          || typeIs "response.tool_use.in_progress" event then
    Drained responseId fullResponse chunkCount true (d_searchResults d)
  else
    match searchSnippets event with
    | Some snippets =>
        Drained responseId fullResponse chunkCount (d_webSearchUsed d) snippets
    | None =>
        Drained responseId fullResponse chunkCount
          (d_webSearchUsed d) (d_searchResults d)
    end.

(** The stream read to its end, or to the error that ends it: [streamId] is
    [stream.id], [events] the events received. *)
Definition drainStream (streamId : option string) (events : list streamEvent)
  : drained :=
  foldl onEvent
    (Drained (if truthy_opt streamId then streamId else None) "" 0 false [])
    events.

(** [handlePrompt], from the stream to the saved state. *)
Definition handlePrompt_events (prompt : string) (streamId : option string)
    (events : list streamEvent) (nowMint nowRecord : Z) (st : state) : state :=
  let d := drainStream streamId events in
  handlePrompt_stream prompt (d_fullResponse d) (d_responseId d)
    nowMint nowRecord st.

(** [handlePrompt], from a complete response object ([response.id] and
    [response.output] truthy) to the saved state; [output] is
    [response.output] when it is an array. *)
Definition handlePrompt_response (prompt responseId : string)
    (output : option (list (option outputItem))) (nowRecord nowMint : Z)
    (st : state) : state :=
  handlePrompt_complete prompt
    (foldl String.append "" (outputTexts (default [] output)))
    responseId nowRecord nowMint st.

(** ** The prompt: [promptUser] and the commands *)

(** What the program does next, after the state is updated. *)
Inductive action :=
| CloseInterface
| ShowHelp
| ShowHistory (showAll : bool)
| ClearScreen
| ShowContinued (result : outcome)
| ShowStartedNew
| ShowDebug
| ShowUnknownCommand (command : string)
| PromptAgain
| SendRequest (request : apiRequest).

(** The [switch] on the command, the same in [promptUser] and in
    [handlePrompt]; [text] starts with the slash. *)
Definition runCommand (text : string) (now : Z) (st : state) : action * state :=
  let commandWithArgs := dropFirst text in
  let commandParts := splitWhiteSpace commandWithArgs in
  let command := toLowerCase (default "" (head commandParts)) in
  if String.eqb command "exit" then (CloseInterface, st)
  else if String.eqb command "help" then (ShowHelp, st)
  else if String.eqb command "menu" then (ShowHelp, st)
  else if String.eqb command "history" then
    (ShowHistory ((1 <? length commandParts)%nat
                  && bool_decide (commandParts !! 1 = Some "--all")), st)
  else if String.eqb command "clear" then (ClearScreen, st)
  else if String.eqb command "continue" then
    let result := continueCommand commandParts now st in
    (ShowContinued (fst result), snd result)
  else if String.eqb command "new" then (ShowStartedNew, newCommand now st)
  else if String.eqb command "debug" then (ShowDebug, st)
  else (ShowUnknownCommand command, st).

(** [handlePrompt], up to the request it sends. *)
Definition handlePrompt_begin (webSearchEnabled : bool) (prompt : string)
    (now : Z) (st : state) : action * state :=
  if String.eqb (trim prompt) "" then (PromptAgain, st)
  else if startsWith "/" prompt then runCommand prompt now st
  else (SendRequest (buildRequest webSearchEnabled prompt st), st).

(** The callback of [rl.question] in [promptUser]: [prompt] is the line the
    user entered. *)
Definition promptUser_answer (shares : string -> bool) (webSearchEnabled : bool)
    (prompt : string) (now : Z) (st : state) : action * state :=
  let trimmedPrompt := trim prompt in
  if startsWith "/" trimmedPrompt then runCommand trimmedPrompt now st
  else
    let st1 := promptUser_regular now st in
    if truthy trimmedPrompt then
      handlePrompt_begin webSearchEnabled trimmedPrompt now
        (saveHistory shares trimmedPrompt st1)
    else (PromptAgain, st1).

(** * Vocabulary of the further properties *)

(** ** The recall list *)

(** No line of the list is followed by the same line. *)
Definition noRepeats (l : list string) : Prop :=
  forall i x, l !! i = Some x -> l !! S i <> Some x.

(** A string of decimal digits. *)
Fixpoint digits (s : string) : bool :=
  match s with
  | EmptyString => true
  | String c rest =>
      match digitValue c with
      | Some _ => digits rest
      | None => false
      end
  end.

(** A string without white space. *)
Fixpoint noWhiteSpace (s : string) : bool :=
  match s with
  | EmptyString => true
  | String c rest => negb (isWhiteSpace c) && noWhiteSpace rest
  end.

(** The event brings a response id whatever was known before it: a truthy
    [id] or [response_id], or the [response.id] of a [response.created]
    event. *)
Definition carriesId (event : streamEvent) : bool :=
  truthy_opt (ev_id event) || truthy_opt (ev_response_id event)
  || typeIs "response.created" event && truthy_opt (ev_created_id event).

(** * Properties *)

(** ** The sample runs are runs of the program *)

Lemma reachable_inConversation1 : reachable inConversation1.
Proof.
  exact (reachable_step _ _ (reachable_startCLI emptyDisk)
           (step_promptUser_regular _ 1)).
Qed.

Lemma reachable_afterExchange1 : reachable afterExchange1.
Proof.
  exact (reachable_step _ _ reachable_inConversation1
           (step_handlePrompt_stream _ "hi" "hello!" (Some "resp_1") 2 3)).
Qed.

Lemma reachable_pausedWithoutRecord : reachable pausedWithoutRecord.
Proof.
  exact (reachable_step _ _
           (reachable_step _ _ reachable_afterExchange1
              (step_promptUser_regular _ 5))
           (step_handlePrompt_stream _ "b" "y" None 6 7)).
Qed.

(** ** What [saveState] and [saveResponseToHistory] leave alone *)

Ltac unfold_saves :=
  unfold saveState, saveResponseToHistory, ensureConversationId;
  repeat case_match; simpl; congruence.

Section Frames.
Variable st : state.

Lemma saveState_lastResponseId :
  lastResponseId (saveState st) = lastResponseId st.
Proof. unfold_saves. Qed.

Lemma saveState_conversationContext :
  conversationContext (saveState st) = conversationContext st.
Proof. unfold_saves. Qed.

Lemma saveState_currentConversationId :
  currentConversationId (saveState st) = currentConversationId st.
Proof. unfold_saves. Qed.

Lemma saveState_pausedConversation :
  pausedConversation (saveState st) = pausedConversation st.
Proof. unfold_saves. Qed.

Lemma saveState_pausedConversationContext :
  pausedConversationContext (saveState st) = pausedConversationContext st.
Proof. unfold_saves. Qed.

Lemma saveState_pausedConversationId :
  pausedConversationId (saveState st) = pausedConversationId st.
Proof. unfold_saves. Qed.

Lemma saveState_commandHistory :
  commandHistory (saveState st) = commandHistory st.
Proof. unfold_saves. Qed.

Lemma saveState_conversationHistories :
  conversationHistories (saveState st) = conversationHistories st.
Proof. unfold_saves. Qed.

Lemma saveState_responseHistory :
  responseHistory (saveState st) = responseHistory st.
Proof. unfold_saves. Qed.

Lemma saveState_allResponseHistory :
  allResponseHistory (saveState st) = allResponseHistory st.
Proof. unfold_saves. Qed.

Lemma saveState_RESPONSES_DIR :
  RESPONSES_DIR (fs (saveState st)) = RESPONSES_DIR (fs st).
Proof. unfold_saves. Qed.

Lemma saveState_STATE_FILE :
  STATE_FILE (fs (saveState st)) = Some (Parsed (currentStateJson st)).
Proof. unfold_saves. Qed.

Variables (userPrompt aiResponse : string) (responseId : option string).
Variable now : Z.

Lemma saveResponseToHistory_lastResponseId :
  lastResponseId (saveResponseToHistory userPrompt aiResponse responseId now st)
  = lastResponseId st.
Proof. unfold_saves. Qed.

Lemma saveResponseToHistory_conversationContext :
  conversationContext (saveResponseToHistory userPrompt aiResponse responseId now st)
  = conversationContext st.
Proof. unfold_saves. Qed.

Lemma saveResponseToHistory_currentConversationId :
  currentConversationId (saveResponseToHistory userPrompt aiResponse responseId now st)
  = currentConversationId st.
Proof. unfold_saves. Qed.

Lemma saveResponseToHistory_pausedConversation :
  pausedConversation (saveResponseToHistory userPrompt aiResponse responseId now st)
  = pausedConversation st.
Proof. unfold_saves. Qed.

Lemma saveResponseToHistory_pausedConversationContext :
  pausedConversationContext
    (saveResponseToHistory userPrompt aiResponse responseId now st)
  = pausedConversationContext st.
Proof. unfold_saves. Qed.

Lemma saveResponseToHistory_pausedConversationId :
  pausedConversationId (saveResponseToHistory userPrompt aiResponse responseId now st)
  = pausedConversationId st.
Proof. unfold_saves. Qed.
End Frames.

Create Rewrite HintDb frames.
#[global] Hint Rewrite
  saveState_lastResponseId saveState_conversationContext
  saveState_currentConversationId saveState_pausedConversation
  saveState_pausedConversationContext saveState_pausedConversationId
  saveState_commandHistory saveState_conversationHistories
  saveState_responseHistory saveState_allResponseHistory
  saveState_RESPONSES_DIR saveState_STATE_FILE
  saveResponseToHistory_lastResponseId
  saveResponseToHistory_conversationContext
  saveResponseToHistory_currentConversationId
  saveResponseToHistory_pausedConversation
  saveResponseToHistory_pausedConversationContext
  saveResponseToHistory_pausedConversationId : frames.

#[global] Arguments saveState : simpl never.
#[global] Arguments saveResponseToHistory : simpl never.

(** ** Files and strings *)

Lemma readFile_writeFile {A : Type} (name : string) (v : A) dir :
  readFile name (writeFile name v dir) = Some v.
Proof.
  induction dir as [|[n x] rest IH]; simpl.
  - now rewrite String.eqb_refl.
  - destruct (String.eqb n name) eqn:E; simpl; rewrite E; auto.
Qed.

Lemma readFile_writeFile_ne {A : Type} (name other : string) (v : A) dir :
  name <> other -> readFile other (writeFile name v dir) = readFile other dir.
Proof.
  intros Hne. induction dir as [|[n x] rest IH]; simpl.
  - destruct (String.eqb name other) eqn:E; auto.
    apply String.eqb_eq in E. contradiction.
  - destruct (String.eqb n name) eqn:E; simpl.
    + apply String.eqb_eq in E. subst n.
      destruct (String.eqb name other) eqn:E'; auto.
      apply String.eqb_eq in E'. contradiction.
    + destruct (String.eqb n other); auto.
Qed.

Lemma substring_all (n : nat) (s : string) :
  String.length s <= n -> String.substring 0 n s = s.
Proof.
  revert n. induction s as [|c s IH]; intros [|n] Hlen; simpl in *; auto; try lia.
  f_equal. apply IH. lia.
Qed.

Lemma append_empty_r (s : string) : s +:+ "" = s.
Proof.
  induction s as [|c s IH]; [reflexivity|].
  change (String c (s +:+ "") = String c s). now f_equal.
Qed.

Lemma truncateForDisplay_short (s : string) :
  String.length s <= 100 -> truncateForDisplay s = s.
Proof.
  intros Hlen. unfold truncateForDisplay.
  destruct (Nat.ltb_spec 100 (String.length s)); [lia|].
  rewrite substring_all by assumption. apply append_empty_r.
Qed.

Lemma truncateForDisplay_long (s : string) :
  100 < String.length s ->
  truncateForDisplay s = String.substring 0 100 s +:+ "...".
Proof.
  intros Hlen. unfold truncateForDisplay.
  destruct (Nat.ltb_spec 100 (String.length s)); [reflexivity|lia].
Qed.

Lemma capAt_length {A : Type} (n : nat) (l : list A) : length (capAt n l) <= n.
Proof.
  unfold capAt. destruct (Nat.ltb_spec n (length l)).
  - rewrite length_take. lia.
  - assumption.
Qed.

Lemma capAt_take {A : Type} (n : nat) (l : list A) : capAt n l = take n l.
Proof.
  unfold capAt. destruct (Nat.ltb_spec n (length l)); [reflexivity|].
  symmetry. apply take_ge. assumption.
Qed.

Lemma capAt_cons {A : Type} (n : nat) (x : A) (l : list A) :
  capAt (S n) (x :: l) = x :: capAt n l.
Proof. rewrite !capAt_take. reflexivity. Qed.

(** ** The record committed for an exchange *)

(** C7, as the code has it: the record committed for an exchange, as held in
    memory and as written to the conversation's responses file, keeps the
    full text in [fullResponse]; its [response] field is the text itself
    when the text has at most 100 characters, and its first 100 characters
    followed by three dots when it is longer.  So [response] is the full
    text exactly when the text has at most 100 characters or is itself 100
    characters followed by three dots. *)
Theorem saveResponseToHistory_record
    (userPrompt aiResponse rid cid : string) (now : Z) (st : state) :
  currentConversationId st = Some cid ->
  truthy cid = true -> truthy rid = true -> truthy aiResponse = true ->
  let st' := saveResponseToHistory userPrompt aiResponse (Some rid) now st in
  exists record older,
    readFile cid (RESPONSES_DIR (fs st')) = Some (Parsed (record :: older))
    /\ responseHistory st' !! cid = Some (record :: older)
    /\ he_prompt record = userPrompt
    /\ he_id record = rid
    /\ he_fullResponse record = aiResponse
    /\ he_response record = truncateForDisplay aiResponse
    /\ (String.length aiResponse <= 100 -> he_response record = aiResponse)
    /\ (100 < String.length aiResponse ->
        he_response record = String.substring 0 100 aiResponse +:+ "...")
    /\ (he_response record = aiResponse <->
        String.length aiResponse <= 100
        \/ aiResponse = String.substring 0 100 aiResponse +:+ "...").
Proof.
  intros Hcid Tcid Trid Tai st'. subst st'.
  unfold saveResponseToHistory. rewrite Hcid, Tcid, Trid, Tai. simpl.
  change MAX_HISTORY with (S 49). rewrite capAt_cons.
  eexists _, _. split; [apply readFile_writeFile|].
  split; [apply lookup_insert_eq|]. simpl.
  do 6 (split; [auto using truncateForDisplay_short,
                  truncateForDisplay_long|]).
  destruct (Nat.le_gt_cases (String.length aiResponse) 100) as [Hshort|Hlong].
  - rewrite truncateForDisplay_short by assumption. tauto.
  - rewrite truncateForDisplay_long by assumption. split.
    + intros H. right. now symmetry.
    + intros [H|H]; [lia|now symmetry].
Qed.

Lemma saveResponseToHistory_record_witness :
  currentConversationId inConversation1 = Some "conv_1"
  /\ truthy "conv_1" = true /\ truthy "resp_1" = true /\ truthy "hello!" = true
  /\ exists record older,
      readFile "conv_1"
        (RESPONSES_DIR (fs (saveResponseToHistory "hi" "hello!" (Some "resp_1") 2
                              inConversation1)))
      = Some (Parsed (record :: older))
      /\ he_fullResponse record = "hello!"
      /\ he_response record = "hello!".
Proof.
  repeat (split; [reflexivity|]).
  destruct (saveResponseToHistory_record "hi" "hello!" "resp_1" "conv_1" 2
              inConversation1 eq_refl eq_refl eq_refl eq_refl)
    as (record & older & Hfile & _ & _ & _ & Hfull & _ & Hshort & _ & _).
  exists record, older. repeat split; auto.
  apply Hshort. vm_compute. lia.
Defined.

(** C7 fails as stated: for a response of 101 characters the record written
    to [responses/conv_1.json] does not hold the full text in [response]. *)
Lemma response_field_not_full :
  reachable inConversation1
  /\ exists record,
    readFile "conv_1"
      (RESPONSES_DIR (fs (saveResponseToHistory "hi" longResponse (Some "resp_1") 2
                            inConversation1)))
    = Some (Parsed [record])
    /\ he_response record <> longResponse.
Proof.
  split; [exact reachable_inConversation1|].
  eexists. split; [vm_compute; reflexivity|].
  intros H. apply (f_equal String.length) in H. vm_compute in H. discriminate.
Qed.

(** ** Capturing an exchange *)

Lemma isUserTurn_eq (prompt : string) (m : message) :
  isUserTurn prompt m = true -> m = Message User prompt.
Proof.
  unfold isUserTurn. destruct m as [r c]; simpl.
  intros H. apply andb_prop in H as [Hr Hc].
  apply bool_decide_eq_true in Hr. apply String.eqb_eq in Hc. congruence.
Qed.

Lemma pushExchange_eq (prompt fullResponse : string) (context : list message) :
  pushExchange prompt fullResponse context
  = (if duplicateSuppressed prompt context then context
     else context ++ [Message User prompt])
    ++ [Message Assistant fullResponse].
Proof.
  unfold pushExchange, duplicateSuppressed.
  destruct context as [|m context]; [reflexivity|].
  change (length (m :: context) =? 0)%nat with false. cbv iota.
  destruct (last (m :: context)) as [lastMessage|] eqn:Hlast.
  - destruct (isUserTurn prompt lastMessage); reflexivity.
  - apply last_None in Hlast. discriminate.
Qed.

Lemma pushExchange_ends (prompt fullResponse : string) (context : list message) :
  exists before,
    pushExchange prompt fullResponse context
    = before ++ [Message User prompt; Message Assistant fullResponse].
Proof.
  rewrite pushExchange_eq. unfold duplicateSuppressed.
  destruct (last context) as [lastMessage|] eqn:Hlast.
  - destruct (isUserTurn prompt lastMessage) eqn:Huser.
    + apply isUserTurn_eq in Huser. subst lastMessage.
      apply last_Some in Hlast as [before ->].
      exists before. now rewrite <- app_assoc.
    + exists context. now rewrite <- app_assoc.
  - exists context. now rewrite <- app_assoc.
Qed.

Lemma length_pushExchange (prompt fullResponse : string) (context : list message) :
  2 <= length (pushExchange prompt fullResponse context).
Proof.
  destruct (pushExchange_ends prompt fullResponse context) as [before ->].
  rewrite length_app. simpl. lia.
Qed.

Lemma truthy_mintConversationId (now : Z) : truthy (mintConversationId now) = true.
Proof. reflexivity. Qed.

Lemma ensureConversationId_truthy (now : Z) (st : state) :
  truthy_opt (currentConversationId (ensureConversationId now st)) = true.
Proof.
  unfold ensureConversationId.
  destruct (truthy_opt (currentConversationId st)) eqn:E; simpl; auto.
Qed.

Lemma ensureConversationId_keeps (now : Z) (st : state) :
  truthy_opt (currentConversationId st) = true ->
  currentConversationId (ensureConversationId now st) = currentConversationId st.
Proof. intros H. unfold ensureConversationId. now rewrite H. Qed.

Lemma ensureConversationId_conversationContext (now : Z) (st : state) :
  conversationContext (ensureConversationId now st) = conversationContext st.
Proof. unfold ensureConversationId. now destruct (negb _). Qed.

Lemma ensureConversationId_lastResponseId (now : Z) (st : state) :
  lastResponseId (ensureConversationId now st) = lastResponseId st.
Proof. unfold ensureConversationId. now destruct (negb _). Qed.

Lemma ensureConversationId_pausedConversation (now : Z) (st : state) :
  pausedConversation (ensureConversationId now st) = pausedConversation st.
Proof. unfold ensureConversationId. now destruct (negb _). Qed.

Lemma ensureConversationId_pausedConversationContext (now : Z) (st : state) :
  pausedConversationContext (ensureConversationId now st)
  = pausedConversationContext st.
Proof. unfold ensureConversationId. now destruct (negb _). Qed.

Lemma ensureConversationId_pausedConversationId (now : Z) (st : state) :
  pausedConversationId (ensureConversationId now st) = pausedConversationId st.
Proof. unfold ensureConversationId. now destruct (negb _). Qed.

Lemma ensureConversationId_responseHistory (now : Z) (st : state) :
  responseHistory (ensureConversationId now st) = responseHistory st.
Proof. unfold ensureConversationId. now destruct (negb _). Qed.

Lemma ensureConversationId_allResponseHistory (now : Z) (st : state) :
  allResponseHistory (ensureConversationId now st) = allResponseHistory st.
Proof. unfold ensureConversationId. now destruct (negb _). Qed.

#[global] Hint Rewrite
  ensureConversationId_conversationContext ensureConversationId_lastResponseId
  ensureConversationId_pausedConversation
  ensureConversationId_pausedConversationContext
  ensureConversationId_pausedConversationId
  ensureConversationId_responseHistory
  ensureConversationId_allResponseHistory : frames.

#[global] Arguments ensureConversationId : simpl never.

Lemma exchanged_snapshot
    (prompt fullResponse : string) (st st' : state) :
  truthy fullResponse = true ->
  exchanged prompt fullResponse st st' ->
  let context := conversationContext st in
  pausedConversationContext st'
  = (if duplicateSuppressed prompt context then context
     else context ++ [Message User prompt])
    ++ [Message Assistant fullResponse]
  /\ (exists before,
        pausedConversationContext st'
        = before ++ [Message User prompt; Message Assistant fullResponse])
  /\ pausedConversationId st' = currentConversationId st'
  /\ truthy_opt (currentConversationId st') = true
  /\ (truthy_opt (currentConversationId st) = true ->
      currentConversationId st' = currentConversationId st)
  /\ pausedConversation st' = true
  /\ conversationContext st' = [].
Proof.
  intros Hfull Hex context. subst context.
  destruct Hex as [responseId nowRecord nowMint | responseId nowMint nowRecord].
  - unfold handlePrompt_complete. rewrite Hfull.
    set (st2 := saveResponseToHistory _ _ _ _ _).
    assert (Hctx2 : conversationContext st2 = conversationContext st)
      by (unfold st2; now autorewrite with frames).
    assert (Hcid2 : currentConversationId st2 = currentConversationId st)
      by (unfold st2; now autorewrite with frames).
    autorewrite with frames. simpl. autorewrite with frames. rewrite Hctx2.
    split; [apply pushExchange_eq|].
    split; [apply pushExchange_ends|].
    split; [reflexivity|].
    split; [apply ensureConversationId_truthy|].
    split; [|split; reflexivity].
    intros H. rewrite ensureConversationId_keeps; rewrite Hcid2; auto.
  - unfold handlePrompt_stream. rewrite Hfull.
    assert (Hgoal : forall s,
      pausedConversationContext s
        = pushExchange prompt fullResponse (conversationContext st) ->
      pausedConversationId s = currentConversationId s ->
      currentConversationId s
        = currentConversationId (ensureConversationId nowMint st) ->
      pausedConversation s = true ->
      let s' := saveState (set_conversationContext [] s) in
      pausedConversationContext s'
      = (if duplicateSuppressed prompt (conversationContext st)
         then conversationContext st
         else conversationContext st ++ [Message User prompt])
        ++ [Message Assistant fullResponse]
      /\ (exists before,
            pausedConversationContext s'
            = before ++ [Message User prompt; Message Assistant fullResponse])
      /\ pausedConversationId s' = currentConversationId s'
      /\ truthy_opt (currentConversationId s') = true
      /\ (truthy_opt (currentConversationId st) = true ->
          currentConversationId s' = currentConversationId st)
      /\ pausedConversation s' = true
      /\ conversationContext s' = []).
    { intros s Hp Hid Hcid Hpaused s'. subst s'.
      autorewrite with frames. simpl. rewrite Hp, Hid, Hcid.
      split; [apply pushExchange_eq|].
      split; [apply pushExchange_ends|].
      split; [reflexivity|].
      split; [apply ensureConversationId_truthy|].
      split; [|split; auto].
      apply ensureConversationId_keeps. }
    destruct (truthy_opt responseId); apply Hgoal;
      autorewrite with frames; simpl;
      now rewrite ?ensureConversationId_conversationContext.
Qed.

(** The guard of [pushExchange] fires exactly when the context ends with
    the user turn for [prompt]. *)
Lemma duplicateSuppressed_iff (prompt : string) (context : list message) :
  duplicateSuppressed prompt context
  = bool_decide (last context = Some (Message User prompt)).
Proof.
  unfold duplicateSuppressed.
  destruct (last context) as [lastMessage|]; [|reflexivity].
  destruct (isUserTurn prompt lastMessage) eqn:Hturn.
  - apply isUserTurn_eq in Hturn. subst lastMessage.
    now rewrite bool_decide_eq_true_2.
  - rewrite bool_decide_eq_false_2; [reflexivity|].
    intros H. inversion H; subst lastMessage.
    unfold isUserTurn in Hturn. simpl in Hturn.
    rewrite String.eqb_refl in Hturn. discriminate.
Qed.

(** C2: a completed exchange with a non-empty response adds the user message
    for the prompt unless the last message of the context is already that
    user turn, then the assistant message; the result becomes the paused
    snapshot, which therefore ends with the user message followed by the
    assistant message; the paused id is the current conversation id, the
    session is paused and the active context is empty. *)
Theorem exchange_captured_in_paused_snapshot
    (prompt fullResponse : string) (st st' : state) :
  truthy fullResponse = true ->
  exchanged prompt fullResponse st st' ->
  let context := conversationContext st in
  pausedConversationContext st'
  = (if bool_decide (last context = Some (Message User prompt)) then context
     else context ++ [Message User prompt])
    ++ [Message Assistant fullResponse]
  /\ (exists before,
        pausedConversationContext st'
        = before ++ [Message User prompt; Message Assistant fullResponse])
  /\ pausedConversationId st' = currentConversationId st'
  /\ truthy_opt (currentConversationId st') = true
  /\ (truthy_opt (currentConversationId st) = true ->
      currentConversationId st' = currentConversationId st)
  /\ pausedConversation st' = true
  /\ conversationContext st' = [].
Proof.
  intros Hfull Hex context. subst context.
  rewrite <- duplicateSuppressed_iff.
  now apply exchanged_snapshot.
Qed.

(** Two exchanges for the prompt "hi": on a context that already ends with
    the user turn for "hi" the guard fires and the turn is not added again;
    on a context that ends with another turn it is added. *)
Lemma exchange_captured_in_paused_snapshot_witness :
  let asked := set_conversationContext [Message User "hi"] inConversation1 in
  let other := set_conversationContext [Message User "ho"] inConversation1 in
  truthy "hello!" = true
  /\ exchanged "hi" "hello!" asked
       (handlePrompt_stream "hi" "hello!" (Some "resp_1") 2 3 asked)
  /\ pausedConversationContext
       (handlePrompt_stream "hi" "hello!" (Some "resp_1") 2 3 asked)
     = [Message User "hi"; Message Assistant "hello!"]
  /\ pausedConversationContext
       (handlePrompt_complete "hi" "hello!" "resp_1" 3 2 other)
     = [Message User "ho"; Message User "hi"; Message Assistant "hello!"].
Proof.
  cbv zeta. split; [reflexivity|]. split; [apply exchanged_stream|]. split.
  - rewrite (proj1 (exchange_captured_in_paused_snapshot "hi" "hello!"
                      (set_conversationContext [Message User "hi"]
                         inConversation1) _ eq_refl
                      (exchanged_stream "hi" "hello!" _ (Some "resp_1") 2 3))).
    vm_compute. reflexivity.
  - rewrite (proj1 (exchange_captured_in_paused_snapshot "hi" "hello!"
                      (set_conversationContext [Message User "ho"]
                         inConversation1) _ eq_refl
                      (exchanged_complete "hi" "hello!" _ "resp_1" 3 2))).
    vm_compute. reflexivity.
Defined.

(** ** The continuation resolver *)

#[global] Arguments resumePaused : simpl never.
#[global] Arguments truthy : simpl never.

Lemma toDouble_small (z : Z) : (Z.abs z < 2 ^ 53)%Z -> toDouble z = Int z.
Proof.
  intros Hz. unfold toDouble. cbv zeta.
  destruct (Z.ltb_spec (Z.abs z) (2 ^ 53)); [reflexivity|lia].
Qed.

(** Below [2^53] the argument of [continue] is read and decremented
    exactly. *)
Lemma minusOne_toDouble_small (n : Z) :
  (- 2 ^ 53 < n - 1)%Z -> (n < 2 ^ 53)%Z ->
  minusOne (toDouble n) = Int (n - 1).
Proof.
  intros Hlow Hhigh. rewrite toDouble_small by lia.
  unfold minusOne. apply toDouble_small. lia.
Qed.

Lemma selectedResponse_valid (n : Z) (st : state) :
  validPosition n st ->
  exists record,
    currentResponses st !! Z.to_nat (n - 1) = Some record
    /\ selectedResponse (Some (Int (n - 1))) st = Some ((n - 1)%Z, record).
Proof.
  unfold validPosition. intros Hn.
  destruct (lookup_lt_is_Some_2 (currentResponses st) (Z.to_nat (n - 1)))
    as [record Hrecord]; [lia|].
  exists record. split; [assumption|].
  unfold selectedResponse.
  destruct (Z.leb_spec 0 (n - 1)); [|lia].
  destruct (Z.ltb_spec (n - 1) (Z.of_nat (length (currentResponses st)))); [|lia].
  simpl. now rewrite Hrecord.
Qed.

Lemma selectedResponse_nothing (historyIndex : jsnum) (st : state) :
  selectsNothing historyIndex st ->
  selectedResponse (Some historyIndex) st = None.
Proof.
  unfold selectsNothing, validPosition, selectedResponse.
  destruct historyIndex as [|negative|i]; [reflexivity|reflexivity|]. intros Hi.
  destruct (Z.leb_spec 0 i); [|reflexivity].
  destruct (Z.ltb_spec i (Z.of_nat (length (currentResponses st))));
    [lia|reflexivity].
Qed.

Lemma selectedResponse_no_responses (historyIndex : option jsnum) (st : state) :
  currentResponses st = [] -> selectedResponse historyIndex st = None.
Proof.
  intros Hnone. unfold selectedResponse. rewrite Hnone.
  destruct historyIndex as [[|negative|i]|]; try reflexivity.
  destruct (Z.leb_spec 0 i); [|reflexivity].
  destruct (Z.ltb_spec i (Z.of_nat (length (@nil historyEntry))));
    [simpl in *; lia|reflexivity].
Qed.

Lemma currentResponses_eq (st : state) (cid : string) responses :
  currentConversationId st = Some cid -> truthy cid = true ->
  responseHistory st !! cid = Some responses ->
  currentResponses st = responses.
Proof.
  intros Hcid Tcid Hresp. unfold currentResponses.
  now rewrite Hcid, Tcid, Hresp.
Qed.

(** C4, as the code has it: in a current conversation with at least one
    response record, every position [n] of its list (counted from 1, most
    recent first) makes [continue n] set [lastResponseId] to the id of
    record [n] and replace the active context by two messages alone: the
    prompt of that record and its [fullResponse], the whole text of the
    answer, not its [response] field.  The conversation stays the current
    one.  The index handed over is [n - 1], which is what the command
    computes from the numeral of any [n] below [2^53]. *)
Theorem continue_from_position
    (st : state) (cid : string) (responses : list historyEntry)
    (n now : Z) :
  currentConversationId st = Some cid -> truthy cid = true ->
  responseHistory st !! cid = Some responses ->
  (1 <= n <= Z.of_nat (length responses))%Z ->
  exists record,
    responses !! Z.to_nat (n - 1) = Some record
    /\ ((n < 2 ^ 53)%Z -> minusOne (toDouble n) = Int (n - 1))
    /\ let result := continueConversation (Some (Int (n - 1))) now st in
       fst result = ContinuedFromResponse (n - 1)
       /\ returned (fst result) = true
       /\ lastResponseId (snd result) = Some (he_id record)
       /\ conversationContext (snd result)
          = [Message User (he_prompt record);
             Message Assistant (he_fullResponse record)]
       /\ currentConversationId (snd result) = Some cid.
Proof.
  intros Hcid Tcid Hresp Hn.
  pose proof (currentResponses_eq st cid responses Hcid Tcid Hresp) as Hcur.
  destruct (selectedResponse_valid n st) as (record & Hrecord & Hsel).
  { unfold validPosition. now rewrite Hcur. }
  exists record. rewrite <- Hcur. split; [assumption|].
  split; [intros Hsmall; apply minusOne_toDouble_small; lia|].
  unfold continueConversation. rewrite Hsel.
  change (bool_decide (Some (Int (n - 1)) = None)) with false.
  simpl. autorewrite with frames. simpl.
  rewrite ensureConversationId_keeps by (simpl; now rewrite Hcid).
  autorewrite with frames. simpl. auto.
Qed.

(** The scenario of C4: of the three records of [conv_1], [continue 2]
    selects the second most recent. *)
Lemma continue_from_position_witness :
  currentConversationId threeExchanges = Some "conv_1"
  /\ truthy "conv_1" = true
  /\ map he_id (default [] (responseHistory threeExchanges !! "conv_1"))
     = ["resp_3"; "resp_2"; "resp_1"]
  /\ (1 <= 2 <= 3)%Z
  /\ let result := continueCommand ["continue"; "2"] 10 threeExchanges in
     fst result = ContinuedFromResponse 1
     /\ lastResponseId (snd result) = Some "resp_2"
     /\ conversationContext (snd result)
        = [Message User "how are you?"; Message Assistant "fine"].
Proof.
  split; [vm_compute; reflexivity|]. split; [reflexivity|].
  split; [vm_compute; reflexivity|]. split; [lia|].
  destruct (continue_from_position threeExchanges "conv_1"
              [HistoryEntry "bye" "goodbye" "goodbye" "resp_3" 9;
               HistoryEntry "how are you?" "fine" "fine" "resp_2" 6;
               HistoryEntry "hi" "hello!" "hello!" "resp_1" 3] 2 10)
    as (record & Hrecord & _ & Ho & _ & Hid & Hctx & _);
    [vm_compute; reflexivity|reflexivity|vm_compute; reflexivity|simpl; lia|].
  simpl in Hrecord. inversion Hrecord; subst record.
  unfold continueCommand.
  assert (Hindex : minusOne (parseInt "2") = Int (2 - 1))
    by (vm_compute; reflexivity).
  cbv zeta. rewrite Hindex, Ho, Hid, Hctx. auto.
Defined.

(** C4 fails as stated: after an exchange whose answer has 101 characters,
    [continue 1] rebuilds the context from the record's [fullResponse], of
    101 characters, which is not its [response] field, of 103. *)
Lemma continued_context_is_not_response_field :
  reachable afterLongExchange
  /\ exists record,
       currentResponses afterLongExchange = [record]
       /\ conversationContext
            (snd (continueCommand ["continue"; "1"] 4 afterLongExchange))
          = [Message User (he_prompt record);
             Message Assistant (he_fullResponse record)]
       /\ String.length (he_fullResponse record) = 101
       /\ String.length (he_response record) = 103
       /\ he_response record <> he_fullResponse record.
Proof.
  split.
  - exact (reachable_step _ _ reachable_inConversation1
             (step_handlePrompt_stream _ "hi" longResponse (Some "resp_1") 2 3)).
  - eexists. split; [vm_compute; reflexivity|].
    split; [vm_compute; reflexivity|].
    split; [vm_compute; reflexivity|].
    split; [vm_compute; reflexivity|].
    intros H. apply (f_equal String.length) in H. vm_compute in H.
    discriminate.
Qed.

(** How [continueConversation] goes on when the first branch is not taken
    and no response is selected. *)
Lemma continueConversation_fallthrough
    (historyIndex : option jsnum) (now : Z) (st : state) :
  (historyIndex = None -> pausedConversation st = false) ->
  selectedResponse historyIndex st = None ->
  continueConversation historyIndex now st
  = match currentResponses st with
    | lastResponse :: _ =>
        (ContinuedMostRecent,
         saveState (set_conversationContext (contextOf lastResponse)
                      (set_lastResponseId (Some (he_id lastResponse)) st)))
    | [] =>
        match allResponseHistory st with
        | lastResponse :: _ =>
            (ContinuedFromGlobal,
             saveState
               (set_conversationContext (contextOf (ge_entry lastResponse))
                  (set_currentConversationId (Some (mintConversationId now))
                     (set_lastResponseId
                        (Some (he_id (ge_entry lastResponse))) st))))
        | [] => (NothingToContinue, st)
        end
    end.
Proof.
  intros Hpaused Hsel. unfold continueConversation. rewrite Hsel.
  destruct historyIndex as [idx|].
  - reflexivity.
  - rewrite Hpaused by reflexivity. reflexivity.
Qed.

(** C5, as the code has it: when the argument of [continue] selects no
    response of the current conversation (it did not parse, or it is out of
    range), the resolver goes on to the later branches.  It continues from
    the most recent record of the current conversation when there is one,
    else from the most recent record of the global history when there is
    one; only when both are empty does it report that there is nothing to
    continue from, and then the state is unchanged. *)
Theorem continue_without_selection
    (historyIndex : jsnum) (now : Z) (st : state) :
  selectsNothing historyIndex st ->
  let result := continueConversation (Some historyIndex) now st in
  match currentResponses st, allResponseHistory st with
  | record :: _, _ =>
      fst result = ContinuedMostRecent
      /\ lastResponseId (snd result) = Some (he_id record)
      /\ conversationContext (snd result) = contextOf record
  | [], record :: _ =>
      fst result = ContinuedFromGlobal
      /\ lastResponseId (snd result) = Some (he_id (ge_entry record))
      /\ conversationContext (snd result) = contextOf (ge_entry record)
  | [], [] =>
      fst result = NothingToContinue
      /\ returned (fst result) = false
      /\ snd result = st
  end.
Proof.
  intros Hnothing result. subst result.
  rewrite continueConversation_fallthrough;
    [|discriminate|now apply selectedResponse_nothing].
  destruct (currentResponses st) as [|record ?];
    [destruct (allResponseHistory st) as [|record ?]|];
    simpl; autorewrite with frames; auto.
Qed.

Lemma continue_without_selection_witness :
  selectsNothing (minusOne (parseInt "5")) (startCLI (initialState emptyDisk))
  /\ let result :=
       continueConversation (Some (minusOne (parseInt "5"))) 4
         (startCLI (initialState emptyDisk)) in
     fst result = NothingToContinue
     /\ returned (fst result) = false
     /\ snd result = startCLI (initialState emptyDisk).
Proof.
  assert (H : selectsNothing (minusOne (parseInt "5"))
                (startCLI (initialState emptyDisk))).
  { vm_compute. intros [_ H]. apply H. reflexivity. }
  split; [exact H|].
  exact (continue_without_selection (minusOne (parseInt "5")) 4
           (startCLI (initialState emptyDisk)) H).
Defined.

(** C5 fails as stated: in [conv_1] with one record, [continue 5],
    [continue 0] and [continue abc] select nothing, yet each is answered by
    continuing from the most recent record, and the state changes. *)
Lemma bad_index_continues_from_most_recent :
  reachable afterExchange1
  /\ Forall
    (fun arg =>
       selectsNothing (minusOne (parseInt arg)) afterExchange1
       /\ let result := continueCommand ["continue"; arg] 4 afterExchange1 in
          fst result = ContinuedMostRecent
          /\ returned (fst result) = true
          /\ conversationContext afterExchange1 = []
          /\ conversationContext (snd result)
             = [Message User "hi"; Message Assistant "hello!"])
    ["5"; "0"; "abc"].
Proof.
  split; [exact reachable_afterExchange1|].
  repeat constructor; try (vm_compute; reflexivity).
  - vm_compute. intros [_ H]. apply H. reflexivity.
  - vm_compute. intros [H _]. apply H. reflexivity.
Qed.

Lemma mintConversationId_inj (t now : Z) :
  mintConversationId t = mintConversationId now -> t = now.
Proof.
  unfold mintConversationId. intros H.
  apply String.app_inj in H. now apply (inj pretty) in H.
Qed.

(** C8, as the code has it: when the request is not the bare [continue] of a
    paused session, the current conversation has no response records (or
    there is no current conversation) and the global history is not empty,
    the resolver takes the first record of the global history, makes
    [conv_<now>] the current conversation and rebuilds the context from the
    prompt and full response of that record.  The new id differs from the
    record's conversation id whenever that one is not [conv_<now>] itself,
    in particular when it was minted at another clock reading. *)
Theorem continue_from_global_history
    (historyIndex : option jsnum) (now : Z) (st : state)
    (record : globalEntry) (older : list globalEntry) :
  (historyIndex = None -> pausedConversation st = false) ->
  currentResponses st = [] ->
  allResponseHistory st = record :: older ->
  let result := continueConversation historyIndex now st in
  fst result = ContinuedFromGlobal
  /\ lastResponseId (snd result) = Some (he_id (ge_entry record))
  /\ currentConversationId (snd result) = Some (mintConversationId now)
  /\ conversationContext (snd result)
     = [Message User (he_prompt (ge_entry record));
        Message Assistant (he_fullResponse (ge_entry record))]
  /\ (ge_conversationId record <> mintConversationId now ->
      currentConversationId (snd result) <> Some (ge_conversationId record))
  /\ (forall t, ge_conversationId record = mintConversationId t -> t <> now ->
      currentConversationId (snd result) <> Some (ge_conversationId record)).
Proof.
  intros Hpaused Hnone Hall result. subst result.
  rewrite continueConversation_fallthrough;
    [|assumption|now apply selectedResponse_no_responses].
  rewrite Hnone, Hall. simpl. autorewrite with frames. simpl.
  repeat split.
  - intros Hne Heq. congruence.
  - intros t Ht Hne Heq. rewrite Ht in Heq.
    assert (Hmint : mintConversationId t = mintConversationId now)
      by congruence.
    now apply mintConversationId_inj in Hmint.
Qed.

Lemma continue_from_global_history_witness :
  pausedConversation restarted = false
  /\ currentResponses restarted = []
  /\ (exists record,
        allResponseHistory restarted = [record]
        /\ ge_conversationId record = "conv_1"
        /\ let result := continueConversation None 4 restarted in
           fst result = ContinuedFromGlobal
           /\ currentConversationId (snd result) = Some "conv_4"
           /\ currentConversationId (snd result)
              <> Some (ge_conversationId record)).
Proof.
  split; [reflexivity|]. split; [reflexivity|].
  exists (GlobalEntry (HistoryEntry "hi" "hello!" "hello!" "resp_1" 3) "conv_1").
  split; [vm_compute; reflexivity|]. split; [reflexivity|].
  destruct (continue_from_global_history None 4 restarted
              (GlobalEntry (HistoryEntry "hi" "hello!" "hello!" "resp_1" 3)
                 "conv_1") []
              (fun _ => eq_refl) eq_refl)
    as (Ho & _ & Hcid & _ & Hne & _);
    [vm_compute; reflexivity|].
  split; [exact Ho|]. split; [exact Hcid|].
  apply Hne. simpl. discriminate.
Defined.

(** C8 fails as stated: [pausedWithoutRecord] has a current conversation
    without response records and a non-empty global history, yet the bare
    [continue] resumes the paused [conv_5]: no conversation id is minted and
    the context is the paused snapshot, not the pair of the global record. *)
Lemma paused_session_is_resumed_not_branched :
  reachable pausedWithoutRecord
  /\ currentResponses pausedWithoutRecord = []
  /\ allResponseHistory pausedWithoutRecord
     = [GlobalEntry (HistoryEntry "hi" "hello!" "hello!" "resp_1" 3) "conv_1"]
  /\ pausedConversation pausedWithoutRecord = true
  /\ let result := continueConversation None 8 pausedWithoutRecord in
     fst result = ResumedPaused
     /\ currentConversationId pausedWithoutRecord = Some "conv_5"
     /\ currentConversationId (snd result) = Some "conv_5"
     /\ mintConversationId 8 = "conv_8"
     /\ conversationContext (snd result)
        = [Message User "b"; Message Assistant "y"].
Proof.
  split; [exact reachable_pausedWithoutRecord|].
  vm_compute. repeat split; reflexivity.
Qed.

(** ** The paused snapshot and the resolver *)

Lemma resumePaused_pausedConversation (st : state) :
  pausedConversation (resumePaused st) = false
  /\ pausedConversationContext (resumePaused st) = []
  /\ pausedConversationId (resumePaused st) = None.
Proof.
  unfold resumePaused. autorewrite with frames. simpl. auto.
Qed.

Lemma resumePaused_restores (st : state) :
  conversationContext (resumePaused st) = pausedConversationContext st
  /\ currentConversationId (resumePaused st) = pausedConversationId st.
Proof.
  unfold resumePaused. autorewrite with frames. simpl.
  repeat case_match; simpl; auto.
Qed.

Lemma continueConversation_paused (now : Z) (st : state) :
  pausedConversation st = true ->
  continueConversation None now st = (ResumedPaused, resumePaused st).
Proof. intros H. unfold continueConversation. now rewrite H. Qed.

Lemma continueConversation_paused_fields
    (historyIndex : option jsnum) (now : Z) (st : state) :
  let result := continueConversation historyIndex now st in
  (pausedConversation (snd result) = pausedConversation st
   /\ pausedConversationContext (snd result) = pausedConversationContext st
   /\ pausedConversationId (snd result) = pausedConversationId st)
  \/ pausedConversation (snd result) = false.
Proof.
  unfold continueConversation.
  destruct (bool_decide (historyIndex = None) && pausedConversation st).
  - right. apply resumePaused_pausedConversation.
  - left.
    destruct (selectedResponse historyIndex st) as [[i selected]|];
      [|destruct (currentResponses st);
        [destruct (allResponseHistory st)|]];
      simpl; autorewrite with frames; simpl; autorewrite with frames; auto.
Qed.

(** C10: every return of [continueConversation] other than the resumption
    of the paused conversation leaves [pausedConversation],
    [pausedConversationContext] and [pausedConversationId] as they were, so
    that a session that was paused is still resumed, with the same snapshot
    and id, by a later bare [continue]; the resumption itself clears the
    three of them. *)
Theorem only_resume_clears_paused_snapshot
    (historyIndex : option jsnum) (now : Z) (st : state) :
  let result := continueConversation historyIndex now st in
  (fst result <> ResumedPaused ->
     pausedConversation (snd result) = pausedConversation st
     /\ pausedConversationContext (snd result) = pausedConversationContext st
     /\ pausedConversationId (snd result) = pausedConversationId st)
  /\ (fst result <> ResumedPaused -> pausedConversation st = true ->
      forall later,
        let resumed := continueConversation None later (snd result) in
        fst resumed = ResumedPaused
        /\ conversationContext (snd resumed) = pausedConversationContext st
        /\ currentConversationId (snd resumed) = pausedConversationId st)
  /\ (fst result = ResumedPaused ->
      historyIndex = None
      /\ pausedConversation st = true
      /\ pausedConversation (snd result) = false
      /\ pausedConversationContext (snd result) = []
      /\ pausedConversationId (snd result) = None).
Proof.
  intros result.
  assert (Hframe : fst result <> ResumedPaused ->
     pausedConversation (snd result) = pausedConversation st
     /\ pausedConversationContext (snd result) = pausedConversationContext st
     /\ pausedConversationId (snd result) = pausedConversationId st).
  { subst result. unfold continueConversation.
    destruct (bool_decide (historyIndex = None) && pausedConversation st);
      [simpl; congruence|].
    intros _.
    destruct (selectedResponse historyIndex st) as [[i selected]|];
      [|destruct (currentResponses st);
        [destruct (allResponseHistory st)|]];
      simpl; autorewrite with frames; simpl; autorewrite with frames; auto. }
  split; [exact Hframe|]. split.
  - intros Hother Hpaused later resumed. subst resumed.
    destruct (Hframe Hother) as (Hp & Hc & Hi).
    rewrite continueConversation_paused by congruence. simpl.
    destruct (resumePaused_restores (snd result)) as [Hctx Hcid].
    rewrite Hctx, Hcid, Hc, Hi. auto.
  - subst result. unfold continueConversation.
    destruct (bool_decide (historyIndex = None)) eqn:Hidx;
      [destruct (pausedConversation st) eqn:Hpaused|]; simpl.
    + intros _. apply bool_decide_eq_true in Hidx.
      pose proof (resumePaused_pausedConversation st). tauto.
    + destruct (selectedResponse historyIndex st) as [[i selected]|];
        [|destruct (currentResponses st);
          [destruct (allResponseHistory st)|]]; simpl; discriminate.
    + destruct (selectedResponse historyIndex st) as [[i selected]|];
        [|destruct (currentResponses st);
          [destruct (allResponseHistory st)|]]; simpl; discriminate.
Qed.

(** ** Capacity of the history index *)

Lemma runCall_histories (st : state) (c : recordCall) :
  match recorded c with
  | Some (cid, record) =>
      responseHistory (runCall st c)
      = <[cid := capAt MAX_HISTORY
                   (record :: default [] (responseHistory st !! cid))]>
          (responseHistory st)
      /\ allResponseHistory (runCall st c)
         = capAt (MAX_HISTORY * 5)
             (GlobalEntry record cid :: allResponseHistory st)
  | None =>
      responseHistory (runCall st c) = responseHistory st
      /\ allResponseHistory (runCall st c) = allResponseHistory st
  end.
Proof.
  unfold recorded, runCall, saveResponseToHistory. simpl.
  destruct (rc_id c) as [rid|]; [|auto].
  destruct (rc_conversation c) as [cid|]; [|auto].
  destruct (truthy rid && truthy (rc_response c) && truthy cid); auto.
Qed.

Lemma take_cons_take {A : Type} (n : nat) (x : A) (l : list A) :
  capAt (S n) (x :: take (S n) l) = take (S n) (x :: l).
Proof.
  rewrite capAt_take. simpl. rewrite take_take. f_equal. f_equal. lia.
Qed.

Lemma runCalls_snoc (calls : list recordCall) (c : recordCall) (st : state) :
  runCalls (calls ++ [c]) st = runCall (runCalls calls st) c.
Proof. unfold runCalls. apply foldl_snoc. Qed.

Lemma runCalls_from (calls : list recordCall) (st : state) :
  (forall cid,
     default [] (responseHistory (runCalls calls st) !! cid)
     = if decide (insertedInto cid calls = [])
       then default [] (responseHistory st !! cid)
       else take MAX_HISTORY
              (rev (insertedInto cid calls)
               ++ default [] (responseHistory st !! cid)))
  /\ allResponseHistory (runCalls calls st)
     = if decide (insertedGlobally calls = [])
       then allResponseHistory st
       else take (MAX_HISTORY * 5)
              (rev (insertedGlobally calls) ++ allResponseHistory st).
Proof.
  induction calls as [|c calls [IHmine IHall]] using rev_ind.
  - split; [intros cid|]; reflexivity.
  - rewrite runCalls_snoc.
    pose proof (runCall_histories (runCalls calls st) c) as Hc.
    unfold insertedInto, insertedGlobally in *.
    rewrite omap_app. simpl.
    destruct (recorded c) as [[cid record]|]; destruct Hc as [Hmine Hall];
      rewrite Hmine, Hall; simpl.
    + split.
      * intros cid'. destruct (decide (cid = cid')) as [<-|Hne].
        -- rewrite lookup_insert_eq. simpl. rewrite IHmine.
           rewrite filter_app, map_app, rev_app_distr.
           rewrite filter_cons_True by reflexivity. simpl.
           destruct (decide (map snd (filter (fun p => fst p = cid)
                                        (omap recorded calls)) = []))
             as [->|_];
             rewrite decide_False
               by (intros H; apply app_eq_nil in H as [_ H]; discriminate).
           ++ rewrite capAt_take. reflexivity.
           ++ change MAX_HISTORY with (S 49). apply take_cons_take.
        -- rewrite lookup_insert_ne by assumption. rewrite IHmine.
           rewrite filter_app, filter_cons_False by (simpl; congruence).
           now rewrite filter_nil, app_nil_r.
      * rewrite IHall, map_app, rev_app_distr. simpl.
        destruct (decide (map (fun p => GlobalEntry (snd p) (fst p))
                            (omap recorded calls) = [])) as [->|_];
          rewrite decide_False
            by (intros H; apply app_eq_nil in H as [_ H]; discriminate).
        -- rewrite capAt_take. reflexivity.
        -- change (MAX_HISTORY * 5) with (S 249). apply take_cons_take.
    + rewrite app_nil_r. split; [apply IHmine|apply IHall].
Qed.

Lemma recorded_timestamp (c : recordCall) cid record :
  recorded c = Some (cid, record) -> he_timestamp record = rc_now c.
Proof.
  unfold recorded. intros H. repeat case_match; try discriminate.
  now inversion H.
Qed.

Lemma omap_recorded_sorted (calls : list recordCall) :
  monotoneClock calls ->
  StronglySorted (fun p q => (he_timestamp (snd p) <= he_timestamp (snd q))%Z)
    (omap recorded calls).
Proof.
  unfold monotoneClock. induction 1 as [|c calls Hsorted IH Hall]; simpl.
  - constructor.
  - destruct (recorded c) as [[cid record]|] eqn:Hc; [|assumption].
    constructor; [assumption|].
    apply Forall_forall. intros [cid' record'] Hin.
    apply list_elem_of_omap in Hin as (c' & Hin & Hc').
    rewrite Forall_forall in Hall. specialize (Hall c' Hin).
    simpl. apply recorded_timestamp in Hc, Hc'. lia.
Qed.

Lemma newestFirst_take_rev {A : Type} (time : A -> Z) (n : nat) (l : list A) :
  StronglySorted (fun a b => (time a <= time b)%Z) l ->
  newestFirst time (take n (rev l)).
Proof.
  intros Hsorted. unfold newestFirst.
  assert (Hrev : StronglySorted (fun a b => (time b <= time a)%Z) (rev l)).
  { induction Hsorted as [|x l Hsorted IH Hall]; simpl; [constructor|].
    apply StronglySorted_app_2; [|assumption|repeat constructor].
    intros a b Ha Hb. apply list_elem_of_singleton in Hb. subst b.
    rewrite Forall_forall in Hall. apply Hall.
    apply list_elem_of_In. apply in_rev. now apply list_elem_of_In. }
  rewrite <- (take_drop n (rev l)) in Hrev.
  now apply StronglySorted_app_1_l in Hrev.
Qed.

Lemma StronglySorted_filter {A : Type} (R : relation A) (P : A -> Prop)
    `{forall x, Decision (P x)} (l : list A) :
  StronglySorted R l -> StronglySorted R (filter P l).
Proof.
  induction 1 as [|x l Hsorted IH Hall]; [constructor|].
  rewrite filter_cons. destruct (decide (P x)); [|assumption].
  constructor; [assumption|].
  rewrite Forall_forall in *. intros y Hy. apply Hall.
  apply list_elem_of_filter in Hy. tauto.
Qed.

Lemma insertedInto_sorted (cid : string) (calls : list recordCall) :
  monotoneClock calls ->
  StronglySorted (fun a b => (he_timestamp a <= he_timestamp b)%Z)
    (insertedInto cid calls).
Proof.
  intros Hclock. unfold insertedInto.
  apply (StronglySorted_fmap snd
           (fun p q => (he_timestamp (snd p) <= he_timestamp (snd q))%Z));
    [auto|].
  apply StronglySorted_filter. now apply omap_recorded_sorted.
Qed.

Lemma insertedGlobally_sorted (calls : list recordCall) :
  monotoneClock calls ->
  StronglySorted
    (fun a b => (he_timestamp (ge_entry a) <= he_timestamp (ge_entry b))%Z)
    (insertedGlobally calls).
Proof.
  intros Hclock. unfold insertedGlobally.
  apply (StronglySorted_fmap (fun p => GlobalEntry (snd p) (fst p))
           (fun p q => (he_timestamp (snd p) <= he_timestamp (snd q))%Z));
    [auto|].
  now apply omap_recorded_sorted.
Qed.

Lemma runCall_caps (st : state) (c : recordCall) cid record :
  recorded c = Some (cid, record) ->
  exists older,
    responseHistory (runCall st c) !! cid = Some (record :: older)
    /\ length (record :: older) <= MAX_HISTORY
    /\ length (allResponseHistory (runCall st c)) <= MAX_HISTORY * 5.
Proof.
  intros Hc. pose proof (runCall_histories st c) as H. rewrite Hc in H.
  destruct H as [Hmine Hall]. rewrite Hmine, Hall, lookup_insert_eq.
  change MAX_HISTORY with (S 49) at 1. rewrite capAt_cons.
  eexists. split; [reflexivity|]. split; [|apply capAt_length].
  simpl. pose proof (capAt_length 49 (default [] (responseHistory st !! cid))).
  unfold MAX_HISTORY. lia.
Qed.

Lemma newestFirst_take_rev_app {A : Type} (time : A -> Z) (n : nat)
    (inserted earlier : list A) :
  StronglySorted (fun a b => (time a <= time b)%Z) inserted ->
  newestFirst time earlier ->
  (forall a b, a ∈ inserted -> b ∈ earlier -> (time b <= time a)%Z) ->
  newestFirst time (take n (rev inserted ++ earlier)).
Proof.
  intros Hinserted Hearlier Hbetween. unfold newestFirst in *.
  assert (Hall : StronglySorted (fun a b => (time b <= time a)%Z)
                   (rev inserted ++ earlier)).
  { apply StronglySorted_app_2; [| |assumption].
    - intros a b Ha Hb. apply Hbetween; [|assumption].
      apply list_elem_of_In, in_rev. now apply list_elem_of_In.
    - rewrite <- (take_ge (rev inserted) (length (rev inserted))) by lia.
      now apply (newestFirst_take_rev time). }
  rewrite <- (take_drop n (rev inserted ++ earlier)) in Hall.
  now apply StronglySorted_app_1_l in Hall.
Qed.

Lemma insertedInto_clock (cid : string) (calls : list recordCall)
    (record : historyEntry) :
  record ∈ insertedInto cid calls ->
  exists c, c ∈ calls /\ he_timestamp record = rc_now c.
Proof.
  unfold insertedInto. intros Hin.
  apply list_elem_of_fmap in Hin as ([cid' record'] & -> & Hin).
  apply list_elem_of_filter in Hin as [_ Hin].
  apply list_elem_of_omap in Hin as (c & Hc & Hrecorded).
  exists c. split; [assumption|]. now apply recorded_timestamp in Hrecorded.
Qed.

Lemma insertedGlobally_clock (calls : list recordCall) (g : globalEntry) :
  g ∈ insertedGlobally calls ->
  exists c, c ∈ calls /\ he_timestamp (ge_entry g) = rc_now c.
Proof.
  unfold insertedGlobally. intros Hin.
  apply list_elem_of_fmap in Hin as ([cid' record'] & -> & Hin).
  apply list_elem_of_omap in Hin as (c & Hc & Hrecorded).
  exists c. split; [assumption|]. now apply recorded_timestamp in Hrecorded.
Qed.

(** ** Loading the store *)

Ltac unfold_js := unfold mbind, js_bind, bind, mret, js_ret, ret, get, modify, throw.

Lemma js_bind_eq {A B : Type} (m : js A) (k : A -> js B) (st : state) :
  (m ≫= k) st
  = match m st with
    | Normal a st' => k a st'
    | Throw st' => Throw st'
    end.
Proof. reflexivity. Qed.

Lemma forEach_loadConversationFile dir (st : state) :
  match forEach loadConversationFile dir st with
  | Normal _ st' =>
      intact dir
      /\ st' = set_conversationHistories
                 (loadedHistories dir (conversationHistories st)) st
  | Throw st' => ~ intact dir /\ fs st' = fs st
  end.
Proof.
  revert st. induction dir as [|[name f] dir IH]; intros st.
  - simpl. split; [constructor|]. now destruct st.
  - simpl. unfold_js. unfold loadConversationFile at 1. simpl.
    destruct f as [|convData]; simpl; unfold_js.
    + split; [|reflexivity]. intros H. inversion H as [|? ? Hhead]. now apply Hhead.
    + specialize (IH (set_conversationHistories
                        (<[name := cd_history convData]> (conversationHistories st))
                        st)).
      destruct (forEach loadConversationFile dir _) as [[] st'|st'].
      * destruct IH as [Hintact ->]. split; [|reflexivity].
        constructor; [discriminate|assumption].
      * destruct IH as [Hbroken Hfs]. split; [|exact Hfs].
        intros H. inversion H. now apply Hbroken.
Qed.

Lemma forEach_loadResponsesFile dir (st : state) :
  match forEach loadResponsesFile dir st with
  | Normal _ st' =>
      intact dir
      /\ st' = set_allResponseHistory
                 (allResponseHistory st ++ persistedRecords dir)
                 (set_responseHistory
                    (loadedResponses dir (responseHistory st)) st)
  | Throw st' => ~ intact dir /\ fs st' = fs st
  end.
Proof.
  revert st. induction dir as [|[name f] dir IH]; intros st.
  - simpl. split; [constructor|]. rewrite app_nil_r. now destruct st.
  - simpl. unfold_js. unfold loadResponsesFile at 1. simpl.
    destruct f as [|respData]; simpl; unfold_js.
    + split; [|reflexivity]. intros H. inversion H as [|? ? Hhead]. now apply Hhead.
    + specialize (IH (set_allResponseHistory
                        (allResponseHistory st ++ tagWith name respData)
                        (set_responseHistory
                           (<[name := respData]> (responseHistory st)) st))).
      destruct (forEach loadResponsesFile dir _) as [[] st'|st'].
      * destruct IH as [Hintact ->]. split.
        -- constructor; [discriminate|assumption].
        -- simpl. now rewrite <- app_assoc.
      * destruct IH as [Hbroken Hfs]. split; [|exact Hfs].
        intros H. inversion H. now apply Hbroken.
Qed.

Lemma insertByTimestamp_Permutation (x : globalEntry) (l : list globalEntry) :
  Permutation (insertByTimestamp x l) (x :: l).
Proof.
  induction l as [|y l IH]; simpl; [reflexivity|].
  destruct (he_timestamp (ge_entry x) <? he_timestamp (ge_entry y))%Z.
  - rewrite IH. apply perm_swap.
  - reflexivity.
Qed.

Lemma sortByTimestamp_Permutation (l : list globalEntry) :
  Permutation (sortByTimestamp l) l.
Proof.
  induction l as [|x l IH]; simpl; [reflexivity|].
  rewrite insertByTimestamp_Permutation. now constructor.
Qed.

Lemma insertByTimestamp_newestFirst (x : globalEntry) (l : list globalEntry) :
  newestFirst (fun g => he_timestamp (ge_entry g)) l ->
  newestFirst (fun g => he_timestamp (ge_entry g)) (insertByTimestamp x l).
Proof.
  unfold newestFirst. induction 1 as [|y l Hsorted IH Hall]; simpl.
  - repeat constructor.
  - destruct (Z.ltb_spec (he_timestamp (ge_entry x)) (he_timestamp (ge_entry y))).
    + constructor; [assumption|].
      apply (Permutation_Forall
               (Permutation_sym (insertByTimestamp_Permutation x l))).
      constructor; [lia|assumption].
    + constructor; [now constructor|].
      constructor; [assumption|].
      eapply Forall_impl; [exact Hall|]. simpl. intros; lia.
Qed.

Lemma sortByTimestamp_newestFirst (l : list globalEntry) :
  newestFirst (fun g => he_timestamp (ge_entry g)) (sortByTimestamp l).
Proof.
  induction l as [|x l IH]; simpl; [constructor|].
  now apply insertByTimestamp_newestFirst.
Qed.

(** The sort is stable: a list that is already in order is left as it is. *)
Lemma sortByTimestamp_sorted (l : list globalEntry) :
  newestFirst (fun g => he_timestamp (ge_entry g)) l -> sortByTimestamp l = l.
Proof.
  unfold newestFirst. induction 1 as [|x l Hsorted IH Hall]; simpl; [reflexivity|].
  rewrite IH. destruct l as [|y l]; [reflexivity|]. simpl.
  inversion Hall as [|? ? Hy _]; subst.
  destruct (Z.ltb_spec (he_timestamp (ge_entry x)) (he_timestamp (ge_entry y)));
    [lia|reflexivity].
Qed.

Lemma readFile_absent {A : Type} (name : string) (dir : list (string * A)) :
  name ∉ map fst dir -> readFile name dir = None.
Proof.
  induction dir as [|[n x] dir IH]; simpl; [reflexivity|].
  intros Hnot. destruct (String.eqb_spec n name) as [->|Hne].
  - exfalso. apply Hnot. left.
  - apply IH. intros Hin. apply Hnot. now right.
Qed.

Lemma loadedResponses_lookup dir responses (cid : string) :
  NoDup (map fst dir) ->
  loadedResponses dir responses !! cid
  = match readFile cid dir with
    | Some (Parsed respData) => Some respData
    | _ => responses !! cid
    end.
Proof.
  revert responses. induction dir as [|[name f] dir IH]; intros responses Hnodup.
  - reflexivity.
  - simpl in Hnodup. apply NoDup_cons in Hnodup as [Hfresh Hnodup].
    unfold loadedResponses in *. simpl.
    rewrite IH by assumption.
    destruct (String.eqb_spec name cid) as [->|Hne].
    + rewrite readFile_absent by assumption.
      destruct f; [reflexivity|apply lookup_insert_eq].
    + destruct (readFile cid dir) as [[|]|]; try reflexivity;
        destruct f; try reflexivity; now apply lookup_insert_ne.
Qed.

Lemma assignStateJson_currentStateJson (s : stateJson) (st : state) :
  currentStateJson (assignStateJson s st) = s.
Proof. now destruct s. Qed.

(** [loadState] on a store whose files all parse. *)
Lemma loadState_intact (st : state) (s : stateJson) :
  STATE_FILE (fs st) = Some (Parsed s) ->
  intact (CONVERSATIONS_DIR (fs st)) ->
  intact (RESPONSES_DIR (fs st)) ->
  loadState st
  = (LoadedQuietly,
     set_allResponseHistory
       (sortByTimestamp
          (allResponseHistory st ++ persistedRecords (RESPONSES_DIR (fs st))))
       (set_responseHistory
          (loadedResponses (RESPONSES_DIR (fs st)) (responseHistory st))
          (set_conversationHistories
             (loadedHistories (CONVERSATIONS_DIR (fs st))
                (conversationHistories st))
             (assignStateJson s st)))).
Proof.
  intros Hstate Hconvs Hresps.
  unfold loadState, loadState_try, loadStateFile. unfold_js.
  rewrite Hstate. simpl.
  pose proof (forEach_loadConversationFile (CONVERSATIONS_DIR (fs st))
                (assignStateJson s st)) as Hc.
  destruct (forEach loadConversationFile _ _) as [[] st1|st1];
    [|now destruct Hc].
  destruct Hc as [_ ->]. simpl.
  pose proof (forEach_loadResponsesFile (RESPONSES_DIR (fs st))
                (set_conversationHistories
                   (loadedHistories (CONVERSATIONS_DIR (fs st))
                      (conversationHistories st))
                   (assignStateJson s st))) as Hr.
  simpl in Hr.
  destruct (forEach loadResponsesFile _ _) as [[] st2|st2];
    [|now destruct Hr].
  destruct Hr as [_ ->]. reflexivity.
Qed.

(** ** Capacity of the history index, in a process on a store *)

Lemma loadStateFile_lists (st : state) :
  match loadStateFile st with
  | Normal _ st1 =>
      responseHistory st1 = responseHistory st
      /\ allResponseHistory st1 = allResponseHistory st
      /\ CONVERSATIONS_DIR (fs st1) = CONVERSATIONS_DIR (fs st)
      /\ RESPONSES_DIR (fs st1) = RESPONSES_DIR (fs st)
  | Throw _ => STATE_FILE (fs st) = Some Corrupt
  end.
Proof.
  unfold loadStateFile. unfold_js.
  destruct (STATE_FILE (fs st)) as [[|s]|]; simpl; auto.
Qed.

(** The response lists after [loadState] in a new process: empty when the
    load failed, else the lists of the files and every persisted record,
    sorted. *)
Lemma loadState_lists (d : disk) :
  let st := snd (loadState (initialState d)) in
  responseHistory st = ∅ /\ allResponseHistory st = []
  /\ (STATE_FILE d = Some Corrupt \/ ~ intact (CONVERSATIONS_DIR d)
      \/ ~ intact (RESPONSES_DIR d))
  \/ responseHistory st = loadedResponses (RESPONSES_DIR d) ∅
     /\ allResponseHistory st = sortByTimestamp (persistedRecords (RESPONSES_DIR d)).
Proof.
  cbv zeta. unfold loadState, loadState_try. rewrite js_bind_eq.
  pose proof (loadStateFile_lists (initialState d)) as Hfirst.
  destruct (loadStateFile (initialState d)) as [[] st1|st1];
    [|left; simpl; auto].
  destruct Hfirst as (Hresp1 & Hall1 & Hc1 & Hr1). simpl in Hresp1, Hall1, Hc1, Hr1.
  unfold_js.
  pose proof (forEach_loadConversationFile (CONVERSATIONS_DIR (fs st1)) st1)
    as Hc.
  destruct (forEach loadConversationFile _ _) as [[] st2|st2].
  - destruct Hc as [Hintact ->]. simpl.
    pose proof (forEach_loadResponsesFile (RESPONSES_DIR (fs st1))
                  (set_conversationHistories
                     (loadedHistories (CONVERSATIONS_DIR (fs st1))
                        (conversationHistories st1)) st1)) as Hr.
    simpl in Hr.
    destruct (forEach loadResponsesFile _ _) as [[] st3|st3].
    + destruct Hr as [_ ->]. right. simpl.
      rewrite Hresp1, Hall1, Hr1. auto.
    + destruct Hr as [Hbroken _]. left. simpl. rewrite Hr1 in Hbroken. auto.
  - destruct Hc as [Hbroken _]. left. simpl. rewrite Hc1 in Hbroken. auto.
Qed.

Lemma startCLI_lists (st : state) :
  responseHistory (startCLI st) = responseHistory (snd (loadState st))
  /\ allResponseHistory (startCLI st) = allResponseHistory (snd (loadState st)).
Proof. unfold startCLI. now autorewrite with frames. Qed.



(** Of 51 exchanges in [conv_1], the last 50 remain in its list, the latest
    first, and the first is gone; the global list holds all 51. *)
Example fifty_one_exchanges :
  let st := runCalls (exchangesOf "conv_1" 51)
              (startCLI (initialState emptyDisk)) in
  map he_id (default [] (responseHistory st !! "conv_1"))
  = rev (map (fun i : nat => "resp_" +:+ pretty i) (seq 2 50))
  /\ length (allResponseHistory st) = 51.
Proof. vm_compute. split; reflexivity. Qed.

Lemma reachable_exchanges (numbers : list nat) (st : state) :
  reachable st -> reachable (foldl exchangeNo st numbers).
Proof.
  revert st. induction numbers as [|i numbers IH]; intros st Hst;
    [assumption|].
  simpl. apply IH. unfold exchangeNo.
  apply (reachable_step (promptUser_regular (2 * Z.of_nat i) st));
    [|apply step_handlePrompt_stream].
  apply (reachable_step st); [assumption|apply step_promptUser_regular].
Qed.


(** ** Restarting the process *)

(** C1, as the code has it: when the store holds the session state that was
    last saved and none of its files is corrupt, [loadState] in a new process
    reads that session state back field for field, restores every persisted
    response list as it is, and builds the global list from the persisted
    records, each exactly once, most recent first.  [startCLI] then resets
    the session state to its defaults (no current conversation, not paused,
    empty contexts, no last response id), saves that, and keeps the loaded
    response lists. *)
Theorem restart_keeps_exchanges_and_resets_session (d : disk) (saved : state) :
  STATE_FILE d = Some (Parsed (currentStateJson saved)) ->
  intact (CONVERSATIONS_DIR d) ->
  intact (RESPONSES_DIR d) ->
  NoDup (map fst (RESPONSES_DIR d)) ->
  let loaded := loadState (initialState d) in
  let started := startCLI (initialState d) in
  fst loaded = LoadedQuietly
  /\ currentStateJson (snd loaded) = currentStateJson saved
  /\ (forall cid,
        responseHistory (snd loaded) !! cid
        = match readFile cid (RESPONSES_DIR d) with
          | Some (Parsed respData) => Some respData
          | _ => None
          end)
  /\ Permutation (allResponseHistory (snd loaded))
       (persistedRecords (RESPONSES_DIR d))
  /\ newestFirst (fun g => he_timestamp (ge_entry g))
       (allResponseHistory (snd loaded))
  /\ currentStateJson started = defaultState
  /\ STATE_FILE (fs started) = Some (Parsed defaultState)
  /\ RESPONSES_DIR (fs started) = RESPONSES_DIR d
  /\ responseHistory started = responseHistory (snd loaded)
  /\ allResponseHistory started = allResponseHistory (snd loaded).
Proof.
  intros Hstate Hconvs Hresps Hnodup loaded started.
  subst loaded started. unfold startCLI.
  rewrite (loadState_intact (initialState d) (currentStateJson saved))
    by assumption.
  simpl. unfold saveState. simpl.
  split; [reflexivity|]. split; [apply assignStateJson_currentStateJson|].
  split.
  { intros cid. rewrite loadedResponses_lookup by assumption.
    rewrite lookup_empty. now destruct (readFile cid (RESPONSES_DIR d)) as [[|]|]. }
  split; [apply sortByTimestamp_Permutation|].
  split; [apply sortByTimestamp_newestFirst|].
  repeat split; reflexivity.
Qed.

Lemma restart_keeps_exchanges_and_resets_session_witness :
  STATE_FILE (fs afterExchange1) = Some (Parsed (currentStateJson afterExchange1))
  /\ intact (CONVERSATIONS_DIR (fs afterExchange1))
  /\ intact (RESPONSES_DIR (fs afterExchange1))
  /\ NoDup (map fst (RESPONSES_DIR (fs afterExchange1)))
  /\ currentStateJson (snd (loadState (initialState (fs afterExchange1))))
     = currentStateJson afterExchange1
  /\ currentStateJson restarted = defaultState.
Proof.
  assert (H1 : STATE_FILE (fs afterExchange1)
               = Some (Parsed (currentStateJson afterExchange1)))
    by (vm_compute; reflexivity).
  assert (H2 : intact (CONVERSATIONS_DIR (fs afterExchange1)))
    by (vm_compute; repeat constructor; discriminate).
  assert (H3 : intact (RESPONSES_DIR (fs afterExchange1)))
    by (vm_compute; repeat constructor; discriminate).
  assert (H4 : NoDup (map fst (RESPONSES_DIR (fs afterExchange1))))
    by (vm_compute; repeat constructor; apply not_elem_of_nil).
  repeat (split; [assumption|]).
  destruct (restart_keeps_exchanges_and_resets_session (fs afterExchange1)
              afterExchange1 H1 H2 H3 H4)
    as (_ & Hloaded & _ & _ & _ & Hstarted & _).
  split; [exact Hloaded|exact Hstarted].
Defined.

(** C1 fails as stated: [afterExchange1] is saved while paused in [conv_1]
    with the last response id [resp_1]; the process started on that store
    is not paused, has no current conversation, no paused snapshot and no
    last response id. *)
Lemma restart_forgets_session :
  reachable afterExchange1
  /\ STATE_FILE (fs afterExchange1) = Some (Parsed (currentStateJson afterExchange1))
  /\ currentStateJson afterExchange1
     = StateJson (Some "resp_1") [] (Some "conv_1") true
         [Message User "hi"; Message Assistant "hello!"] (Some "conv_1")
  /\ currentStateJson restarted = StateJson None [] None false [] None
  /\ currentStateJson restarted <> currentStateJson afterExchange1.
Proof.
  split; [exact reachable_afterExchange1|].
  split; [vm_compute; reflexivity|]. split; [vm_compute; reflexivity|].
  split; [vm_compute; reflexivity|]. vm_compute. discriminate.
Qed.

(** ** A corrupt file in the store *)

Lemma loadStateFile_result (st : state) :
  STATE_FILE (fs st) <> Some Corrupt ->
  exists st1,
    loadStateFile st = Normal tt st1
    /\ fs st1 = diskAfterLoad (fs st)
    /\ CONVERSATIONS_DIR (fs st1) = CONVERSATIONS_DIR (fs st)
    /\ RESPONSES_DIR (fs st1) = RESPONSES_DIR (fs st).
Proof.
  intros Hstate. unfold loadStateFile, diskAfterLoad. unfold_js.
  destruct (STATE_FILE (fs st)) as [[|s]|] eqn:Hfile.
  - contradiction.
  - eexists. simpl. split; [reflexivity|]. destruct s; simpl. auto.
  - eexists. split; [reflexivity|]. simpl. auto.
Qed.

(** C6, as the code has it: when a file of the conversations or responses
    directory is corrupt, [loadState] reports the error and goes on, but with
    every variable reset: the session state, the command histories and the
    response lists of all conversations and the global list are those of an
    empty store.  The files themselves are left as they are, and [startCLI]
    proceeds from the empty state. *)
Theorem corrupt_file_resets_all (st : state) :
  ~ intact (CONVERSATIONS_DIR (fs st)) \/ ~ intact (RESPONSES_DIR (fs st)) ->
  STATE_FILE (fs st) <> Some Corrupt ->
  loadState st = (ErrorLoadingState, initialState (diskAfterLoad (fs st)))
  /\ (forall cid, responseHistory (snd (loadState st)) !! cid = None)
  /\ (forall cid, conversationHistories (snd (loadState st)) !! cid = None)
  /\ allResponseHistory (snd (loadState st)) = []
  /\ currentStateJson (snd (loadState st)) = defaultState
  /\ CONVERSATIONS_DIR (fs (snd (loadState st))) = CONVERSATIONS_DIR (fs st)
  /\ RESPONSES_DIR (fs (snd (loadState st))) = RESPONSES_DIR (fs st)
  /\ startCLI st
     = saveState (initialState (diskAfterLoad (fs st))).
Proof.
  intros Hbroken Hstate.
  assert (Hload : loadState st
                  = (ErrorLoadingState, initialState (diskAfterLoad (fs st)))).
  { unfold loadState, loadState_try. rewrite js_bind_eq.
    destruct (loadStateFile_result st Hstate) as (st1 & Hfirst & Hfs1 & Hc1 & Hr1).
    rewrite Hfirst. unfold_js.
    pose proof (forEach_loadConversationFile (CONVERSATIONS_DIR (fs st1)) st1)
      as Hc.
    destruct (forEach loadConversationFile _ _) as [[] st2|st2].
    - destruct Hc as [Hintact ->]. simpl.
      pose proof (forEach_loadResponsesFile (RESPONSES_DIR (fs st1))
                    (set_conversationHistories
                       (loadedHistories (CONVERSATIONS_DIR (fs st1))
                          (conversationHistories st1)) st1)) as Hr.
      simpl in Hr.
      destruct (forEach loadResponsesFile _ _) as [[] st3|st3].
      + destruct Hr as [Hintact' _]. rewrite Hc1 in Hintact.
        rewrite Hr1 in Hintact'. tauto.
      + destruct Hr as [_ Hfs3]. unfold resetState. simpl in Hfs3.
        now rewrite Hfs3, Hfs1.
    - destruct Hc as [_ Hfs2]. unfold resetState. now rewrite Hfs2, Hfs1. }
  split; [exact Hload|]. unfold startCLI. rewrite Hload. simpl.
  split; [intros cid; apply lookup_empty|].
  split; [intros cid; apply lookup_empty|].
  repeat split; unfold diskAfterLoad; now destruct (STATE_FILE (fs st)).
Qed.

Lemma corrupt_file_resets_all_witness :
  (~ intact (CONVERSATIONS_DIR (fs (initialState oneCorruptFile)))
   \/ ~ intact (RESPONSES_DIR (fs (initialState oneCorruptFile))))
  /\ STATE_FILE (fs (initialState oneCorruptFile)) <> Some Corrupt
  /\ loadState (initialState oneCorruptFile)
     = (ErrorLoadingState, initialState oneCorruptFile).
Proof.
  assert (H1 : ~ intact (CONVERSATIONS_DIR (fs (initialState oneCorruptFile)))
               \/ ~ intact (RESPONSES_DIR (fs (initialState oneCorruptFile)))).
  { right. vm_compute. intros H. inversion H as [|? ? Hhead _]. now apply Hhead. }
  assert (H2 : STATE_FILE (fs (initialState oneCorruptFile)) <> Some Corrupt)
    by (vm_compute; discriminate).
  split; [exact H1|]. split; [exact H2|].
  rewrite (proj1 (corrupt_file_resets_all (initialState oneCorruptFile) H1 H2)).
  vm_compute. reflexivity.
Defined.

(** C6 fails as stated: with only [responses/conv_1.json] corrupt, the
    response list and the command history of [conv_5] are in the store and
    parse, and so does [state.json], yet after [loadState] none of them is
    loaded. *)
Lemma one_corrupt_file_discards_the_rest :
  RESPONSES_DIR oneCorruptFile
  = [("conv_1", Corrupt);
     ("conv_5", Parsed [HistoryEntry "b" "y" "y" "resp_2" 7])]
  /\ intact (CONVERSATIONS_DIR oneCorruptFile)
  /\ readFile "conv_5" (CONVERSATIONS_DIR oneCorruptFile)
     = Some (Parsed (ConvData "conv_5" [] []))
  /\ STATE_FILE oneCorruptFile
     = Some (Parsed (StateJson (Some "resp_2") [] (Some "conv_5") true
                       [Message User "b"; Message Assistant "y"]
                       (Some "conv_5")))
  /\ let loaded := loadState (initialState oneCorruptFile) in
     fst loaded = ErrorLoadingState
     /\ responseHistory (snd loaded) !! "conv_5" = None
     /\ conversationHistories (snd loaded) !! "conv_5" = None
     /\ allResponseHistory (snd loaded) = []
     /\ currentStateJson (snd loaded) = defaultState.
Proof.
  split; [vm_compute; reflexivity|].
  split; [vm_compute; repeat constructor; discriminate|].
  split; [vm_compute; reflexivity|].
  split; [vm_compute; reflexivity|].
  vm_compute. repeat split; reflexivity.
Qed.

(** ** The paused snapshot of a reachable state *)

Lemma pushExchange_last (prompt fullResponse : string) (context : list message) :
  exists before,
    pushExchange prompt fullResponse context
    = before ++ [Message Assistant fullResponse].
Proof. rewrite pushExchange_eq. eauto. Qed.

Lemma pausedSnapshotOk_frame (st st' : state) :
  pausedConversation st' = pausedConversation st ->
  pausedConversationContext st' = pausedConversationContext st ->
  pausedConversationId st' = pausedConversationId st ->
  pausedSnapshotOk st -> pausedSnapshotOk st'.
Proof. unfold pausedSnapshotOk. intros -> -> ->. auto. Qed.

Lemma pausedSnapshotOk_unpaused (st : state) :
  pausedConversation st = false -> pausedSnapshotOk st.
Proof. unfold pausedSnapshotOk. congruence. Qed.

Lemma promptUser_regular_paused (now : Z) (st : state) :
  pausedConversation (promptUser_regular now st) = pausedConversation st
  /\ pausedConversationContext (promptUser_regular now st)
     = pausedConversationContext st
  /\ pausedConversationId (promptUser_regular now st) = pausedConversationId st.
Proof.
  unfold promptUser_regular.
  repeat case_match; autorewrite with frames; simpl; auto.
Qed.

Lemma exchanged_pausedSnapshotOk (prompt fullResponse : string) (st st' : state) :
  exchanged prompt fullResponse st st' ->
  pausedSnapshotOk st -> pausedSnapshotOk st'.
Proof.
  intros Hex Hok.
  destruct (truthy fullResponse) eqn:Hfull.
  - destruct (exchanged_snapshot prompt fullResponse st st' Hfull Hex)
      as (Hctx & _ & Hid & Hcid & _).
    intros _. rewrite Hid, Hcid.
    pose proof (pushExchange_eq prompt fullResponse (conversationContext st)) as Heq.
    split; [|split; [|reflexivity]].
    + rewrite Hctx, <- Heq. apply length_pushExchange.
    + rewrite Hctx. eauto.
  - destruct Hex as [responseId nowRecord nowMint | responseId nowMint nowRecord].
    + unfold handlePrompt_complete. rewrite Hfull.
      eapply pausedSnapshotOk_frame; [| | |exact Hok];
        now autorewrite with frames.
    + unfold handlePrompt_stream. now rewrite Hfull.
Qed.

Lemma step_pausedSnapshotOk (st st' : state) :
  step st st' -> pausedSnapshotOk st -> pausedSnapshotOk st'.
Proof.
  intros Hstep Hok. destruct Hstep.
  - destruct (promptUser_regular_paused now st) as (H1 & H2 & H3).
    now apply (pausedSnapshotOk_frame st).
  - now apply (pausedSnapshotOk_frame st).
  - apply (pausedSnapshotOk_frame st); now autorewrite with frames.
  - eapply exchanged_pausedSnapshotOk; [apply exchanged_complete|exact Hok].
  - eapply exchanged_pausedSnapshotOk; [apply exchanged_stream|exact Hok].
  - apply pausedSnapshotOk_unpaused. unfold newCommand, startNewConversation.
    simpl. now autorewrite with frames.
  - unfold continueCommand.
    set (historyIndex := match commandParts with
                         | _ :: arg :: _ => Some (minusOne (parseInt arg))
                         | _ => None
                         end).
    destruct (continueConversation_paused_fields historyIndex now st)
      as [(H1 & H2 & H3)|H].
    + now apply (pausedSnapshotOk_frame st).
    + now apply pausedSnapshotOk_unpaused.
Qed.

Lemma reachable_pausedSnapshotOk (st : state) :
  reachable st -> pausedSnapshotOk st.
Proof.
  induction 1 as [d|st st' _ IH Hstep].
  - apply pausedSnapshotOk_unpaused. unfold startCLI.
    now autorewrite with frames.
  - now apply (step_pausedSnapshotOk st).
Qed.

(** ** Resuming the paused conversation *)

Lemma lastAssistantMessage_snoc (before : list message) (answer : string) :
  lastAssistantMessage (before ++ [Message Assistant answer])
  = Some (Message Assistant answer).
Proof.
  unfold lastAssistantMessage.
  rewrite filter_app, filter_cons_True by reflexivity.
  rewrite filter_nil. apply last_snoc.
Qed.

Lemma resumePaused_lastResponseId (st : state) :
  lastResponseId (resumePaused st)
  = if (2 <=? length (pausedConversationContext st))%nat then
      match pausedConversationId st with
      | Some cid =>
          if truthy cid then
            match
              find (matchesResponse
                      (lastAssistantMessage (pausedConversationContext st)))
                (default [] (responseHistory st !! cid))
            with
            | Some matchingResponse => Some (he_id matchingResponse)
            | None => lastResponseId st
            end
          else lastResponseId st
      | None => lastResponseId st
      end
    else lastResponseId st.
Proof.
  unfold resumePaused. autorewrite with frames.
  generalize (2 <=? length (pausedConversationContext st))%nat.
  intros big. simpl.
  destruct big; destruct (pausedConversationId st) as [cid|]; simpl;
    try reflexivity.
  - destruct (truthy cid) eqn:Hcid; simpl; rewrite ?Hcid; [|reflexivity].
    destruct (responseHistory st !! cid) as [responses|]; simpl;
      rewrite ?Hcid.
    + destruct (find _ responses); simpl; rewrite ?Hcid;
        destruct (conversationHistories st !! cid); reflexivity.
    + destruct (conversationHistories st !! cid); reflexivity.
  - destruct (truthy cid) eqn:Hcid; simpl; rewrite ?Hcid; [|reflexivity].
    destruct (conversationHistories st !! cid); reflexivity.
Qed.

(** C3: in a reachable state that is paused, the bare [continue] makes the
    paused snapshot the active context and the paused id the current
    conversation id, and clears the snapshot.  The restored context ends
    with an assistant message; [lastResponseId] becomes the id of the first
    record of that conversation whose full response is the content of that
    message, and stays as it was when the conversation has no such record. *)
Theorem resume_restores_paused_conversation (st : state) (now : Z) :
  reachable st ->
  pausedConversation st = true ->
  let result := continueConversation None now st in
  fst result = ResumedPaused
  /\ conversationContext (snd result) = pausedConversationContext st
  /\ currentConversationId (snd result) = pausedConversationId st
  /\ pausedConversation (snd result) = false
  /\ pausedConversationContext (snd result) = []
  /\ pausedConversationId (snd result) = None
  /\ exists cid before answer,
       currentConversationId (snd result) = Some cid
       /\ conversationContext (snd result)
          = before ++ [Message Assistant answer]
       /\ lastResponseId (snd result)
          = match
              find (fun resp => String.eqb (he_fullResponse resp) answer)
                (default [] (responseHistory st !! cid))
            with
            | Some matchingResponse => Some (he_id matchingResponse)
            | None => lastResponseId st
            end.
Proof.
  intros Hreach Hpaused result. subst result.
  rewrite continueConversation_paused by assumption. simpl.
  destruct (resumePaused_restores st) as [Hctx Hcid].
  destruct (resumePaused_pausedConversation st) as (Hp & Hpc & Hpi).
  destruct (reachable_pausedSnapshotOk st Hreach Hpaused)
    as (Hlen & (before & answer & Hsnapshot) & Hid).
  repeat (split; [assumption || reflexivity|]).
  destruct (pausedConversationId st) as [cid|] eqn:Hpid; [|discriminate].
  simpl in Hid. exists cid, before, answer.
  split; [assumption|]. rewrite Hctx.
  split; [assumption|].
  rewrite resumePaused_lastResponseId, Hpid, Hid.
  destruct (Nat.leb_spec 2 (length (pausedConversationContext st))); [|lia].
  rewrite Hsnapshot, lastAssistantMessage_snoc. reflexivity.
Qed.

Lemma reachable_threeExchanges : reachable threeExchanges.
Proof.
  unfold threeExchanges. cbv zeta.
  apply (reachable_step
           (promptUser_regular 8
              (snd (continueCommand ["continue"] 7
                      (handlePrompt_stream "how are you?" "fine"
                         (Some "resp_2") 5 6
                         (promptUser_regular 5
                            (snd (continueCommand ["continue"] 4
                                    afterExchange1))))))));
    [|apply step_handlePrompt_stream].
  apply (reachable_step
           (snd (continueCommand ["continue"] 7
                   (handlePrompt_stream "how are you?" "fine"
                      (Some "resp_2") 5 6
                      (promptUser_regular 5
                         (snd (continueCommand ["continue"] 4
                                 afterExchange1)))))));
    [|apply step_promptUser_regular].
  apply (reachable_step
           (handlePrompt_stream "how are you?" "fine" (Some "resp_2") 5 6
              (promptUser_regular 5
                 (snd (continueCommand ["continue"] 4 afterExchange1)))));
    [|apply step_continueCommand].
  apply (reachable_step
           (promptUser_regular 5
              (snd (continueCommand ["continue"] 4 afterExchange1))));
    [|apply step_handlePrompt_stream].
  apply (reachable_step
           (snd (continueCommand ["continue"] 4 afterExchange1)));
    [|apply step_promptUser_regular].
  apply (reachable_step afterExchange1);
    [exact reachable_afterExchange1|apply step_continueCommand].
Qed.

(** A run of C3 in which the scan decides: after the three exchanges of
    [conv_1], [continue 2] makes [resp_2] the last response id and leaves
    the session paused; the bare [continue] then restores the whole
    snapshot, which ends with the answer "goodbye", and the record with
    that answer makes [resp_3] the last response id. *)
Lemma resume_restores_paused_conversation_witness :
  let branched := snd (continueCommand ["continue"; "2"] 10 threeExchanges) in
  reachable branched
  /\ pausedConversation branched = true
  /\ lastResponseId branched = Some "resp_2"
  /\ conversationContext branched
     = [Message User "how are you?"; Message Assistant "fine"]
  /\ let result := continueConversation None 11 branched in
     fst result = ResumedPaused
     /\ conversationContext (snd result)
        = [Message User "hi"; Message Assistant "hello!";
           Message User "how are you?"; Message Assistant "fine";
           Message User "bye"; Message Assistant "goodbye"]
     /\ currentConversationId (snd result) = Some "conv_1"
     /\ lastResponseId (snd result) = Some "resp_3"
     /\ pausedConversation (snd result) = false
     /\ pausedConversationContext (snd result) = []
     /\ pausedConversationId (snd result) = None.
Proof.
  cbv zeta.
  assert (Hreach : reachable
                     (snd (continueCommand ["continue"; "2"] 10 threeExchanges)))
    by exact (reachable_step _ _ reachable_threeExchanges
                (step_continueCommand _ ["continue"; "2"] 10)).
  assert (Hpaused : pausedConversation
                      (snd (continueCommand ["continue"; "2"] 10 threeExchanges))
                    = true) by (vm_compute; reflexivity).
  assert (Hsnapshot : pausedConversationContext
                        (snd (continueCommand ["continue"; "2"] 10
                                threeExchanges))
                      = [Message User "hi"; Message Assistant "hello!";
                         Message User "how are you?"; Message Assistant "fine";
                         Message User "bye"; Message Assistant "goodbye"])
    by (vm_compute; reflexivity).
  assert (Hpid : pausedConversationId
                   (snd (continueCommand ["continue"; "2"] 10 threeExchanges))
                 = Some "conv_1") by (vm_compute; reflexivity).
  split; [exact Hreach|]. split; [exact Hpaused|].
  split; [vm_compute; reflexivity|]. split; [vm_compute; reflexivity|].
  destruct (resume_restores_paused_conversation
              (snd (continueCommand ["continue"; "2"] 10 threeExchanges)) 11
              Hreach Hpaused)
    as (Ho & Hctx & Hcid & Hp & Hpc & Hpi
        & cid & before & answer & Hcid' & Hlast & Hid).
  assert (Hc : cid = "conv_1") by (rewrite Hcid, Hpid in Hcid'; congruence).
  assert (Ha : answer = "goodbye").
  { rewrite Hctx, Hsnapshot in Hlast. apply (f_equal last) in Hlast.
    rewrite last_snoc in Hlast. simpl in Hlast. congruence. }
  subst cid answer.
  split; [exact Ho|].
  split; [rewrite Hctx; exact Hsnapshot|].
  split; [exact Hcid'|].
  split; [rewrite Hid; vm_compute; reflexivity|].
  split; [exact Hp|]. split; [exact Hpc|exact Hpi].
Defined.

(** The scenario of C3: after the exchange ("hi", "hello!", "resp_1") in
    [conv_1], the bare [continue] restores the pair as the active context,
    with [lastResponseId] the id [resp_1], and clears the snapshot. *)
Example first_exchange_resumed :
  let result := continueConversation None 4 afterExchange1 in
  pausedConversationContext afterExchange1
  = [Message User "hi"; Message Assistant "hello!"]
  /\ fst result = ResumedPaused
  /\ conversationContext (snd result)
     = [Message User "hi"; Message Assistant "hello!"]
  /\ currentConversationId (snd result) = Some "conv_1"
  /\ lastResponseId (snd result) = Some "resp_1"
  /\ pausedConversation (snd result) = false
  /\ pausedConversationContext (snd result) = []
  /\ pausedConversationId (snd result) = None.
Proof. vm_compute. auto 10. Qed.

(** * Further properties *)

(** ** What [saveState] writes *)

Lemma writeFile_writeFile {A : Type} (name : string) (v w : A) dir :
  writeFile name w (writeFile name v dir) = writeFile name w dir.
Proof.
  induction dir as [|[n x] rest IH]; simpl.
  - now rewrite String.eqb_refl.
  - destruct (String.eqb n name) eqn:E; simpl; rewrite E; [reflexivity|].
    now rewrite IH.
Qed.

Lemma saveState_set_fs (st : state) :
  saveState st = set_fs (fs (saveState st)) st.
Proof. unfold saveState. repeat case_match; reflexivity. Qed.

(** X1: [saveState] rewrites [state.json] and the file of the current
    conversation and nothing else: the responses directory and the files of
    the other conversations are as before, no variable changes, and saving
    twice is saving once. *)
Theorem saveState_writes_only_current (st : state) :
  STATE_FILE (fs (saveState st)) = Some (Parsed (currentStateJson st))
  /\ RESPONSES_DIR (fs (saveState st)) = RESPONSES_DIR (fs st)
  /\ (forall other,
        currentConversationId st <> Some other ->
        readFile other (CONVERSATIONS_DIR (fs (saveState st)))
        = readFile other (CONVERSATIONS_DIR (fs st)))
  /\ (forall cid,
        currentConversationId st = Some cid -> truthy cid = true ->
        readFile cid (CONVERSATIONS_DIR (fs (saveState st)))
        = Some (Parsed (ConvData cid (conversationContext st)
                          (default [] (conversationHistories st !! cid)))))
  /\ saveState st = set_fs (fs (saveState st)) st
  /\ saveState (saveState st) = saveState st.
Proof.
  split; [apply saveState_STATE_FILE|].
  split; [apply saveState_RESPONSES_DIR|].
  split; [|split; [|split; [apply saveState_set_fs|]]].
  - intros other Hother. unfold saveState.
    destruct (currentConversationId st) as [cid|] eqn:Hcid; [|reflexivity].
    destruct (truthy cid); [|reflexivity]. simpl.
    apply readFile_writeFile_ne. congruence.
  - intros cid Hcid Tcid. unfold saveState. rewrite Hcid, Tcid. simpl.
    apply readFile_writeFile.
  - destruct st as [l c [cid|] p pc pi ch hs rh all d]; unfold saveState; simpl;
      [destruct (truthy cid) eqn:Tcid; simpl; rewrite ?Tcid|];
      unfold set_fs, currentStateJson; simpl;
      rewrite ?writeFile_writeFile; reflexivity.
Qed.

(** ** The ends of [continueConversation] *)

Lemma saveState_currentStateJson (st : state) :
  currentStateJson (saveState st) = currentStateJson st.
Proof. unfold currentStateJson. now autorewrite with frames. Qed.

Lemma saveState_persisted (st : state) :
  STATE_FILE (fs (saveState st))
  = Some (Parsed (currentStateJson (saveState st)))
  /\ forall cid,
       currentConversationId (saveState st) = Some cid -> truthy cid = true ->
       readFile cid (CONVERSATIONS_DIR (fs (saveState st)))
       = Some (Parsed (ConvData cid (conversationContext (saveState st))
                         (default [] (conversationHistories (saveState st) !! cid)))).
Proof.
  rewrite saveState_currentStateJson. autorewrite with frames.
  split; [reflexivity|]. intros cid Hcid Tcid.
  unfold saveState. rewrite Hcid, Tcid. simpl. apply readFile_writeFile.
Qed.

Lemma continueConversation_saved (historyIndex : option jsnum) (now : Z)
    (st : state) :
  returned (fst (continueConversation historyIndex now st)) = true ->
  exists st', snd (continueConversation historyIndex now st) = saveState st'.
Proof.
  unfold continueConversation.
  destruct (bool_decide (historyIndex = None) && pausedConversation st).
  - intros _. unfold resumePaused. eauto.
  - destruct (selectedResponse historyIndex st) as [[i selected]|];
      [|destruct (currentResponses st);
        [destruct (allResponseHistory st)|]]; simpl; eauto.
    discriminate.
Qed.

(** X2: [continueConversation] returns [false] exactly when the request is
    not the resumption of a paused session, the current conversation has no
    response record (or there is none) and the global history is empty;
    then it leaves the state as it is.  When it returns [true] without
    resuming the paused session, the active context is one prompt and its
    answer, [lastResponseId] is set and there is a current conversation. *)
Theorem continue_fails_only_without_history
    (historyIndex : option jsnum) (now : Z) (st : state) :
  let result := continueConversation historyIndex now st in
  (returned (fst result) = false <->
     (historyIndex = None -> pausedConversation st = false)
     /\ currentResponses st = [] /\ allResponseHistory st = [])
  /\ (returned (fst result) = false -> snd result = st)
  /\ (returned (fst result) = true -> fst result <> ResumedPaused ->
      length (conversationContext (snd result)) = 2
      /\ is_Some (lastResponseId (snd result))
      /\ truthy_opt (currentConversationId (snd result)) = true).
Proof.
  intros result. subst result. unfold continueConversation.
  destruct (bool_decide (historyIndex = None)) eqn:Hidx.
  - apply bool_decide_eq_true in Hidx. subst historyIndex.
    destruct (pausedConversation st) eqn:Hpaused; simpl.
    + split; [split; [discriminate|]|split; [discriminate|congruence]].
      intros [H _]. specialize (H eq_refl). discriminate.
    + destruct (currentResponses st) as [|record ?] eqn:Hcur;
        [destruct (allResponseHistory st) as [|record ?] eqn:Hall|]; simpl;
        autorewrite with frames; simpl.
      * repeat split; auto; discriminate.
      * split; [split; [discriminate|intros (_ & _ & ?); discriminate]|].
        split; [discriminate|]. intros _ _. repeat split; eauto.
      * split; [split; [discriminate|intros (_ & ? & _); discriminate]|].
        split; [discriminate|]. intros _ _. repeat split; eauto.
        unfold currentResponses in Hcur.
        destruct (currentConversationId st) as [cid|]; [|discriminate].
        simpl. now destruct (truthy cid).
  - apply bool_decide_eq_false in Hidx. simpl.
    destruct (selectedResponse historyIndex st) as [[i selected]|] eqn:Hsel.
    + simpl. autorewrite with frames. simpl. autorewrite with frames. simpl.
      split; [split; [discriminate|]|].
      * intros (_ & Hcur & _).
        rewrite selectedResponse_no_responses in Hsel by assumption.
        discriminate.
      * split; [discriminate|]. intros _ _. repeat split; eauto.
        apply ensureConversationId_truthy.
    + destruct (currentResponses st) as [|record ?] eqn:Hcur;
        [destruct (allResponseHistory st) as [|record ?] eqn:Hall|]; simpl;
        autorewrite with frames; simpl.
      * repeat split; auto; try discriminate. intros; contradiction.
      * split; [split; [discriminate|intros (_ & _ & ?); discriminate]|].
        split; [discriminate|]. intros _ _. repeat split; eauto.
      * split; [split; [discriminate|intros (_ & ? & _); discriminate]|].
        split; [discriminate|]. intros _ _. repeat split; eauto.
        unfold currentResponses in Hcur.
        destruct (currentConversationId st) as [cid|]; [|discriminate].
        simpl. now destruct (truthy cid).
Qed.

(** X3: whenever [continueConversation] returns [true], the state it
    returns has just been saved: [state.json] holds the session state as it
    is in memory, and the file of the current conversation holds the active
    context. *)
Theorem continue_saves_what_it_sets
    (historyIndex : option jsnum) (now : Z) (st : state) :
  returned (fst (continueConversation historyIndex now st)) = true ->
  let st' := snd (continueConversation historyIndex now st) in
  STATE_FILE (fs st') = Some (Parsed (currentStateJson st'))
  /\ forall cid,
       currentConversationId st' = Some cid -> truthy cid = true ->
       readFile cid (CONVERSATIONS_DIR (fs st'))
       = Some (Parsed (ConvData cid (conversationContext st')
                         (default [] (conversationHistories st' !! cid)))).
Proof.
  intros Hreturned st'. subst st'.
  destruct (continueConversation_saved historyIndex now st Hreturned)
    as [saved ->].
  apply saveState_persisted.
Qed.

Lemma continue_saves_what_it_sets_witness :
  returned (fst (continueConversation None 4 afterExchange1)) = true
  /\ STATE_FILE (fs (snd (continueConversation None 4 afterExchange1)))
     = Some (Parsed (StateJson (Some "resp_1")
                       [Message User "hi"; Message Assistant "hello!"]
                       (Some "conv_1") false [] None)).
Proof.
  assert (H : returned (fst (continueConversation None 4 afterExchange1)) = true)
    by (vm_compute; reflexivity).
  split; [exact H|].
  rewrite (proj1 (continue_saves_what_it_sets None 4 afterExchange1 H)).
  vm_compute. reflexivity.
Defined.

(** ** The two answers of the service *)

(** X4: for a conversation that is open, a complete response object and a
    stream that delivers the same text and the same response id leave the
    program in the same state (records, snapshot, files), the clock being
    read the same. *)
Theorem complete_response_as_stream
    (prompt fullResponse responseId : string) (nowRecord nowMint : Z)
    (st : state) :
  truthy_opt (currentConversationId st) = true ->
  truthy fullResponse = true ->
  truthy responseId = true ->
  handlePrompt_complete prompt fullResponse responseId nowRecord nowMint st
  = handlePrompt_stream prompt fullResponse (Some responseId)
      nowMint nowRecord st.
Proof.
  intros Hcid Hfull Hrid.
  destruct st as [l c [cid|] p pc pi ch hs rh all d]; [|discriminate].
  simpl in Hcid.
  unfold handlePrompt_complete, handlePrompt_stream, ensureConversationId,
    saveResponseToHistory.
  simpl. rewrite Hfull, Hrid, Hcid. simpl. rewrite Hcid. simpl.
  reflexivity.
Qed.

Lemma complete_response_as_stream_witness :
  truthy_opt (currentConversationId inConversation1) = true
  /\ truthy "hello!" = true /\ truthy "resp_1" = true
  /\ handlePrompt_complete "hi" "hello!" "resp_1" 3 2 inConversation1
     = afterExchange1.
Proof.
  split; [reflexivity|]. split; [reflexivity|]. split; [reflexivity|].
  rewrite (complete_response_as_stream "hi" "hello!" "resp_1" 3 2
             inConversation1 eq_refl eq_refl eq_refl).
  vm_compute. reflexivity.
Defined.

(** ** Trimming *)

Lemma trimEnd_trimEnd (s : string) : trimEnd (trimEnd s) = trimEnd s.
Proof.
  induction s as [|c s IH]; [reflexivity|]. simpl.
  destruct (isWhiteSpace c && String.eqb (trimEnd s) "") eqn:E; [reflexivity|].
  simpl. rewrite IH, E. reflexivity.
Qed.

Lemma trimStart_fixed (c : ascii) (s : string) :
  isWhiteSpace c = false -> trimStart (String c s) = String c s.
Proof. intros H. simpl. now rewrite H. Qed.

Lemma trimStart_shape (s : string) :
  trimStart s = ""
  \/ exists c rest, trimStart s = String c rest /\ isWhiteSpace c = false.
Proof.
  induction s as [|c s IH]; [now left|]. simpl.
  destruct (isWhiteSpace c) eqn:E; [exact IH|right; eauto].
Qed.

Lemma trim_shape (s : string) :
  trim s = ""
  \/ exists c rest, trim s = String c rest /\ isWhiteSpace c = false.
Proof.
  unfold trim. destruct (trimStart_shape s) as [->|(c & rest & -> & Hc)].
  - now left.
  - right. simpl. rewrite Hc. simpl. eauto.
Qed.

Lemma trim_trim (s : string) : trim (trim s) = trim s.
Proof.
  destruct (trim_shape s) as [->|(c & rest & Hs & Hc)]; [reflexivity|].
  unfold trim at 1. rewrite Hs, trimStart_fixed by assumption.
  rewrite <- Hs. unfold trim. apply trimEnd_trimEnd.
Qed.

Lemma truthy_nonempty (s : string) : truthy s = true <-> s <> "".
Proof.
  unfold truthy. destruct (String.eqb_spec s ""); simpl; split; congruence.
Qed.

(** ** The recall list of [saveHistory] *)

Lemma lastN_all {A : Type} (n : nat) (l : list A) :
  length l <= n -> lastN n l = l.
Proof.
  intros H. unfold lastN. replace (length l - n) with 0 by lia. reflexivity.
Qed.

Lemma length_lastN {A : Type} (n : nat) (l : list A) : length (lastN n l) <= n.
Proof. unfold lastN. rewrite length_drop. lia. Qed.

Lemma last_lastN_snoc {A : Type} (n : nat) (l : list A) (x : A) :
  last (lastN (S n) (l ++ [x])) = Some x.
Proof.
  unfold lastN. rewrite length_app. simpl.
  rewrite drop_app_le by lia. apply last_snoc.
Qed.

Lemma noRepeats_snoc (l : list string) (x : string) :
  noRepeats l -> last l <> Some x -> noRepeats (l ++ [x]).
Proof.
  intros Hl Hlast i y Hi Hnext.
  assert (Hlt : S i < length (l ++ [x])) by (now apply lookup_lt_Some in Hnext).
  rewrite length_app in Hlt. simpl in Hlt.
  rewrite lookup_app_l in Hi by lia.
  destruct (decide (S i < length l)) as [Hin|Hout].
  - rewrite lookup_app_l in Hnext by lia. now apply (Hl i y).
  - assert (S i = length l) by lia.
    rewrite lookup_app_r in Hnext by lia.
    replace (S i - length l) with 0 in Hnext by lia. simpl in Hnext.
    inversion Hnext; subst y. apply Hlast.
    rewrite last_lookup. replace (pred (length l)) with i by lia. exact Hi.
Qed.

Lemma noRepeats_lastN (n : nat) (l : list string) :
  noRepeats l -> noRepeats (lastN n l).
Proof.
  intros Hl i x Hi Hnext. unfold lastN in *.
  rewrite lookup_drop in Hi, Hnext.
  replace (length l - n + S i) with (S (length l - n + i)) in Hnext by lia.
  now apply (Hl _ _ Hi).
Qed.

Lemma saveHistory_stored (shares : string -> bool) (command : string)
    (st : state) :
  startsWith "/" command = false ->
  trim command <> "" ->
  last (commandHistory st) <> Some command ->
  let kept := lastN MAX_HISTORY (commandHistory st ++ [command]) in
  let seen :=
    map_imap (fun k history =>
                Some (if shares k then commandHistory st ++ [command]
                      else history))
      (conversationHistories st) in
  saveHistory shares command st
  = match currentConversationId st with
    | Some cid =>
        if truthy cid then
          saveState (set_conversationHistories (<[cid := kept]> seen)
                       (set_commandHistory kept st))
        else set_conversationHistories seen (set_commandHistory kept st)
    | None => set_conversationHistories seen (set_commandHistory kept st)
    end.
Proof.
  intros Hslash Htrim Hlast kept seen. unfold saveHistory.
  assert (Hcommand : truthy command = true).
  { apply truthy_nonempty. intros ->. now apply Htrim. }
  rewrite Hcommand, Hslash.
  destruct (String.eqb_spec (trim command) ""); [contradiction|]. simpl.
  rewrite (bool_decide_eq_false_2 _ Hlast), orb_true_r. simpl.
  assert (Hkept : (if (MAX_HISTORY <? length (commandHistory st ++ [command]))%nat
                   then lastN MAX_HISTORY (commandHistory st ++ [command])
                   else commandHistory st ++ [command]) = kept).
  { destruct (Nat.ltb_spec MAX_HISTORY (length (commandHistory st ++ [command])));
      [reflexivity|]. symmetry. now apply lastN_all. }
  rewrite Hkept. fold seen.
  destruct (currentConversationId st) as [cid|]; [|reflexivity].
  destruct (truthy cid); reflexivity.
Qed.

Lemma saveHistory_effect (shares : string -> bool) (command : string)
    (st : state) :
  let st' := saveHistory shares command st in
  (startsWith "/" command = true \/ trim command = ""
   \/ last (commandHistory st) = Some command -> st' = st)
  /\ (startsWith "/" command = false -> trim command <> "" ->
      last (commandHistory st) <> Some command ->
      commandHistory st'
      = lastN MAX_HISTORY (commandHistory st ++ [command])
      /\ last (commandHistory st') = Some command
      /\ length (commandHistory st') <= MAX_HISTORY
      /\ (noRepeats (commandHistory st) -> noRepeats (commandHistory st'))
      /\ (forall cid,
            currentConversationId st = Some cid -> truthy cid = true ->
            conversationHistories st' !! cid = Some (commandHistory st')
            /\ readFile cid (CONVERSATIONS_DIR (fs st'))
               = Some (Parsed (ConvData cid (conversationContext st)
                                 (commandHistory st')))))
  /\ currentStateJson st' = currentStateJson st
  /\ responseHistory st' = responseHistory st
  /\ allResponseHistory st' = allResponseHistory st
  /\ RESPONSES_DIR (fs st') = RESPONSES_DIR (fs st).
Proof.
  intros st'. subst st'. split; [|split].
  - intros Hignored. unfold saveHistory.
    destruct (startsWith "/" command) eqn:Hslash;
      [now rewrite andb_false_r|].
    destruct (String.eqb_spec (trim command) "") as [Htrim|Htrim];
      [now rewrite andb_false_r|].
    destruct Hignored as [?|[?|Hlast]]; try congruence.
    rewrite Hlast, bool_decide_eq_true_2 by reflexivity.
    destruct (commandHistory st) as [|x l] eqn:Hch; [discriminate|].
    simpl. now destruct (truthy command && true && true).
  - intros Hslash Htrim Hlast.
    rewrite saveHistory_stored by assumption.
    assert (Hgoal : forall s,
      commandHistory s = lastN MAX_HISTORY (commandHistory st ++ [command]) ->
      commandHistory s = lastN MAX_HISTORY (commandHistory st ++ [command])
      /\ last (commandHistory s) = Some command
      /\ length (commandHistory s) <= MAX_HISTORY
      /\ (noRepeats (commandHistory st) -> noRepeats (commandHistory s))).
    { intros s ->. split; [reflexivity|].
      split; [apply last_lastN_snoc|]. split; [apply length_lastN|].
      intros Hno. apply noRepeats_lastN. now apply noRepeats_snoc. }
    destruct (currentConversationId st) as [cid|] eqn:Hcid.
    + destruct (truthy cid) eqn:Tcid.
      * destruct (Hgoal (saveState (set_conversationHistories
                    (<[cid := lastN MAX_HISTORY (commandHistory st ++ [command])]>
                       (map_imap (fun k history =>
                          Some (if shares k then commandHistory st ++ [command]
                                else history)) (conversationHistories st)))
                    (set_commandHistory
                       (lastN MAX_HISTORY (commandHistory st ++ [command])) st))))
          as (H1 & H2 & H3 & H4); [now autorewrite with frames|].
        repeat (split; [assumption|]).
        intros cid' Hcid' Tcid'. inversion Hcid'; subst cid'.
        autorewrite with frames. simpl.
        split; [apply lookup_insert_eq|].
        unfold saveState. simpl. rewrite Hcid, Tcid. simpl.
        rewrite readFile_writeFile, lookup_insert_eq. reflexivity.
      * destruct (Hgoal (set_conversationHistories
                    (map_imap (fun k history =>
                          Some (if shares k then commandHistory st ++ [command]
                                else history)) (conversationHistories st))
                    (set_commandHistory
                       (lastN MAX_HISTORY (commandHistory st ++ [command])) st)))
          as (H1 & H2 & H3 & H4); [reflexivity|].
        repeat (split; [assumption|]).
        intros cid' Hcid' Tcid'. congruence.
    + destruct (Hgoal (set_conversationHistories
                    (map_imap (fun k history =>
                          Some (if shares k then commandHistory st ++ [command]
                                else history)) (conversationHistories st))
                    (set_commandHistory
                       (lastN MAX_HISTORY (commandHistory st ++ [command])) st)))
        as (H1 & H2 & H3 & H4); [reflexivity|].
      repeat (split; [assumption|]).
      intros cid' Hcid' Tcid'. discriminate.
  - unfold saveHistory.
    destruct (truthy command && negb (String.eqb (trim command) "")
              && negb (startsWith "/" command)); [|auto].
    destruct ((length (commandHistory st) =? 0)%nat
              || negb (bool_decide (last (commandHistory st) = Some command)));
      [|auto].
    simpl. destruct (currentConversationId st) as [cid|]; [|auto].
    destruct (truthy cid); [|auto].
    unfold currentStateJson. autorewrite with frames. simpl. auto.
Qed.

(** X5: [saveHistory] stores nothing, and changes nothing, for a command
    line (one that starts with a slash), for a line of white space and for
    the line that is already the last of the list.  Any other line becomes
    the last of [commandHistory], which is cut to its 50 latest lines and
    gains no immediate repetition; with a current conversation the list is
    also that conversation's history, in memory and in its file.  The
    session state and the response histories are not touched. *)
Theorem saveHistory_recall_list (shares : string -> bool) (command : string)
    (st : state) :
  let st' := saveHistory shares command st in
  (startsWith "/" command = true \/ trim command = ""
   \/ last (commandHistory st) = Some command -> st' = st)
  /\ (startsWith "/" command = false -> trim command <> "" ->
      last (commandHistory st) <> Some command ->
      commandHistory st'
      = lastN MAX_HISTORY (commandHistory st ++ [command])
      /\ last (commandHistory st') = Some command
      /\ length (commandHistory st') <= MAX_HISTORY
      /\ (noRepeats (commandHistory st) -> noRepeats (commandHistory st'))
      /\ (forall cid,
            currentConversationId st = Some cid -> truthy cid = true ->
            conversationHistories st' !! cid = Some (commandHistory st')
            /\ readFile cid (CONVERSATIONS_DIR (fs st'))
               = Some (Parsed (ConvData cid (conversationContext st)
                                 (commandHistory st')))))
  /\ currentStateJson st' = currentStateJson st
  /\ responseHistory st' = responseHistory st
  /\ allResponseHistory st' = allResponseHistory st
  /\ RESPONSES_DIR (fs st') = RESPONSES_DIR (fs st).
Proof. apply saveHistory_effect. Qed.

(** ** An answer without a response id *)

Lemma find_none_all {A : Type} (f : A -> bool) (l : list A) :
  (forall x, x ∈ l -> f x = false) -> find f l = None.
Proof.
  induction l as [|x l IH]; intros H; [reflexivity|]. simpl.
  rewrite (H x) by left. apply IH. intros y Hy. apply H. now right.
Qed.

Lemma ensureConversationId_fs (now : Z) (st : state) :
  fs (ensureConversationId now st) = fs st.
Proof. unfold ensureConversationId. now destruct (negb _). Qed.

Lemma handlePrompt_stream_no_id (prompt fullResponse : string)
    (responseId : option string) (nowMint nowRecord : Z) (st : state) :
  truthy fullResponse = true ->
  truthy_opt responseId = false ->
  handlePrompt_stream prompt fullResponse responseId nowMint nowRecord st
  = let st1 := ensureConversationId nowMint st in
    saveState
      (set_conversationContext []
         (set_lastResponseId None
            (set_pausedConversation true
               (set_pausedConversationId (currentConversationId st1)
                  (set_pausedConversationContext
                     (pushExchange prompt fullResponse (conversationContext st))
                     (set_conversationContext
                        (pushExchange prompt fullResponse (conversationContext st))
                        st1)))))).
Proof.
  intros Hfull Hrid. unfold handlePrompt_stream. rewrite Hfull, Hrid.
  simpl. now rewrite ensureConversationId_conversationContext.
Qed.

(** X6: when the stream brings text but no response id, the exchange is
    paused like any other, but [lastResponseId] becomes [null] and no record
    is added to the histories or to the responses files.  If the paused
    conversation has no earlier record with the same answer, the bare
    [continue] restores the context with [lastResponseId] still [null], and
    the next request carries no [previous_response_id]: it sends the whole
    restored context followed by the new prompt. *)
Theorem lost_response_id_falls_back_to_context
    (prompt fullResponse : string) (responseId : option string)
    (nowMint nowRecord : Z) (st : state) :
  truthy fullResponse = true ->
  truthy_opt responseId = false ->
  let paused :=
    handlePrompt_stream prompt fullResponse responseId nowMint nowRecord st in
  lastResponseId paused = None
  /\ pausedConversation paused = true
  /\ responseHistory paused = responseHistory st
  /\ allResponseHistory paused = allResponseHistory st
  /\ RESPONSES_DIR (fs paused) = RESPONSES_DIR (fs st)
  /\ ((forall cid responses record,
         pausedConversationId paused = Some cid ->
         responseHistory st !! cid = Some responses ->
         record ∈ responses -> he_fullResponse record <> fullResponse) ->
      forall now webSearchEnabled next,
        let resumed := snd (continueConversation None now paused) in
        let request := buildRequest webSearchEnabled next resumed in
        lastResponseId resumed = None
        /\ rq_previous_response_id request = None
        /\ rq_input request
           = pushExchange prompt fullResponse (conversationContext st)
             ++ [Message User next]).
Proof.
  intros Hfull Hrid paused. subst paused.
  rewrite handlePrompt_stream_no_id by assumption. cbv zeta.
  autorewrite with frames. simpl. autorewrite with frames.
  rewrite ensureConversationId_fs.
  repeat (split; [reflexivity|]).
  intros Hfresh now webSearchEnabled next.
  set (paused := saveState _).
  assert (Hpaused : pausedConversation paused = true)
    by (unfold paused; now autorewrite with frames).
  assert (Hctx : pausedConversationContext paused
                 = pushExchange prompt fullResponse (conversationContext st))
    by (unfold paused; now autorewrite with frames).
  assert (Hlast : lastResponseId paused = None)
    by (unfold paused; now autorewrite with frames).
  assert (Hrh : responseHistory paused = responseHistory st).
  { unfold paused. autorewrite with frames. simpl. now autorewrite with frames. }
  rewrite continueConversation_paused by assumption. simpl.
  destruct (resumePaused_restores paused) as [Hrestored _].
  assert (Hnone : lastResponseId (resumePaused paused) = None).
  { rewrite resumePaused_lastResponseId, Hlast.
    destruct (2 <=? length (pausedConversationContext paused))%nat; [|reflexivity].
    destruct (pausedConversationId paused) as [cid|] eqn:Hpid; [|reflexivity].
    destruct (truthy cid); [|reflexivity].
    rewrite find_none_all; [reflexivity|].
    intros record Hin. rewrite Hctx.
    destruct (pushExchange_last prompt fullResponse (conversationContext st))
      as [before ->].
    rewrite lastAssistantMessage_snoc. simpl.
    apply String.eqb_neq. rewrite Hrh in Hin.
    destruct (responseHistory st !! cid) as [responses|] eqn:Hresp;
      [|now apply not_elem_of_nil in Hin].
    apply (Hfresh cid responses record); [|assumption|exact Hin].
    rewrite <- Hpid. unfold paused. now autorewrite with frames. }
  split; [exact Hnone|].
  unfold buildRequest. rewrite Hnone. simpl. split; [reflexivity|].
  rewrite Hrestored, Hctx.
  destruct (pushExchange_last prompt fullResponse (conversationContext st))
    as [before ->].
  rewrite length_app. simpl.
  destruct (Nat.ltb_spec 0 (length before + 1)); [reflexivity|lia].
Qed.

Lemma lost_response_id_falls_back_to_context_witness :
  truthy "y" = true
  /\ truthy_opt None = false
  /\ rq_input (buildRequest false "and then?"
                 (snd (continueConversation None 8 pausedWithoutRecord)))
     = [Message User "b"; Message Assistant "y"; Message User "and then?"].
Proof.
  split; [reflexivity|]. split; [reflexivity|].
  destruct (lost_response_id_falls_back_to_context "b" "y" None 6 7
              (promptUser_regular 5 afterExchange1) eq_refl eq_refl)
    as (_ & _ & _ & _ & _ & H).
  assert (Hfresh : forall cid responses record,
            pausedConversationId
              (handlePrompt_stream "b" "y" None 6 7
                 (promptUser_regular 5 afterExchange1)) = Some cid ->
            responseHistory (promptUser_regular 5 afterExchange1) !! cid
            = Some responses ->
            record ∈ responses -> he_fullResponse record <> "y").
  { intros cid responses record Hcid Hresp.
    vm_compute in Hcid. inversion Hcid; subst cid.
    vm_compute in Hresp. discriminate. }
  destruct (H Hfresh 8%Z false "and then?") as (_ & _ & Hinput).
  unfold pausedWithoutRecord. rewrite Hinput. vm_compute. reflexivity.
Defined.

(** ** Lines entered at the prompt *)

Lemma promptUser_regular_opens (now : Z) (st : state) :
  pausedConversation st = true /\ conversationContext st = []
  \/ truthy_opt (currentConversationId st) = false ->
  promptUser_regular now st
  = saveState
      (set_commandHistory []
         (set_conversationHistories
            (<[mintConversationId now := []]> (conversationHistories st))
            (set_currentConversationId (Some (mintConversationId now))
               (if pausedConversation st
                   && (length (conversationContext st) =? 0)%nat
                then set_conversationContext []
                       (set_currentConversationId None st)
                else st)))).
Proof.
  intros H. unfold promptUser_regular.
  destruct (pausedConversation st
            && (length (conversationContext st) =? 0)%nat) eqn:E.
  - reflexivity.
  - destruct H as [[Hp Hc]|Hcid]; [now rewrite Hp, Hc in E|].
    now rewrite Hcid.
Qed.

Lemma promptUser_regular_session (now : Z) (st : state) :
  lastResponseId (promptUser_regular now st) = lastResponseId st
  /\ responseHistory (promptUser_regular now st) = responseHistory st
  /\ allResponseHistory (promptUser_regular now st) = allResponseHistory st.
Proof.
  unfold promptUser_regular.
  repeat case_match; autorewrite with frames; simpl; auto.
Qed.

Lemma runCommand_result (text : string) (now : Z) (st : state) :
  (forall request, fst (runCommand text now st) <> SendRequest request)
  /\ match fst (runCommand text now st) with
     | ShowContinued result =>
         (result, snd (runCommand text now st))
         = continueCommand (splitWhiteSpace (dropFirst text)) now st
     | ShowStartedNew => snd (runCommand text now st) = newCommand now st
     | _ => snd (runCommand text now st) = st
     end.
Proof.
  unfold runCommand.
  repeat (match goal with
          | |- context [if ?b then _ else _] => destruct b
          end; simpl; try (split; [discriminate|reflexivity])).
  split; [discriminate|]. now destruct (continueCommand _ _ _).
Qed.



(** X8: an empty line, or one of white space only, is not sent and not
    stored, yet it is handled as the start of a prompt: when the session is
    paused with an empty active context, or there is no current
    conversation, entering it opens a new conversation, with a newly minted
    id, an empty recall list and a conversation file of its own (holding the
    active context, which is empty in the paused case); the paused snapshot,
    the last response id and the histories stay.  In any other state the
    line changes nothing. *)
Theorem empty_line_opens_conversation
    (shares : string -> bool) (webSearchEnabled : bool) (line : string)
    (now : Z) (st : state) :
  trim line = "" ->
  let result := promptUser_answer shares webSearchEnabled line now st in
  fst result = PromptAgain
  /\ snd result = promptUser_regular now st
  /\ (pausedConversation st = true /\ conversationContext st = []
      \/ truthy_opt (currentConversationId st) = false ->
      currentConversationId (snd result) = Some (mintConversationId now)
      /\ commandHistory (snd result) = []
      /\ readFile (mintConversationId now) (CONVERSATIONS_DIR (fs (snd result)))
         = Some (Parsed (ConvData (mintConversationId now)
                           (conversationContext st) []))
      /\ pausedConversation (snd result) = pausedConversation st
      /\ pausedConversationContext (snd result) = pausedConversationContext st
      /\ pausedConversationId (snd result) = pausedConversationId st
      /\ lastResponseId (snd result) = lastResponseId st
      /\ responseHistory (snd result) = responseHistory st)
  /\ (truthy_opt (currentConversationId st) = true ->
      ~ (pausedConversation st = true /\ conversationContext st = []) ->
      snd result = st).
Proof.
  intros Htrim result. subst result. unfold promptUser_answer.
  rewrite Htrim. simpl.
  split; [reflexivity|]. split; [reflexivity|]. split.
  - intros Hopen. rewrite promptUser_regular_opens by assumption.
    set (s0 := if pausedConversation st
                  && (length (conversationContext st) =? 0)%nat
               then set_conversationContext []
                      (set_currentConversationId None st)
               else st).
    assert (Hs0 : conversationContext s0 = conversationContext st
                  /\ pausedConversation s0 = pausedConversation st
                  /\ pausedConversationContext s0 = pausedConversationContext st
                  /\ pausedConversationId s0 = pausedConversationId st
                  /\ lastResponseId s0 = lastResponseId st
                  /\ responseHistory s0 = responseHistory st).
    { unfold s0.
      destruct (pausedConversation st
                && (length (conversationContext st) =? 0)%nat) eqn:E;
        [|repeat split; reflexivity].
      apply andb_prop in E as [_ E]. apply Nat.eqb_eq in E.
      apply nil_length_inv in E. simpl. rewrite E. repeat split; reflexivity. }
    destruct Hs0 as (Hc & Hp & Hpc & Hpi & Hl & Hr).
    autorewrite with frames. simpl.
    repeat (split; [assumption || reflexivity|]).
    split; [|auto].
    unfold saveState. simpl.
    rewrite readFile_writeFile, lookup_insert_eq, Hc. reflexivity.
  - intros Hcid Hnot. unfold promptUser_regular.
    destruct (pausedConversation st) eqn:Hp; simpl.
    + destruct (conversationContext st) eqn:Hc; simpl.
      * exfalso. apply Hnot. auto.
      * now rewrite Hcid.
    + now rewrite Hcid.
Qed.

Lemma empty_line_opens_conversation_witness :
  trim "   " = ""
  /\ fst (promptUser_answer (fun _ => false) false "   " 5 afterExchange1)
     = PromptAgain
  /\ currentConversationId afterExchange1 = Some "conv_1"
  /\ currentConversationId
       (snd (promptUser_answer (fun _ => false) false "   " 5 afterExchange1))
     = Some "conv_5".
Proof.
  split; [reflexivity|].
  destruct (empty_line_opens_conversation (fun _ => false) false "   " 5
              afterExchange1 eq_refl) as (Haction & _ & Hopen & _).
  split; [exact Haction|]. split; [reflexivity|].
  destruct Hopen as (Hcid & _); [left; split; reflexivity|].
  rewrite Hcid. reflexivity.
Defined.

Lemma handlePrompt_stream_with_id (prompt fullResponse responseId : string)
    (nowMint nowRecord : Z) (st : state) :
  truthy fullResponse = true -> truthy responseId = true ->
  let st' := handlePrompt_stream prompt fullResponse (Some responseId)
               nowMint nowRecord st in
  lastResponseId st' = Some responseId
  /\ pausedConversation st' = true
  /\ conversationContext st' = []
  /\ pausedConversationId st' = currentConversationId st'.
Proof.
  intros Hfull Hrid st'. subst st'.
  destruct (exchanged_snapshot prompt fullResponse st _ Hfull
              (exchanged_stream prompt fullResponse st (Some responseId)
                 nowMint nowRecord))
    as (_ & _ & Hid & _ & _ & Hpaused & Hctx).
  split; [|auto].
  unfold handlePrompt_stream. rewrite Hfull. simpl. rewrite Hrid.
  autorewrite with frames. simpl. now autorewrite with frames.
Qed.

(** X9: a prompt entered after an exchange, without [continue], opens a new
    conversation (the paused one stays paused), but [lastResponseId] is not
    cleared: the request still names the response of the exchange before as
    [previous_response_id], and sends the new prompt alone. *)
Theorem prompt_after_exchange_continues_thread
    (shares : string -> bool) (webSearchEnabled : bool)
    (prompt fullResponse responseId line : string)
    (nowMint nowRecord now : Z) (st : state) :
  truthy fullResponse = true ->
  truthy responseId = true ->
  trim line <> "" ->
  startsWith "/" (trim line) = false ->
  let paused :=
    handlePrompt_stream prompt fullResponse (Some responseId)
      nowMint nowRecord st in
  let result := promptUser_answer shares webSearchEnabled line now paused in
  fst result
  = SendRequest
      (ApiRequest "gpt-4o" [Message User (trim line)] true "0.7"
         (Some responseId)
         (if webSearchEnabled then Some ["web_search"] else None))
  /\ currentConversationId (snd result) = Some (mintConversationId now)
  /\ pausedConversation (snd result) = true
  /\ pausedConversationId (snd result) = currentConversationId paused
  /\ lastResponseId (snd result) = Some responseId.
Proof.
  intros Hfull Hrid Htrim Hslash paused result. subst result.
  destruct (handlePrompt_stream_with_id prompt fullResponse responseId
              nowMint nowRecord st Hfull Hrid) as (Hlast & Hpaused & Hctx & Hpid).
  fold paused in Hlast, Hpaused, Hctx, Hpid.
  unfold promptUser_answer. rewrite Hslash.
  assert (Htruthy : truthy (trim line) = true) by now apply truthy_nonempty.
  rewrite Htruthy.
  set (opened := promptUser_regular now paused).
  assert (Hopened : currentConversationId opened = Some (mintConversationId now)
                    /\ pausedConversation opened = true
                    /\ pausedConversationId opened = currentConversationId paused
                    /\ lastResponseId opened = Some responseId).
  { unfold opened. rewrite promptUser_regular_opens by (left; auto).
    rewrite Hpaused, Hctx. simpl. autorewrite with frames. simpl. auto. }
  destruct Hopened as (Ocid & Op & Opi & Ol).
  destruct (saveHistory_effect shares (trim line) opened)
    as (_ & _ & Hsession & _).
  unfold currentStateJson in Hsession.
  inversion Hsession as [[Sl Sc Scid Sp Spc Spi]].
  unfold handlePrompt_begin. rewrite trim_trim.
  destruct (String.eqb_spec (trim line) ""); [contradiction|].
  rewrite Hslash. simpl.
  rewrite Scid, Sp, Spi, Sl, Ocid, Op, Opi, Ol.
  split; [|auto].
  unfold buildRequest. rewrite Sl, Ol. simpl.
  now rewrite Hrid.
Qed.

Lemma prompt_after_exchange_continues_thread_witness :
  truthy "hello!" = true /\ truthy "resp_1" = true
  /\ trim " and you? " <> "" /\ startsWith "/" (trim " and you? ") = false
  /\ fst (promptUser_answer (fun _ => false) false " and you? " 5 afterExchange1)
     = SendRequest
         (ApiRequest "gpt-4o" [Message User "and you?"] true "0.7"
            (Some "resp_1") None).
Proof.
  split; [reflexivity|]. split; [reflexivity|].
  split; [discriminate|]. split; [reflexivity|].
  refine (proj1 (prompt_after_exchange_continues_thread (fun _ => false) false
                   "hi" "hello!" "resp_1" " and you? " 2 3 5 inConversation1
                   eq_refl eq_refl _ eq_refl)).
  discriminate.
Defined.

(** ** Starting a new conversation *)

(** X10: [new] leaves a session with a newly minted current conversation
    and nothing else: no context, no last response id, no paused snapshot,
    an empty recall list.  That state is saved, the new conversation gets
    its file, and nothing is removed: the response histories and the files
    of the other conversations are as before. *)
Theorem new_command_starts_fresh (now : Z) (st : state) :
  let st' := newCommand now st in
  currentStateJson st'
  = StateJson None [] (Some (mintConversationId now)) false [] None
  /\ commandHistory st' = []
  /\ STATE_FILE (fs st') = Some (Parsed (currentStateJson st'))
  /\ readFile (mintConversationId now) (CONVERSATIONS_DIR (fs st'))
     = Some (Parsed (ConvData (mintConversationId now) [] []))
  /\ (forall other,
        other <> mintConversationId now ->
        readFile other (CONVERSATIONS_DIR (fs st'))
        = readFile other (CONVERSATIONS_DIR (fs st))
        /\ conversationHistories st' !! other = conversationHistories st !! other)
  /\ responseHistory st' = responseHistory st
  /\ allResponseHistory st' = allResponseHistory st
  /\ RESPONSES_DIR (fs st') = RESPONSES_DIR (fs st).
Proof.
  intros st'. subst st'. unfold newCommand, startNewConversation. simpl.
  rewrite saveState_currentStateJson. autorewrite with frames. simpl.
  split; [reflexivity|]. split; [reflexivity|]. split; [reflexivity|].
  split; [|split; [|auto]].
  - unfold saveState. simpl.
    now rewrite readFile_writeFile, lookup_insert_eq.
  - intros other Hother. split; [|now apply lookup_insert_ne].
    unfold saveState. simpl. now apply readFile_writeFile_ne.
Qed.

(** ** The recall list across conversations *)

(** X11: when [continue] branches into a new conversation from the global
    history, the recall list is not reset, as it is by [new] and by a prompt
    that opens a conversation: the next line saved is appended to the lines
    of the conversation left behind, and the whole list is stored as the
    history of the new conversation. *)
Theorem branch_keeps_recall_list
    (shares : string -> bool) (historyIndex : option jsnum)
    (command : string) (now : Z) (st : state) :
  fst (continueConversation historyIndex now st) = ContinuedFromGlobal ->
  startsWith "/" command = false ->
  trim command <> "" ->
  last (commandHistory st) <> Some command ->
  let branched := snd (continueConversation historyIndex now st) in
  let st' := saveHistory shares command branched in
  currentConversationId branched = Some (mintConversationId now)
  /\ commandHistory branched = commandHistory st
  /\ commandHistory st' = lastN MAX_HISTORY (commandHistory st ++ [command])
  /\ readFile (mintConversationId now) (CONVERSATIONS_DIR (fs st'))
     = Some (Parsed (ConvData (mintConversationId now)
                       (conversationContext branched)
                       (lastN MAX_HISTORY (commandHistory st ++ [command])))).
Proof.
  intros Hbranch Hslash Htrim Hlast branched st'. subst st'.
  assert (Hb : currentConversationId branched = Some (mintConversationId now)
               /\ commandHistory branched = commandHistory st).
  { subst branched. revert Hbranch. unfold continueConversation.
    destruct (bool_decide (historyIndex = None) && pausedConversation st);
      [discriminate|].
    destruct (selectedResponse historyIndex st) as [[i selected]|];
      [discriminate|].
    destruct (currentResponses st); [|discriminate].
    destruct (allResponseHistory st); [discriminate|].
    intros _. simpl. now autorewrite with frames. }
  destruct Hb as [Hcid Hch]. split; [exact Hcid|]. split; [exact Hch|].
  destruct (saveHistory_effect shares command branched) as (_ & Hstored & _).
  rewrite Hch in Hstored.
  destruct (Hstored Hslash Htrim Hlast) as (Hkept & _ & _ & _ & Hfile).
  split; [exact Hkept|].
  destruct (Hfile _ Hcid (truthy_mintConversationId now)) as [_ Hread].
  now rewrite Hread, Hkept.
Qed.

Lemma branch_keeps_recall_list_witness :
  let typed :=
    saveHistory (fun _ => false) "first" (promptUser_regular 5 restarted) in
  fst (continueConversation None 6 typed) = ContinuedFromGlobal
  /\ startsWith "/" "second" = false
  /\ trim "second" <> ""
  /\ last (commandHistory typed) <> Some "second"
  /\ currentConversationId typed = Some "conv_5"
  /\ readFile "conv_6"
       (CONVERSATIONS_DIR
          (fs (saveHistory (fun _ => false) "second"
                 (snd (continueConversation None 6 typed)))))
     = Some (Parsed (ConvData "conv_6"
                       [Message User "hi"; Message Assistant "hello!"]
                       ["first"; "second"])).
Proof.
  cbv zeta.
  assert (H1 : fst (continueConversation None 6
                      (saveHistory (fun _ => false) "first"
                         (promptUser_regular 5 restarted)))
               = ContinuedFromGlobal) by (vm_compute; reflexivity).
  assert (H4 : last (commandHistory
                       (saveHistory (fun _ => false) "first"
                          (promptUser_regular 5 restarted)))
               <> Some "second") by (vm_compute; discriminate).
  split; [exact H1|]. split; [reflexivity|]. split; [discriminate|].
  split; [exact H4|]. split; [vm_compute; reflexivity|].
  destruct (branch_keeps_recall_list (fun _ => false) None "second" 6
              (saveHistory (fun _ => false) "first"
                 (promptUser_regular 5 restarted))
              H1 eq_refl ltac:(discriminate) H4) as (_ & _ & _ & Hfile).
  change (mintConversationId 6) with "conv_6" in Hfile.
  rewrite Hfile. vm_compute. reflexivity.
Defined.

(** ** Completion of commands *)

Lemma startsWith_slash (s : string) :
  startsWith "/" s = true -> s = String "/" (dropFirst s).
Proof.
  destruct s as [|c s]; [discriminate|]. unfold startsWith.
  cbn [String.prefix].
  destruct (ascii_dec "/" c) as [<-|]; [reflexivity|intros; discriminate].
Qed.

Lemma startsWith_cons (c : ascii) (p s : string) :
  startsWith (String c p) (String c s) = startsWith p s.
Proof. unfold startsWith. cbn [String.prefix]. now destruct (ascii_dec c c). Qed.

(** X12: [commandCompleter] returns the line as it is, and no completion
    for a line that does not start with a slash.  For a line that does, the
    completions are exactly the commands, written with their slash, that
    start with the line when its capital letters are made small; they come
    in the order of the command table. *)
Theorem commandCompleter_completions (line : string) :
  snd (commandCompleter line) = line
  /\ (startsWith "/" line = false -> fst (commandCompleter line) = [])
  /\ (startsWith "/" line = true ->
      forall completion,
        completion ∈ fst (commandCompleter line) <->
        exists command,
          command ∈ map fst commands
          /\ completion = "/" +:+ command
          /\ startsWith (toLowerCase line) completion = true)
  /\ sublist (fst (commandCompleter line))
       (map (fun command => "/" +:+ command) (map fst commands)).
Proof.
  unfold commandCompleter.
  assert (Hmap : forall l : list string,
            (if (0 <? length l)%nat
             then map (fun match_ => "/" +:+ match_) l else [])
            = map (fun match_ => "/" +:+ match_) l) by (now intros [|]).
  destruct (startsWith "/" line) eqn:Hslash; cbv zeta; cbn [fst snd];
    rewrite ?Hmap.
  - split; [reflexivity|]. split; [discriminate|]. split.
    + intros _ completion.
      assert (Hlow : toLowerCase line
                     = String "/" (toLowerCase (dropFirst line))).
      { apply startsWith_slash in Hslash. rewrite Hslash at 1. reflexivity. }
      rewrite Hlow, list_elem_of_In, in_map_iff. split.
      * intros (command & <- & Hin). apply filter_In in Hin as [Hin Hstarts].
        exists command. rewrite list_elem_of_In.
        split; [assumption|]. split; [reflexivity|].
        change ("/" +:+ command) with (String "/" command).
        now rewrite startsWith_cons.
      * intros (command & Hin & -> & Hstarts). exists command.
        split; [reflexivity|]. apply filter_In.
        rewrite list_elem_of_In in Hin. split; [assumption|].
        change ("/" +:+ command) with (String "/" command) in Hstarts.
        now rewrite startsWith_cons in Hstarts.
    + apply (fmap_sublist (fun match_ : string => "/" +:+ match_)). generalize (map fst commands). clear.
      intros l. induction l as [|x l IH]; cbn [List.filter]; [constructor|].
      destruct (startsWith (toLowerCase (dropFirst line)) x);
        [now constructor|now apply sublist_cons].
  - split; [reflexivity|]. split; [reflexivity|]. split; [discriminate|].
    apply sublist_nil_l.
Qed.

(** ** Debugging levels *)

(** X13: the debugging level is 0 exactly when debugging is off, and at most
    3.  When debugging is on, a [:verbose] in [DEBUG] gives level 2 whether
    or not there is a [:debug] as well, so that level 3 needs a [:debug]
    without any [:verbose].  [debugLog] prints a message exactly when its
    level is at most the debugging level. *)
Theorem debug_levels (DEBUG : option string) :
  (getDebugLevel DEBUG = 0 <-> isDebugMode DEBUG = false)
  /\ getDebugLevel DEBUG <= 3
  /\ (forall v,
        DEBUG = Some v -> isDebugMode DEBUG = true ->
        (getDebugLevel DEBUG = 2 <-> includes ":verbose" v = true)
        /\ (getDebugLevel DEBUG = 3 <->
            includes ":verbose" v = false /\ includes ":debug" v = true))
  /\ (forall message level,
        is_Some (debugLog DEBUG message level) <-> level <= getDebugLevel DEBUG).
Proof.
  unfold getDebugLevel, debugLog.
  split; [|split; [|split]].
  - destruct (isDebugMode DEBUG) eqn:E; simpl; [|tauto].
    destruct DEBUG as [v|]; [|discriminate].
    destruct (includes ":verbose" v), (includes ":debug" v);
      split; discriminate.
  - destruct (negb (isDebugMode DEBUG)); [lia|].
    destruct DEBUG as [v|]; [|lia].
    destruct (includes ":verbose" v), (includes ":debug" v); lia.
  - intros v -> Hon. rewrite Hon. simpl.
    destruct (includes ":verbose" v), (includes ":debug" v);
      split; split; try discriminate; try tauto; try lia;
      intros []; discriminate.
  - intros message level. unfold getDebugLevel.
    destruct (Nat.leb_spec level
                (if negb (isDebugMode DEBUG) then 0
                 else match DEBUG with
                      | Some v => if includes ":verbose" v then 2
                                  else if includes ":debug" v then 3 else 1
                      | None => 1
                      end)); split; intros H'; eauto; try lia.
    destruct H' as [? H']. discriminate.
Qed.

(** ** Retrying a request *)

Lemma retryLoop_spec {R : Type} (create : nat -> attempt R)
    (retries remaining : nat) :
  let waits := fst (retryLoop create retries remaining) in
  waits = map backoffTime (seq retries (length waits))
  /\ (forall k, retries <= k < retries + length waits ->
      exists status, create k = Rejects status /\ retryable status = true)
  /\ match snd (retryLoop create retries remaining) with
     | Returned response =>
         length waits < remaining
         /\ create (retries + length waits) = Responds response
     | Rethrown status =>
         length waits < remaining
         /\ create (retries + length waits) = Rejects status
         /\ retryable status = false
     | MaximumRetriesExceeded => length waits = remaining
     end.
Proof.
  revert retries. induction remaining as [|remaining IH]; intros retries; simpl.
  - split; [reflexivity|]. split; [intros; lia|reflexivity].
  - destruct (create retries) as [response|status] eqn:Hcreate; simpl.
    + split; [reflexivity|]. split; [intros; lia|].
      rewrite Nat.add_0_r. split; [lia|assumption].
    + destruct (retryable status) eqn:Hretry; simpl.
      * destruct (IH (S retries)) as (Hwaits & Hfailed & Hend).
        split; [now rewrite Hwaits at 1|]. split.
        -- intros k Hk. destruct (decide (k = retries)) as [->|Hne]; [eauto|].
           apply Hfailed. lia.
        -- replace (retries + S (length (fst (retryLoop create (S retries) remaining))))
             with (S retries + length (fst (retryLoop create (S retries) remaining)))
             by lia.
           destruct (snd (retryLoop create (S retries) remaining));
             intuition lia.
      * split; [reflexivity|]. split; [intros; lia|].
        rewrite Nat.add_0_r. split; [lia|]. split; assumption.
Qed.

Lemma backoffTime_sum (n : nat) :
  foldr Z.add 0%Z (map backoffTime (seq 0 n)) = ((2 ^ Z.of_nat n - 1) * 1000)%Z.
Proof.
  induction n as [|n IH]; [reflexivity|].
  rewrite seq_S, map_app, foldr_app. simpl.
  assert (Hshift : forall (l : list Z) (a : Z),
            foldr Z.add a l = (foldr Z.add 0 l + a)%Z).
  { induction l as [|x l IHl]; intros a; simpl; [lia|]. rewrite IHl. lia. }
  rewrite Hshift, IH. unfold backoffTime.
  rewrite Nat2Z.inj_succ, Z.pow_succ_r by lia. lia.
Qed.


(** ** Reading back a position *)

Lemma append_cons (c : ascii) (s t : string) :
  String c s +:+ t = String c (s +:+ t).
Proof. reflexivity. Qed.

Lemma append_nil_r (s : string) : s +:+ "" = s.
Proof.
  induction s as [|c s IH]; [reflexivity|]. now rewrite append_cons, IH.
Qed.

Lemma append_assoc (s t u : string) : (s +:+ t) +:+ u = s +:+ (t +:+ u).
Proof.
  induction s as [|c s IH]; [reflexivity|]. now rewrite !append_cons, IH.
Qed.

Lemma length_append (s t : string) :
  String.length (s +:+ t) = String.length s + String.length t.
Proof.
  induction s as [|c s IH]; [reflexivity|]. rewrite append_cons. simpl.
  now rewrite IH.
Qed.

Lemma digitValue_pretty_N_char (d : N) :
  (d < 10)%N -> digitValue (pretty_N_char d) = Some (Z.of_N d).
Proof.
  intros H.
  assert (d = 0 \/ d = 1 \/ d = 2 \/ d = 3 \/ d = 4 \/ d = 5 \/ d = 6
          \/ d = 7 \/ d = 8 \/ d = 9)%N as Hd by lia.
  repeat (destruct Hd as [->|Hd]; [reflexivity|]). now subst d.
Qed.

Lemma digits_append (s t : string) :
  digits s = true -> digits t = true -> digits (s +:+ t) = true.
Proof.
  intros Hs Ht. induction s as [|c s IH]; [exact Ht|].
  rewrite append_cons. simpl in *. destruct (digitValue c); [auto|discriminate].
Qed.

Lemma digit_isWhiteSpace (c : ascii) (d : Z) :
  digitValue c = Some d -> isWhiteSpace c = false.
Proof.
  destruct c as [[] [] [] [] [] [] [] []]; vm_compute; congruence.
Qed.


(** The decimal numeral of a positive number: digits that read back as the
    number. *)
Lemma pretty_N_go_shape (x : N) :
  (0 < x)%N ->
  exists ds,
    digits ds = true /\ ds <> ""
    /\ (forall s, pretty_N_go x s = ds +:+ s)
    /\ (forall rest acc,
          parseDigits (ds +:+ rest) acc
          = parseDigits rest
              (Some (10 ^ Z.of_nat (String.length ds) * default 0 acc
                     + Z.of_N x)))%Z.
Proof.
  induction (N.lt_wf_0 x) as [x _ IH]. intros Hpos.
  pose proof (N.mod_lt x 10 ltac:(lia)) as Hmod.
  pose proof (digitValue_pretty_N_char _ Hmod) as Hdigit.
  pose proof (N.div_mod x 10 ltac:(lia)) as Hx.
  destruct (decide (0 < x `div` 10)%N) as [Hdiv|Hdiv].
  - destruct (IH (x `div` 10)%N) as (ds & Hds & Hne & Hgo & Hparse);
      [now apply N.div_lt|assumption|].
    exists (ds +:+ String (pretty_N_char (x `mod` 10)) "").
    split; [|split; [|split]].
    + apply digits_append; [assumption|]. simpl. now rewrite Hdigit.
    + destruct ds; [congruence|]. rewrite append_cons. discriminate.
    + intros s. rewrite pretty_N_go_step, Hgo, append_assoc by assumption.
      reflexivity.
    + intros rest acc. rewrite append_assoc, append_cons, Hparse.
      change ("" +:+ rest) with rest. simpl. rewrite Hdigit.
      f_equal. f_equal. rewrite length_append. simpl.
      rewrite Nat2Z.inj_add, Z.pow_add_r by lia.
      change (Z.of_nat 1) with 1%Z. rewrite Z.pow_1_r.
      rewrite Hx at 3. rewrite N2Z.inj_add, N2Z.inj_mul. simpl Z.of_N. lia.
  - assert (Hzero : (x `div` 10 = 0)%N) by lia.
    exists (String (pretty_N_char (x `mod` 10)) "").
    split; [|split; [|split]].
    + simpl. now rewrite Hdigit.
    + discriminate.
    + intros s. rewrite pretty_N_go_step, Hzero, pretty_N_go_0 by assumption.
      reflexivity.
    + intros rest acc. rewrite append_cons.
      change ("" +:+ rest) with rest. simpl. rewrite Hdigit.
      f_equal. f_equal. rewrite Hx at 2. rewrite Hzero.
      change (Z.pow_pos 10 1) with 10%Z. lia.
Qed.

Lemma parseInt_pretty (z : Z) : parseInt (pretty z) = toDouble z.
Proof.
  destruct z as [|p|p]; [reflexivity| |].
  - change (pretty (Z.pos p)) with (pretty (N.pos p)).
    unfold pretty, pretty_N. rewrite decide_False by discriminate.
    destruct (pretty_N_go_shape (N.pos p)) as (ds & Hds & Hne & Hgo & Hparse);
      [reflexivity|].
    rewrite Hgo, append_nil_r.
    assert (Hvalue : parseDigits ds None = Some (Z.pos p)).
    { rewrite <- (append_nil_r ds) at 1. rewrite Hparse. simpl. f_equal. lia. }
    unfold parseInt. rewrite Hvalue.
    destruct ds as [|c ds]; [congruence|].
    simpl in Hds. destruct (digitValue c) eqn:Hc; [|discriminate].
    destruct c as [[] [] [] [] [] [] [] []]; try reflexivity;
      vm_compute in Hc; discriminate.
  - change (pretty (Z.neg p)) with ("-" +:+ pretty (N.pos p)).
    unfold pretty, pretty_N. rewrite decide_False by discriminate.
    destruct (pretty_N_go_shape (N.pos p)) as (ds & Hds & Hne & Hgo & Hparse);
      [reflexivity|].
    rewrite Hgo, append_nil_r.
    assert (Hvalue : parseDigits ds None = Some (Z.pos p)).
    { rewrite <- (append_nil_r ds) at 1. rewrite Hparse. simpl. f_equal. lia. }
    change ("-" +:+ ds) with (String "-" ds).
    unfold parseInt. rewrite Hvalue. reflexivity.
Qed.

Lemma digits_noWhiteSpace (s : string) :
  digits s = true -> noWhiteSpace s = true.
Proof.
  induction s as [|c s IH]; [reflexivity|]. simpl.
  destruct (digitValue c) eqn:Hc; [|discriminate].
  intros Hs. now rewrite (digit_isWhiteSpace _ _ Hc), IH.
Qed.

Lemma pretty_Z_noWhiteSpace (z : Z) :
  noWhiteSpace (pretty z) = true /\ pretty z <> "".
Proof.
  assert (HN : forall p, noWhiteSpace (pretty (N.pos p)) = true
                         /\ pretty (N.pos p) <> "").
  { intros p. unfold pretty, pretty_N. rewrite decide_False by discriminate.
    destruct (pretty_N_go_shape (N.pos p)) as (ds & Hds & Hne & Hgo & _);
      [reflexivity|].
    rewrite Hgo, append_nil_r. split; [now apply digits_noWhiteSpace|assumption]. }
  destruct z as [|p|p]; [split; [reflexivity|discriminate]|apply HN|].
  change (pretty (Z.neg p)) with (String "-" (pretty (N.pos p))).
  split; [|discriminate]. simpl. apply HN.
Qed.

Lemma trimEnd_noWhiteSpace (s : string) :
  noWhiteSpace s = true -> trimEnd s = s.
Proof.
  induction s as [|c s IH]; [reflexivity|]. simpl.
  destruct (isWhiteSpace c); [discriminate|]. simpl. intros Hs. now rewrite IH.
Qed.

Lemma trimEnd_append (s t : string) :
  noWhiteSpace t = true -> t <> "" -> trimEnd (s +:+ t) = s +:+ t.
Proof.
  intros Ht Hne. induction s as [|c s IH];
    [now apply trimEnd_noWhiteSpace|].
  rewrite append_cons. simpl. rewrite IH.
  destruct (String.eqb_spec (s +:+ t) "") as [Hempty|_];
    [|now rewrite andb_false_r].
  destruct s; [now destruct Hne|discriminate].
Qed.

Lemma splitFrom_noWhiteSpace (s current : string) (inGap : bool) :
  noWhiteSpace s = true -> splitFrom s current inGap = [current +:+ s].
Proof.
  revert current inGap. induction s as [|c s IH]; intros current inGap; simpl.
  - now rewrite append_nil_r.
  - destruct (isWhiteSpace c); [discriminate|]. simpl. intros Hs.
    rewrite IH, append_assoc by assumption. reflexivity.
Qed.

(** X15: the line [/continue n], for the decimal numeral of any integer [n],
    is trimmed, split at the space and parsed, and [continueConversation]
    is handed the double nearest to [n], less one.  For every [n] below
    [2^53] in size that is [n - 1], the index of the [n]th response; beyond,
    the doubles round: [2^53 + 1] is read as [2^53] and handed over as
    [2^53 - 1]. *)
Theorem typed_position_is_read_back
    (shares : string -> bool) (webSearchEnabled : bool) (n now : Z)
    (st : state) :
  promptUser_answer shares webSearchEnabled ("/continue " +:+ pretty n) now st
  = (ShowContinued
       (fst (continueConversation (Some (minusOne (toDouble n))) now st)),
     snd (continueConversation (Some (minusOne (toDouble n))) now st))
  /\ ((- 2 ^ 53 < n - 1)%Z -> (n < 2 ^ 53)%Z ->
      minusOne (toDouble n) = Int (n - 1))
  /\ minusOne (toDouble (2 ^ 53 + 1)) = Int (2 ^ 53 - 1).
Proof.
  split; [|split; [apply minusOne_toDouble_small|vm_compute; reflexivity]].
  destruct (pretty_Z_noWhiteSpace n) as [Hno Hne].
  assert (Htrim : trim ("/continue " +:+ pretty n) = "/continue " +:+ pretty n).
  { unfold trim. change (trimStart ("/continue " +:+ pretty n))
      with ("/continue " +:+ pretty n).
    now apply trimEnd_append. }
  assert (Hsplit : splitWhiteSpace (dropFirst ("/continue " +:+ pretty n))
                   = ["continue"; pretty n]).
  { change (splitWhiteSpace (dropFirst ("/continue " +:+ pretty n)))
      with ("continue" :: splitFrom (pretty n) "" true).
    now rewrite splitFrom_noWhiteSpace. }
  unfold promptUser_answer. cbv zeta. rewrite Htrim.
  change (startsWith "/" ("/continue " +:+ pretty n)) with true. cbv iota.
  unfold runCommand. cbv zeta. rewrite Hsplit.
  change (toLowerCase (default "" (head ["continue"; pretty n])))
    with "continue".
  change (String.eqb "continue" "exit") with false.
  change (String.eqb "continue" "help") with false.
  change (String.eqb "continue" "menu") with false.
  change (String.eqb "continue" "history") with false.
  change (String.eqb "continue" "clear") with false.
  change (String.eqb "continue" "continue") with true. cbv iota.
  unfold continueCommand. rewrite parseInt_pretty. reflexivity.
Qed.

(** ** Reading the stream *)

Lemma onEvent_fields (d : drained) (event : streamEvent) :
  d_responseId (onEvent d event) = eventResponseId event (d_responseId d)
  /\ d_fullResponse (onEvent d event)
     = foldl String.append (d_fullResponse d) (eventTexts event)
  /\ d_chunkCount (onEvent d event)
     = d_chunkCount d + length (eventTexts event).
Proof. unfold onEvent. repeat case_match; auto. Qed.

Lemma foldl_onEvent_fields (events : list streamEvent) (d : drained) :
  d_responseId (foldl onEvent d events)
  = foldl (fun responseId event => eventResponseId event responseId)
      (d_responseId d) events
  /\ d_fullResponse (foldl onEvent d events)
     = foldl String.append (d_fullResponse d) (concat (map eventTexts events))
  /\ d_chunkCount (foldl onEvent d events)
     = d_chunkCount d + length (concat (map eventTexts events)).
Proof.
  revert d. induction events as [|event events IH]; intros d; simpl.
  - auto with lia.
  - destruct (IH (onEvent d event)) as (-> & -> & ->).
    destruct (onEvent_fields d event) as (-> & -> & ->).
    rewrite foldl_app, length_app. auto with lia.
Qed.

Lemma foldl_append_empty (texts : list string) (start : string) :
  foldl String.append start texts = ""
  <-> start = "" /\ forall text, text ∈ texts -> text = "".
Proof.
  revert start. induction texts as [|text texts IH]; intros start; simpl.
  - split; [intros ->; split; [reflexivity|]|tauto].
    intros text Hin. inversion Hin.
  - rewrite IH. split.
    + intros [Hempty Hall]. destruct start; [|discriminate].
      split; [reflexivity|]. intros t Hin.
      apply elem_of_cons in Hin as [->|Hin]; [exact Hempty|auto].
    + intros [-> Hall]. split; [apply Hall; left|].
      intros t Hin. apply Hall. now right.
Qed.

Lemma outputTexts_truthy (output : list (option outputItem)) (text : string) :
  text ∈ outputTexts output -> truthy text = true.
Proof.
  unfold outputTexts. destruct output as [|[message|] output];
    [inversion 1| |inversion 1].
  destruct (oi_content message) as [content|]; [|inversion 1].
  intros Hin. apply list_elem_of_omap in Hin as (part & _ & Hpart).
  destruct (bool_decide (cp_type part = Some "output_text")); [|discriminate].
  simpl in Hpart. destruct (truthy_opt (cp_text part)) eqn:Htext;
    [|discriminate].
  rewrite Hpart in Htext. exact Htext.
Qed.

Lemma eventTexts_truthy (event : streamEvent) (text : string) :
  text ∈ eventTexts event -> truthy text = true.
Proof.
  assert (Hdelta : truthy_opt (ev_delta event) = true ->
                   text ∈ [default "" (ev_delta event)] -> truthy text = true).
  { destruct (ev_delta event) as [delta|]; [|discriminate].
    intros Hdelta Hin. apply list_elem_of_singleton in Hin as ->. exact Hdelta. }
  unfold eventTexts.
  destruct (typeIs "output_text.delta" event && truthy_opt (ev_delta event))
    eqn:E1; [apply andb_true_iff in E1 as [_ E1]; now apply Hdelta|].
  destruct (typeIs "response.output_text.delta" event
            && truthy_opt (ev_delta event))
    eqn:E2; [apply andb_true_iff in E2 as [_ E2]; now apply Hdelta|].
  destruct (hasOutput event); [apply outputTexts_truthy|inversion 1].
Qed.


Lemma eventResponseId_truthy (event : streamEvent) (responseId : option string) :
  truthy_opt (eventResponseId event responseId)
  = truthy_opt responseId || carriesId event.
Proof.
  unfold eventResponseId, carriesId.
  destruct (truthy_opt (ev_id event)) eqn:Hid,
           (truthy_opt responseId) eqn:Hr,
           (typeIs "response.created" event),
           (truthy_opt (ev_created_id event)) eqn:Hc,
           (bool_decide (ev_object event = Some "response")),
           (typeIs "response" event),
           (truthy_opt (ev_response_id event)) eqn:Hrid,
           (hasOutput event);
    repeat (cbn [negb andb orb]; rewrite ?Hid, ?Hr, ?Hc, ?Hrid);
    reflexivity.
Qed.

Lemma eventResponseId_keeps (event : streamEvent) (responseId : option string) :
  carriesId event = false -> eventResponseId event responseId = responseId.
Proof.
  unfold eventResponseId, carriesId. intros H.
  apply orb_false_iff in H as [H Hcreated].
  apply orb_false_iff in H as [Hid Hrid].
  rewrite Hid, Hrid, Hcreated. simpl.
  repeat rewrite andb_false_r. simpl.
  now destruct (hasOutput event).
Qed.

Lemma foldl_eventResponseId_truthy (events : list streamEvent)
    (responseId : option string) :
  truthy_opt (foldl (fun responseId event => eventResponseId event responseId)
                responseId events)
  = truthy_opt responseId || existsb carriesId events.
Proof.
  revert responseId. induction events as [|event events IH]; intros responseId;
    simpl; [now rewrite orb_false_r|].
  now rewrite IH, eventResponseId_truthy, orb_assoc.
Qed.

(** X17: the stream ends with a response id exactly when the stream object
    has a truthy [id] or some event carries one: a truthy [id] or
    [response_id], or the [response.id] of a [response.created] event.  An id
    once found is replaced only by another one, never lost; without any, the
    id stays [null]. *)
Theorem drainStream_responseId (streamId : option string)
    (events : list streamEvent) :
  truthy_opt (d_responseId (drainStream streamId events))
  = truthy_opt streamId || existsb carriesId events
  /\ (forall more,
        truthy_opt (d_responseId (drainStream streamId events)) = true ->
        truthy_opt (d_responseId (drainStream streamId (events ++ more))) = true)
  /\ (truthy_opt streamId = false ->
      (forall event, event ∈ events -> carriesId event = false) ->
      d_responseId (drainStream streamId events) = None).
Proof.
  assert (Hids : forall events,
            truthy_opt (d_responseId (drainStream streamId events))
            = truthy_opt streamId || existsb carriesId events).
  { intros l. unfold drainStream.
    destruct (foldl_onEvent_fields l
                (Drained (if truthy_opt streamId then streamId else None)
                   "" 0 false [])) as (-> & _ & _).
    rewrite foldl_eventResponseId_truthy. simpl.
    now destruct (truthy_opt streamId) eqn:E; rewrite ?E. }
  split; [apply Hids|]. split.
  - intros more. rewrite !Hids, existsb_app.
    intros H. apply orb_true_iff in H as [-> | ->]; [reflexivity|].
    now rewrite orb_true_r.
  - intros Hstream Hnone. unfold drainStream.
    destruct (foldl_onEvent_fields events
                (Drained (if truthy_opt streamId then streamId else None)
                   "" 0 false [])) as (-> & _ & _).
    rewrite Hstream. simpl. clear Hids.
    induction events as [|event events IH]; [reflexivity|]. simpl.
    rewrite eventResponseId_keeps by (apply Hnone; left).
    apply IH. intros e He. apply Hnone. now right.
Qed.

(** X18: a stream that brings no text leaves the session and the store as
    they were, whatever else it brings: its response id is dropped, and
    nothing is recorded or paused. *)
Theorem stream_without_text_changes_nothing
    (prompt : string) (streamId : option string) (events : list streamEvent)
    (nowMint nowRecord : Z) (st : state) :
  (forall event, event ∈ events -> eventTexts event = []) ->
  handlePrompt_events prompt streamId events nowMint nowRecord st = st.
Proof.
  intros Hnone. unfold handlePrompt_events. cbv zeta.
  assert (Hempty : d_fullResponse (drainStream streamId events) = "").
  { unfold drainStream.
    destruct (foldl_onEvent_fields events
                (Drained (if truthy_opt streamId then streamId else None)
                   "" 0 false [])) as (_ & -> & _).
    apply foldl_append_empty. split; [reflexivity|]. intros text Hin.
    apply list_elem_of_In, in_concat in Hin as (texts & Htexts & Hin).
    apply in_map_iff in Htexts as (event & <- & Hevent).
    rewrite (Hnone event) in Hin by now apply list_elem_of_In.
    inversion Hin. }
  rewrite Hempty. reflexivity.
Qed.

Lemma stream_without_text_changes_nothing_witness :
  let created :=
    StreamEvent None (Some "response.created") (Some "resp_9") None None None
      None None in
  let searching :=
    StreamEvent None (Some "tool_use.in_progress") None None None None None
      None in
  d_responseId (drainStream None [created; searching]) = Some "resp_9"
  /\ handlePrompt_events "again" None [created; searching] 5 6 afterExchange1
     = afterExchange1.
Proof.
  cbv zeta. split; [reflexivity|].
  apply stream_without_text_changes_nothing.
  intros event Hin.
  apply elem_of_cons in Hin as [->|Hin]; [reflexivity|].
  apply list_elem_of_singleton in Hin as ->. reflexivity.
Defined.

(** ** The prompt loop stays among the reachable states *)

Lemma set_conversationHistories_twice (h1 h2 : gmap string (list string))
    (st : state) :
  set_conversationHistories h2 (set_conversationHistories h1 st)
  = set_conversationHistories h2 st.
Proof. now destruct st. Qed.

Lemma reachable_saveHistory (shares : string -> bool) (command : string)
    (st : state) :
  reachable st -> reachable (saveHistory shares command st).
Proof.
  intros Hst. unfold saveHistory.
  destruct (truthy command && negb (String.eqb (trim command) "")
            && negb (startsWith "/" command)); [|assumption].
  destruct ((length (commandHistory st) =? 0)%nat
            || negb (bool_decide (last (commandHistory st) = Some command)));
    [|assumption].
  cbv zeta.
  destruct (currentConversationId _) as [cid|];
    [|exact (reachable_step _ _ Hst (step_saveHistory _ _ _))].
  destruct (truthy cid);
    [|exact (reachable_step _ _ Hst (step_saveHistory _ _ _))].
  rewrite set_conversationHistories_twice.
  exact (reachable_step _ _ Hst (step_saveHistory_saveState _ _ _)).
Qed.

Lemma reachable_runCommand (text : string) (now : Z) (st : state) :
  reachable st -> reachable (snd (runCommand text now st)).
Proof.
  intros Hst. destruct (runCommand_result text now st) as [_ Hresult].
  destruct (fst (runCommand text now st)); try (rewrite Hresult; assumption).
  - replace (snd (runCommand text now st))
      with (snd (continueCommand (splitWhiteSpace (dropFirst text)) now st))
      by now rewrite <- Hresult.
    exact (reachable_step _ _ Hst (step_continueCommand _ _ _)).
  - rewrite Hresult. exact (reachable_step _ _ Hst (step_newCommand _ _)).
Qed.

Lemma reachable_promptUser_answer (shares : string -> bool)
    (webSearchEnabled : bool) (line : string) (now : Z) (st : state) :
  reachable st ->
  reachable (snd (promptUser_answer shares webSearchEnabled line now st)).
Proof.
  intros Hst. unfold promptUser_answer. cbv zeta.
  destruct (startsWith "/" (trim line)); [now apply reachable_runCommand|].
  pose proof (reachable_step _ _ Hst (step_promptUser_regular _ now)) as Hopen.
  destruct (truthy (trim line)); [|exact Hopen].
  unfold handlePrompt_begin.
  destruct (String.eqb (trim (trim line)) "");
    [now apply reachable_saveHistory|].
  destruct (startsWith "/" (trim line));
    [apply reachable_runCommand|]; now apply reachable_saveHistory.
Qed.

(** X19: whatever line is entered and whatever the service answers, the
    state after it is one the session can reach through the interactions of
    the running program, so that the session is never left paused without
    a snapshot: a paused session has a context of at least two messages that
    ends with an answer, and the id of its conversation. *)
Theorem prompt_loop_keeps_paused_snapshot
    (shares : string -> bool) (webSearchEnabled : bool) (line : string)
    (now : Z) (st : state) :
  reachable st ->
  let answered := snd (promptUser_answer shares webSearchEnabled line now st) in
  reachable answered
  /\ pausedSnapshotOk answered
  /\ (forall prompt streamId events nowMint nowRecord,
        pausedSnapshotOk
          (handlePrompt_events prompt streamId events nowMint nowRecord
             answered))
  /\ (forall prompt responseId output nowRecord nowMint,
        pausedSnapshotOk
          (handlePrompt_response prompt responseId output nowRecord nowMint
             answered)).
Proof.
  intros Hst answered.
  assert (Hanswered : reachable answered)
    by now apply reachable_promptUser_answer.
  split; [assumption|]. split; [now apply reachable_pausedSnapshotOk|]. split.
  - intros. apply reachable_pausedSnapshotOk.
    exact (reachable_step _ _ Hanswered (step_handlePrompt_stream _ _ _ _ _ _)).
  - intros. apply reachable_pausedSnapshotOk.
    exact (reachable_step _ _ Hanswered
             (step_handlePrompt_complete _ _ _ _ _ _)).
Qed.

Lemma prompt_loop_keeps_paused_snapshot_witness :
  reachable afterExchange1
  /\ pausedSnapshotOk
       (handlePrompt_events "more" None
          [StreamEvent (Some "resp_2") (Some "output_text.delta") None None
             None None (Some "sure") None]
          6 7
          (snd (promptUser_answer (fun _ => false) false "more" 5
                  afterExchange1))).
Proof.
  split; [exact reachable_afterExchange1|].
  destruct (prompt_loop_keeps_paused_snapshot (fun _ => false) false "more" 5
              afterExchange1 reachable_afterExchange1) as (_ & _ & Hevents & _).
  apply Hevents.
Defined.
